(** * Exchange-rate service (exchange_service_v2.py): configuration,
      business days, synchronisation with the external rate source, the
      read endpoint with its web and chat views, and the health endpoint.

    The development embeds the functions of
    [src/exchange-api/exchange_service_v2.py] and proves the properties the
    specification states about them.

    Conventions of the embedding.
    - A [datetime.date] is represented by its proleptic Gregorian ordinal
      ([date.toordinal()]): day 1 is 0001-01-01, a Monday.  [timedelta(days=k)]
      arithmetic is addition on ordinals, comparison is comparison of
      ordinals, and [weekday()] is Python's: Monday is 0 and Sunday is 6.
      Python keeps dates within the years 1 to 9999.  The walk back of
      [get_business_days] is the one place where a count can take the code
      out of that range: [get_business_days_checked] is the function with
      the [OverflowError], and [get_business_days] the list it returns.  The
      clock of the service is far from both ends, and elsewhere the bound is
      not represented.
      PostgREST serialises the [date] column as [%Y-%m-%d]; the [strftime] /
      [strptime] round trip is the identity on dates and is not represented.
    - The clock ([now_kst], [today_kst]), the external rate source, the
      configuration and the availability of the storage backend are inputs of
      the model (the record [env]); the PostgREST table is explicit state,
      a list of rows whose key is the date: the storage refuses an insert
      that would give a date two rows, and a request that is refused or not
      answered changes nothing.  Whether a request reaches the storage
      depends on the request: two identical reads of one run have the same
      outcome.
    - JSON numbers are IEEE 754 doubles, as Python reads them; a JSON [null]
      is [None].
    - The answers of PostgREST to the queries of [load_config_from_db] are an
      input of the loader; a dict is a list of keys and values in insertion
      order, and [exit(1)] and a [KeyError] are [None]. *)

From Equations Require Import Equations.
From Stdlib Require Import Ascii String ZArith List Lia Bool.
From Stdlib Require Import Floats.PrimFloat.
From Stdlib Require Import Sorted Permutation.
Import ListNotations.
Open Scope Z_scope.

(* ===================================================================== *)
(** ** Dates *)
(* ===================================================================== *)

Definition date := Z.

(** [date.weekday()]: Monday is 0, Sunday is 6.  Ordinal 1 is a Monday. *)
Definition weekday (d : date) : Z := (d + 6) mod 7.

(** The test [current.weekday() < 5] of the source (Monday to Friday). *)
Definition is_business_day (d : date) : bool := weekday d <? 5.

(** [date(y, m, d).toordinal()], for writing concrete dates. *)
Definition is_leap (y : Z) : bool :=
  ((y mod 4 =? 0) && negb (y mod 100 =? 0)) || (y mod 400 =? 0).

Definition days_before_year (y : Z) : Z :=
  let p := y - 1 in p * 365 + p / 4 - p / 100 + p / 400.

Definition days_in_month (y m : Z) : Z :=
  if m =? 2 then (if is_leap y then 29 else 28)
  else if (m =? 4) || (m =? 6) || (m =? 9) || (m =? 11) then 30 else 31.

Fixpoint days_before_month_aux (y : Z) (k : nat) : Z :=
  match k with
  | O => 0
  | S k' => days_before_month_aux y k' + days_in_month y (Z.of_nat k)
  end.

Definition ymd (y m d : Z) : date :=
  days_before_year y + days_before_month_aux y (Z.to_nat (m - 1)) + d.

(* ===================================================================== *)
(** ** get_business_days *)
(* ===================================================================== *)

(** The loop of [get_business_days] stops: a business day raises [count],
    and a Saturday or Sunday is at most two steps away from a Friday. *)
Definition gbd_measure (days : Z) (current : date) (count : Z) : nat :=
  (3 * Z.to_nat (days - count) + Z.to_nat (weekday current - 4))%nat.

(** [get_business_days]: the [while count < days] loop.  [current] is the date
    of the running [datetime] (its time of day never changes). *)
Equations? gbd_loop (days : Z) (current : date) (count : Z) (result : list date)
  : list date by wf (gbd_measure days current count) lt :=
gbd_loop days current count result with Z_lt_dec count days := {
  | left _ with Z_lt_dec (weekday current) 5 := {
      | left _ := gbd_loop days (current - 1) (count + 1) (result ++ [current]);
      | right _ := gbd_loop days (current - 1) count result };
  | right _ := result }.
Proof.
  - unfold gbd_measure, weekday in *.
    pose proof (Z.mod_pos_bound (current - 1 + 6) 7 ltac:(lia)). lia.
  - unfold gbd_measure, weekday in *.
    assert ((current - 1 + 6) mod 7 = (current + 6) mod 7 - 1).
    { pose proof (Z.div_mod (current + 6) 7 ltac:(lia)).
      pose proof (Z.mod_pos_bound (current + 6) 7 ltac:(lia)).
      symmetry. apply Z.mod_unique with (q := (current + 6) / 7); lia. }
    lia.
Qed.

(** [get_business_days(days)], with the reading of [now_kst()] as [now]: the
    dates the loop collects, on day numbers without the bound of Python's
    dates.  By [get_business_days_checked_some] below this is the result of
    the code whenever the code returns. *)
Definition get_business_days (now : date) (days : Z) : list date :=
  gbd_loop days now 0 [].

(** The day number of [date.min], 0001-01-01. *)
Definition MINORDINAL : Z := 1.

(** The loop as Python runs it.  [current -= timedelta(days=1)] is executed
    in every turn, after the test of the weekday, and raises [OverflowError]
    when the result is before 0001-01-01; nothing catches it in the function.
    [None] stands for that exception. *)
Equations? gbd_loop_checked (days : Z) (current : date) (count : Z) (result : list date)
  : option (list date) by wf (Z.to_nat current) lt :=
gbd_loop_checked days current count result with Z_lt_dec count days := {
  | left _ with Z_lt_dec (weekday current) 5 := {
      | left _ with Z_lt_dec (current - 1) MINORDINAL := {
          | left _ := None;
          | right _ := gbd_loop_checked days (current - 1) (count + 1) (result ++ [current]) };
      | right _ with Z_lt_dec (current - 1) MINORDINAL := {
          | left _ := None;
          | right _ := gbd_loop_checked days (current - 1) count result } };
  | right _ := Some result }.
Proof. all: unfold MINORDINAL in *; lia. Qed.

Definition get_business_days_checked (now : date) (days : Z) : option (list date) :=
  gbd_loop_checked days now 0 [].

(* ===================================================================== *)
(** ** The world of the service: configuration, clock, rate source, storage *)
(* ===================================================================== *)

(** A row of the exchange-rate table, and a record as the sync builds it
    ([data_to_save]): the date and the four rates, [None] for JSON null. *)
Record rate_row : Type := mk_row {
  row_date : date;
  usd : option float;
  eur : option float;
  jpy100 : option float;
  cnh : option float }.

(** One entry of the external source's payload: [cur_unit] after [strip()],
    and [deal_bas_r] after [float(deal_bas_r.replace(',', ''))], [None] when
    that conversion raises. *)
Record api_item : Type := mk_item {
  cur_unit : string;
  deal_bas_r : option float }.

(** What [requests.get(EXCHANGE_API_BASE_URL, ...)] followed by
    [raise_for_status()] and [json()] gives for a date: an exception
    (transport, HTTP status or parse), or the decoded payload. *)
Inductive fetch_result : Type :=
| FetchError
| FetchOk (api_data : list api_item).

(** The PostgREST requests the service issues on the exchange-rate table. *)
Inductive request : Type :=
| GetHealth                                      (* GET ?limit=1 *)
| GetLatest                                      (* GET ?select=date&order=date.desc&limit=1 *)
| GetDates (dates : list date) (ordered : bool)  (* GET ?date=in.(...)[&order=date.desc] *)
| Post (rows : list rate_row)                    (* POST, a JSON array *)
| Patch (d : date) (item : rate_row).            (* PATCH ?date=eq.d *)

(** What the service does to the outside, in order. *)
Inductive event : Type :=
| Storage (q : request)
| Fetch (d : date).

(** The inputs of a run that the service does not control. *)
Record env : Type := mk_env {
  EXCHANGE_API_BASE_URL : option string;
  EXCHANGE_API_AUTH_KEY : option string;
  now_kst : date;
  fetch_rates : date -> fetch_result;
  (** [reachable q = false]: the request [q] does not reach the storage, or
      its answer does not come back; it ends in a
      [requests.exceptions.RequestException] and changes nothing. *)
  reachable : request -> bool }.

Definition today_kst (e : env) : date := now_kst e.

(** The table behind PostgREST and the log of the run. *)
Record world : Type := mk_world {
  table : list rate_row;
  trace : list event }.

(** State passing over [world]. *)
Definition M (A : Type) : Type := world -> A * world.

Definition ret {A : Type} (a : A) : M A := fun w => (a, w).

Definition bind {A B : Type} (m : M A) (k : A -> M B) : M B :=
  fun w => let (a, w') := m w in k a w'.

Notation "x <- m ;; k" := (bind m (fun x => k))
  (at level 61, m at next level, right associativity).

Definition log (ev : event) : M unit :=
  fun w => (tt, mk_world (table w) (trace w ++ [ev])).

(** Membership of a date in a list of dates ([in]). *)
Definition date_in (d : date) (l : list date) : bool := existsb (Z.eqb d) l.

(** [order=date.desc]. *)
Fixpoint insert_desc (r : rate_row) (l : list rate_row) : list rate_row :=
  match l with
  | [] => [r]
  | x :: t => if row_date x <? row_date r then r :: l else x :: insert_desc r t
  end.

Definition order_date_desc (l : list rate_row) : list rate_row :=
  fold_right insert_desc [] l.

(** [select=date]: only the date column is returned. *)
Definition select_date (r : rate_row) : rate_row :=
  mk_row (row_date r) None None None None.

(** The date is the key of the table, which holds at most one row for a
    date.  The storage refuses (HTTP 409, which [raise_for_status] turns
    into a [RequestException]) a POST two of whose rows have the same date
    or one of whose rows has the date of a stored row, and stores none of
    its rows.  The other requests create no row; a PATCH of the service
    carries the date it is keyed by. *)
Fixpoint unique_dates (ds : list date) : bool :=
  match ds with
  | [] => true
  | d :: rest => negb (date_in d rest) && unique_dates rest
  end.

Definition accepts (q : request) (t : list rate_row) : bool :=
  match q with
  | Post rows =>
      unique_dates (map row_date rows)
      && negb (existsb (fun r => date_in (row_date r) (map row_date t)) rows)
  | _ => true
  end.

(** The rows a request returns ([Prefer: return=representation]) and the
    table after it, when the storage accepts it and the answer comes
    back. *)
Definition answer (q : request) (t : list rate_row) : list rate_row * list rate_row :=
  match q with
  | GetHealth => (firstn 1 t, t)
  | GetLatest => (map select_date (firstn 1 (order_date_desc t)), t)
  | GetDates dates ordered =>
      let found := filter (fun r => date_in (row_date r) dates) t in
      (if ordered then order_date_desc found else found, t)
  | Post rows => (rows, t ++ rows)
  | Patch d item =>
      (map (fun _ => item) (filter (fun r => row_date r =? d) t),
       map (fun r => if row_date r =? d then item else r) t)
  end.

(** The dict [postgrest_request] returns: [success] with [data], or not. *)
Inductive pg_result : Type :=
| PgOk (data : list rate_row)
| PgFail.

Definition postgrest_request (e : env) (q : request) : M pg_result :=
  _ <- log (Storage q) ;;
  fun w =>
    if accepts q (table w) && reachable e q
    then let (data, t') := answer q (table w) in (PgOk data, mk_world t' (trace w))
    else (PgFail, w).

(* ===================================================================== *)
(** ** sync_exchange_data_from_api *)
(* ===================================================================== *)

Definition CURRENCIES : list string := ["USD"; "EUR"; "JPY100"; "CNH"]%string.

(** [rates_dict], a dict over the keys of [CURRENCIES]. *)
Definition rates_dict : Type := list (string * option float).

Definition dict_mem (k : string) (d : rates_dict) : bool :=
  existsb (fun p => String.eqb (fst p) k) d.

Definition dict_set (k : string) (v : option float) (d : rates_dict) : rates_dict :=
  map (fun p => if String.eqb (fst p) k then (k, v) else p) d.

Definition dict_get (k : string) (d : rates_dict) : option float :=
  match find (fun p => String.eqb (fst p) k) d with
  | Some p => snd p
  | None => None
  end.

(** The inner loop over [api_data]: an item whose rate does not convert is
    skipped; 'JPY(100)' is stored under 'JPY100'; other units are kept only
    when they are keys of [rates_dict]. *)
Definition normalize_item (d : rates_dict) (item : api_item) : rates_dict :=
  match deal_bas_r item with
  | None => d
  | Some rate_value =>
      if String.eqb (cur_unit item) "JPY(100)" then dict_set "JPY100" (Some rate_value) d
      else if dict_mem (cur_unit item) d then dict_set (cur_unit item) (Some rate_value) d
      else d
  end.

Definition data_to_save (d : date) (api_data : list api_item) : rate_row :=
  let rates := fold_left normalize_item api_data (map (fun cur => (cur, None)) CURRENCIES) in
  mk_row d (dict_get "USD" rates) (dict_get "EUR" rates)
           (dict_get "JPY100" rates) (dict_get "CNH" rates).

(** [not s or s == "your_api_key_here"]. *)
Definition unset (s : option string) : bool :=
  match s with
  | None => true
  | Some v => String.eqb v "" || String.eqb v "your_api_key_here"
  end.

Definition missing_vars (e : env) : list string :=
  (if unset (EXCHANGE_API_BASE_URL e) then ["EXCHANGE_API_BASE_URL"%string] else [])
  ++ (if unset (EXCHANGE_API_AUTH_KEY e) then ["EXCHANGE_API_AUTH_KEY"%string] else []).

(** The [while current <= today] loop of step 2. *)
Equations? bd_loop (today : date) (current : date) (business_days : list date)
  : list date by wf (Z.to_nat (today + 1 - current)) lt :=
bd_loop today current business_days with Z_le_dec current today := {
  | left _ := bd_loop today (current + 1)
                (if is_business_day current then business_days ++ [current]
                 else business_days);
  | right _ := business_days }.
Proof. lia. Qed.

(** Step 2 after [latest_date] is known: [None] when [latest_date >= today]
    (first early return), otherwise the business days of
    [(latest_date, today]], oldest first. *)
Definition sync_business_days (latest_date today : date) : option (list date) :=
  if latest_date >=? today then None
  else Some (bd_loop today (latest_date + 1) []).

(** The dates a run has to fetch. *)
Definition missing_dates (latest_date today : date) : list date :=
  match sync_business_days latest_date today with
  | None => []
  | Some business_days => business_days
  end.

(** The three lists the [for date in business_days] loop fills. *)
Record fetched : Type := mk_fetched {
  fetch_failed : list date;
  to_insert : list rate_row;
  to_update : list rate_row }.

(** One turn of the loop on the three lists: the [except Exception] branch
    records the date; an empty payload ([if not api_data: continue]) leaves
    the lists alone; a record goes to [to_update] when its date is among
    [existing_dates], to [to_insert] otherwise. *)
Definition fetch_turn (e : env) (existing_dates : list date) (acc : fetched) (d : date)
  : fetched :=
  match fetch_rates e d with
  | FetchError => mk_fetched (fetch_failed acc ++ [d]) (to_insert acc) (to_update acc)
  | FetchOk [] => acc
  | FetchOk api_data =>
      let item := data_to_save d api_data in
      if date_in (row_date item) existing_dates
      then mk_fetched (fetch_failed acc) (to_insert acc) (to_update acc ++ [item])
      else mk_fetched (fetch_failed acc) (to_insert acc ++ [item]) (to_update acc)
  end.

(** The turn with its call of the external source. *)
Definition fetch_date (e : env) (existing_dates : list date) (acc : fetched) (d : date)
  : M fetched :=
  _ <- log (Fetch d) ;;
  ret (fetch_turn e existing_dates acc d).

Fixpoint fetch_dates (e : env) (existing_dates : list date) (acc : fetched)
  (business_days : list date) : M fetched :=
  match business_days with
  | [] => ret acc
  | d :: rest =>
      acc' <- fetch_date e existing_dates acc d ;;
      fetch_dates e existing_dates acc' rest
  end.

(** [success_count] and [failed_dates] while the records are written. *)
Definition tally : Type := (Z * list date)%type.

(** [if to_insert:] one POST with the whole list. *)
Definition write_inserts (e : env) (rows : list rate_row) (t : tally) : M tally :=
  match rows with
  | [] => ret t
  | _ :: _ =>
      insert_result <- postgrest_request e (Post rows) ;;
      match insert_result with
      | PgOk data => ret (fst t + Z.of_nat (length data), snd t)
      | PgFail => ret (fst t, snd t ++ map row_date rows)
      end
  end.

(** [for item in to_update:] one PATCH per record, keyed by its date. *)
Fixpoint write_updates (e : env) (rows : list rate_row) (t : tally) : M tally :=
  match rows with
  | [] => ret t
  | item :: rest =>
      update_result <- postgrest_request e (Patch (row_date item) item) ;;
      match update_result with
      | PgOk _ => write_updates e rest (fst t + 1, snd t)
      | PgFail => write_updates e rest (fst t, snd t ++ [row_date item])
      end
  end.

(** Step 3: the batched existence check, the fetch loop and the writes. *)
Definition existing_dates_of (existing_data_result : pg_result) : list date :=
  match existing_data_result with
  | PgOk data => map row_date data
  | PgFail => []
  end.

Definition sync_step3 (e : env) (business_days : list date) : M tally :=
  existing_data_result <- postgrest_request e (GetDates business_days false) ;;
  let existing_dates := existing_dates_of existing_data_result in
  f <- fetch_dates e existing_dates (mk_fetched [] [] []) business_days ;;
  t <- write_inserts e (to_insert f) (0, fetch_failed f) ;;
  write_updates e (to_update f) t.

(** The progress report. *)
Inductive status : Type := in_progress | done | failed.

Record step : Type := mk_step { step_no : Z; step_status : status }.

(** [steps[-1].update({"status": ...})]. *)
Fixpoint update_last (s : status) (steps : list step) : list step :=
  match steps with
  | [] => []
  | [x] => [mk_step (step_no x) s]
  | x :: rest => x :: update_last s rest
  end.

Inductive sync_summary : Type :=
| NoNewData                                (* no new data to update *)
| Updated (total : nat) (success_count : Z).

Inductive sync_error : Type :=
| MissingVars (vars : list string)         (* API configuration missing *)
| StorageUnreachable.                      (* the PostgREST connection failed *)

(** The dict the function returns; an absent key is [None]. *)
Record sync_result : Type := mk_result {
  success : bool;
  steps : list step;
  summary : option sync_summary;
  failed_dates : option (list date);
  error : option sync_error }.

(** [latest_date] of step 2: the date of the newest row, or 100 days before
    today when the query fails or the table is empty. *)
Definition latest_date_of (latest_data : pg_result) (today : date) : date :=
  match latest_data with
  | PgOk (r :: _) => row_date r
  | _ => today - 100
  end.

(** [sync_exchange_data_from_api]: step 1 (configuration and health check),
    step 2 (latest date and business days, with the two early returns) and
    step 3.  The function's outer handler ([except Exception]) returns
    [success = False] with the text of the exception; on rows and dates of
    the types above no statement outside the fetch loop raises, so the
    handler has no case here. *)
Definition sync_exchange_data_from_api (e : env) : M sync_result :=
  let steps1 := [mk_step 1 in_progress] in
  match missing_vars e with
  | (_ :: _) as vars =>
      ret (mk_result false (update_last failed steps1) None None (Some (MissingVars vars)))
  | [] =>
      health_check <- postgrest_request e GetHealth ;;
      match health_check with
      | PgFail =>
          ret (mk_result false (update_last failed steps1) None None (Some StorageUnreachable))
      | PgOk _ =>
          let steps2 := update_last done steps1 ++ [mk_step 2 in_progress] in
          latest_data <- postgrest_request e GetLatest ;;
          let today := today_kst e in
          let latest_date := latest_date_of latest_data today in
          match sync_business_days latest_date today with
          | None =>
              ret (mk_result true (update_last done steps2) (Some NoNewData) None None)
          | Some [] =>
              ret (mk_result true (update_last done steps2) (Some NoNewData) None None)
          | Some business_days =>
              let steps3 := update_last done steps2 ++ [mk_step 3 in_progress] in
              t <- sync_step3 e business_days ;;
              ret (mk_result true (update_last done steps3)
                     (Some (Updated (length business_days) (fst t)))
                     (match snd t with [] => None | l => Some l end)
                     None)
          end
      end
  end.

(* ===================================================================== *)
(** ** api2db *)
(* ===================================================================== *)

(** The route [/api/exchange_api2db]: the result of the sync with status 200
    when it reports success and 500 otherwise. *)
Definition api2db (e : env) : M (sync_result * Z) :=
  result <- sync_exchange_data_from_api e ;;
  ret (result, if success result then 200 else 500).

(* ===================================================================== *)
(** ** db2api *)
(* ===================================================================== *)

(** The query parameter [days]: absent or empty (the default applies), a
    string [int()] converts, or a string on which [int()] raises. *)
Inductive days_arg : Type :=
| DaysAbsent
| DaysInt (n : Z)
| DaysInvalid.

(** The query parameter [format] after [lower()]: absent or empty, 'web',
    'chat', or anything else. *)
Inductive format_arg : Type :=
| FormatAbsent
| FormatWeb
| FormatChat
| FormatOther.

(** The error messages of the endpoint. *)
Inductive api_error : Type :=
| FormatRequired                 (* the format parameter is required *)
| FormatInvalid                  (* format must be 'web' or 'chat' *)
| DaysOutOfRange                 (* days must be between 1 and 100 *)
| NoBusinessDays                 (* no business day to look up *)
| SyncFailed (err : option sync_error)   (* api2db failed: ... *)
| NoData                         (* no exchange-rate data for the requested period *)
| NeedTwoDays                    (* at least 2 days of data are needed to compute the change *)
| Unhandled.                     (* str(e) of an exception caught by the handler *)

(** One element of the web list. *)
Record web_row : Type := mk_web {
  web_date : date;
  web_USD : float;
  web_EUR : float;
  web_JPY100 : float;
  web_CNH : float }.

(** The JSON body of a response. *)
Inductive body : Type :=
| ErrorBody (err : api_error)
| WebBody (data : list web_row) (total_days : nat) (requested_days : Z) (latest_date : date)
| ChatBody (formatted_rates : list (string * float * float))
           (today yesterday : date) (requested_days : Z).

(** Body and HTTP status code. *)
Definition response : Type := (body * Z)%type.

(** [row.get(currency.lower())] for the currencies of [CURRENCIES]. *)
Definition column (currency : string) (r : rate_row) : option float :=
  if String.eqb currency "USD" then usd r
  else if String.eqb currency "EUR" then eur r
  else if String.eqb currency "JPY100" then jpy100 r
  else if String.eqb currency "CNH" then cnh r
  else None.

(** Python's [x / y] on floats: [None] stands for [ZeroDivisionError]. *)
Definition truediv (x y : float) : option float :=
  if PrimFloat.eqb y 0 then None else Some (x / y)%float.

(** [float(v or 0.0)]. *)
Definition or_zero (v : option float) : float :=
  match v with
  | None => 0%float
  | Some x => if PrimFloat.eqb x 0 then 0%float else x
  end.

Definition web_of_row (r : rate_row) : web_row :=
  mk_web (row_date r) (or_zero (usd r)) (or_zero (eur r))
         (or_zero (jpy100 r)) (or_zero (cnh r)).

Section Presentation.

(** Python's [round(x, 2)] on a float. *)
Variable round2 : float -> float.

(** The body of the [for currency in CURRENCIES] loop: the reported rate and
    the reported trend, or [None] when the division raises. *)
Definition chat_rate (today_rate yest_rate : option float) : option (float * float) :=
  match today_rate, yest_rate with
  | Some t, Some y =>
      if negb (PrimFloat.eqb y 0) then
        match truediv (t - y)%float y with
        | Some q => Some (round2 t, round2 (q * 100)%float)
        | None => None
        end
      else Some (round2 t, 0%float)
  | Some t, None => Some (round2 t, 0%float)
  | None, _ => Some (0%float, 0%float)
  end.

Fixpoint chat_rates (currencies : list string) (today_data yesterday_data : rate_row)
  : option (list (string * float * float)) :=
  match currencies with
  | [] => Some []
  | currency :: rest =>
      match chat_rate (column currency today_data) (column currency yesterday_data) with
      | None => None
      | Some (rate, trend) =>
          match chat_rates rest today_data yesterday_data with
          | None => None
          | Some l => Some ((currency, rate, trend) :: l)
          end
      end
  end.

(** The chat branch on the rows read from the table, newest first. *)
Definition format_chat (db_data : list rate_row) (days : Z) : response :=
  match db_data with
  | today_data :: yesterday_data :: _ =>
      match chat_rates CURRENCIES today_data yesterday_data with
      | Some formatted_rates =>
          (ChatBody formatted_rates (row_date today_data) (row_date yesterday_data) days, 200)
      | None => (ErrorBody Unhandled, 500)
      end
  | _ => (ErrorBody NeedTwoDays, 404)
  end.

(** The web branch; [db_data] is not empty there. *)
Definition format_web (db_data : list rate_row) (days : Z) : response :=
  let web_data := map web_of_row db_data in
  match web_data with
  | first :: _ => (WebBody web_data (length web_data) days (web_date first), 200)
  | [] => (ErrorBody Unhandled, 500)
  end.

(** [latest_data_exists] after the first read. *)
Definition latest_data_exists (all_data_result : pg_result) (latest : date) : bool :=
  match all_data_result with
  | PgOk ((_ :: _) as data) => date_in latest (map row_date data)
  | _ => false
  end.

(** Step 3-1: when the latest business day is missing, one sync run and a
    second read; a failed sync ends the request. *)
Definition self_heal (e : env) (business_days : list date) (all_data_result : pg_result)
  (latest : date) : M (response + pg_result) :=
  if latest_data_exists all_data_result latest then ret (inr all_data_result)
  else
    api2db_result <- sync_exchange_data_from_api e ;;
    if success api2db_result then
      again <- postgrest_request e (GetDates business_days true) ;;
      ret (inr again)
    else ret (inl (ErrorBody (SyncFailed (error api2db_result)), 500)).

(** [int(days_param) if days_param else default]: [None] when [int()]
    raises. *)
Definition parse_days (days_param : days_arg) (default : Z) : option Z :=
  match days_param with
  | DaysAbsent => Some default
  | DaysInt n => Some n
  | DaysInvalid => None
  end.

(** The default of [days]: 2 for chat, 14 for web. *)
Definition default_days (format_type : format_arg) : Z :=
  match format_type with
  | FormatChat => 2
  | _ => 14
  end.

(** The final check of the data and the two formats. *)
Definition render (format_type : format_arg) (days : Z) (all_data_result : pg_result)
  : response :=
  match all_data_result with
  | PgOk ((_ :: _) as db_data) =>
      match format_type with
      | FormatChat => format_chat db_data days
      | _ => format_web db_data days
      end
  | _ => (ErrorBody NoData, 404)
  end.

(** [db2api]: validation of [format] and [days], the business days, the
    first read, step 3-1 and the rendering.  The outer handler answers an
    exception ([int()] on [days], a division by zero) with status 500.  With
    [days] at most 100, [get_business_days] returns for every clock from
    0001-10-28 on ([get_business_days_checked_returns]). *)
Definition db2api (e : env) (days_param : days_arg) (format_type : format_arg) : M response :=
  match format_type with
  | FormatAbsent => ret (ErrorBody FormatRequired, 400)
  | FormatOther => ret (ErrorBody FormatInvalid, 400)
  | _ =>
      match parse_days days_param (default_days format_type) with
      | None => ret (ErrorBody Unhandled, 500)
      | Some days =>
          if (days <? 1) || (days >? 100) then ret (ErrorBody DaysOutOfRange, 400)
          else
            let business_days := get_business_days (now_kst e) days in
            match business_days with
            | [] => ret (ErrorBody NoBusinessDays, 404)
            | latest :: _ =>
                all_data_result <- postgrest_request e (GetDates business_days true) ;;
                healed <- self_heal e business_days all_data_result latest ;;
                match healed with
                | inl resp => ret resp
                | inr final_result => ret (render format_type days final_result)
                end
            end
      end
  end.

End Presentation.

(* ===================================================================== *)
(** ** load_config_from_db and the settings read from it *)
(* ===================================================================== *)

(** A row of [env_configs] with its columns [key] and [value], both text. *)
Record config_row : Type := mk_config_row {
  item_key : string;
  item_value : string }.

(** What [requests.get] followed by [response.json()] gives for a query: an
    exception, or a status code with the rows of the body, which the code
    reads only when the status is 200. *)
Inductive http_reply : Type :=
| HttpRaises
| HttpStatus (status_code : Z) (json : list config_row).

(** A Python dict with string keys, in insertion order. *)
Definition dict (V : Type) : Type := list (string * V).

Fixpoint dict_lookup {V : Type} (k : string) (d : dict V) : option V :=
  match d with
  | [] => None
  | (k', v) :: rest => if String.eqb k' k then Some v else dict_lookup k rest
  end.

(** [d[k] = v]. *)
Fixpoint dict_store {V : Type} (k : string) (v : V) (d : dict V) : dict V :=
  match d with
  | [] => [(k, v)]
  | (k', v') :: rest =>
      if String.eqb k' k then (k, v) :: rest else (k', v') :: dict_store k v rest
  end.

(** A value of the exchange configuration: the text of the row, a flag for
    the key 'enabled', a number for the two keys of the daily update. *)
Inductive setting : Type :=
| SettingStr (s : string)
| SettingBool (b : bool)
| SettingInt (n : Z).

(** The dict [load_config_from_db] returns: [config['services']['exchange-api']],
    [config['services']['postgrest-api']] and [config['exchange']]. *)
Record config : Type := mk_config {
  service_config : dict string;
  postgrest_config : dict string;
  exchange_config : dict (dict setting) }.

(** [key.replace('-', '_')]. *)
Fixpoint replace_dash (s : string) : string :=
  match s with
  | EmptyString => EmptyString
  | String c rest =>
      String (if Ascii.eqb c "-"%char then "_"%char else c) (replace_dash rest)
  end.

Definition required_service_keys : list string := ["host"; "port"; "protocol"]%string.

Definition exchange_sections : list string := ["api"; "database"; "scheduler"]%string.

Section Startup.

(** [str.lower], and [int] on a string: [None] when it raises. *)
Variable lower : string -> string.
Variable int : string -> option Z.

(** The answers of PostgREST to the query of a section and subsection of
    [env_configs]. *)
Variable get : string -> string -> http_reply.

(** [service_config[item['key']] = item['value']]. *)
Definition store_item (d : dict string) (item : config_row) : dict string :=
  dict_store (item_key item) (item_value item) d.

(** The key and the value stored for a row of an exchange section; [None]
    when [int] raises. *)
Definition convert (item : config_row) : option (string * setting) :=
  let key := replace_dash (item_key item) in
  if String.eqb key "enabled" then
    Some (key, SettingBool (String.eqb (lower (item_value item)) "true"))
  else if String.eqb key "daily_update_hour" || String.eqb key "daily_update_minute" then
    match int (item_value item) with
    | Some n => Some (key, SettingInt n)
    | None => None
    end
  else Some (key, SettingStr (item_value item)).

Fixpoint load_section (section_configs : list config_row) (d : dict setting)
  : option (dict setting) :=
  match section_configs with
  | [] => Some d
  | item :: rest =>
      match convert item with
      | None => None
      | Some (key, v) => load_section rest (dict_store key v d)
      end
  end.

(** The loop over [exchange_sections]: a section answered with another
    status than 200 is skipped. *)
Fixpoint load_sections (sections : list string) (exchange_config : dict (dict setting))
  : option (dict (dict setting)) :=
  match sections with
  | [] => Some exchange_config
  | section :: rest =>
      match get "exchange" section with
      | HttpRaises => None
      | HttpStatus status_code section_configs =>
          if status_code =? 200 then
            match load_section section_configs [] with
            | None => None
            | Some d => load_sections rest (dict_store section d exchange_config)
            end
          else load_sections rest exchange_config
      end
  end.

(** Only the keys 'host' and 'port' replace a default. *)
Definition store_postgrest (d : dict string) (item : config_row) : dict string :=
  if String.eqb (item_key item) "host" || String.eqb (item_key item) "port"
  then dict_store (item_key item) (item_value item) d
  else d.

Definition postgrest_defaults : dict string :=
  [("host", "127.0.0.1"); ("port", "3010")]%string.

(** [load_config_from_db]: [None] stands for [exit(1)], which the function
    calls on every exception. *)
Definition load_config_from_db : option config :=
  match get "services" "exchange-api" with
  | HttpRaises => None
  | HttpStatus status_code service_configs =>
      if status_code =? 200 then
        match service_configs with
        | [] => None
        | _ :: _ =>
            let service_config := fold_left store_item service_configs [] in
            if forallb (fun key => match dict_lookup key service_config with
                                   | Some _ => true
                                   | None => false
                                   end) required_service_keys
            then
              match load_sections exchange_sections [] with
              | None => None
              | Some exchange_config =>
                  match get "services" "postgrest-api" with
                  | HttpRaises => None
                  | HttpStatus status_code' postgrest_data =>
                      let postgrest_config :=
                        if status_code' =? 200
                        then fold_left store_postgrest postgrest_data postgrest_defaults
                        else postgrest_defaults in
                      Some (mk_config service_config postgrest_config exchange_config)
                  end
              end
            else None
        end
      else None
  end.

End Startup.

(** [POSTGREST_BASE_URL]; [None] stands for a [KeyError]. *)
Definition POSTGREST_BASE_URL (c : config) : option string :=
  match dict_lookup "host" (postgrest_config c), dict_lookup "port" (postgrest_config c) with
  | Some host, Some port => Some ("http://" ++ host ++ ":" ++ port)%string
  | _, _ => None
  end.

(** [config['exchange'][section][key]]; [None] stands for a [KeyError]. *)
Definition exchange_setting (c : config) (section key : string) : option setting :=
  match dict_lookup section (exchange_config c) with
  | Some d => dict_lookup key d
  | None => None
  end.

(** [EXCHANGE_RATES_TABLE]. *)
Definition EXCHANGE_RATES_TABLE (c : config) : option setting :=
  exchange_setting c "database" "table_name".

(* ===================================================================== *)
(** ** Definitions for the statements: closed forms, observations of a run,
       and the data of the examples *)
(* ===================================================================== *)

(** The most recent Monday-to-Friday date that is not after [c]. *)
Definition last_weekday (c : date) : date := c - Z.max 0 (weekday c - 4).

(** The [n] most recent business days not after [c], most recent first. *)
Fixpoint weekdays_back (n : nat) (c : date) : list date :=
  match n with
  | O => []
  | S k => last_weekday c :: weekdays_back k (last_weekday c - 1)
  end.

(** [R] holds between each element of a list and the next one. *)
Fixpoint adjacent {A : Type} (R : A -> A -> Prop) (l : list A) : Prop :=
  match l with
  | a :: ((b :: _) as t) => R a b /\ adjacent R t
  | _ => True
  end.

(** The request [q] on the table [t] is answered: the storage accepts it
    and it is reachable.  For every request but a POST this is [reachable]. *)
Definition answered (e : env) (q : request) (t : list rate_row) : bool :=
  accepts q t && reachable e q.

(** The result of a request and the table after it. *)
Definition served (e : env) (q : request) (t : list rate_row) : pg_result :=
  if answered e q t then PgOk (fst (answer q t)) else PgFail.

Definition effect (e : env) (q : request) (t : list rate_row) : list rate_row :=
  if answered e q t then snd (answer q t) else t.

(** Step 1 passes: the configuration is set and the table answers. *)
Definition preconditions (e : env) : bool :=
  match missing_vars e with
  | [] => reachable e GetHealth
  | _ :: _ => false
  end.

(** [latest_date], [business_days], [existing_dates] and the three lists of
    the fetch loop of a run that starts on the table [t]. *)
Definition run_latest (e : env) (t : list rate_row) : date :=
  latest_date_of (served e GetLatest t) (today_kst e).

Definition run_plan (e : env) (t : list rate_row) : list date :=
  missing_dates (run_latest e t) (today_kst e).

Definition run_existing (e : env) (t : list rate_row) : list date :=
  existing_dates_of (served e (GetDates (run_plan e t) false) t).

Definition run_fetched (e : env) (t : list rate_row) : fetched :=
  fold_left (fetch_turn e (run_existing e t)) (run_plan e t) (mk_fetched [] [] []).

(** The write requests of step 3 for the lists [rows] and [items]. *)
Definition insert_requests (rows : list rate_row) : list request :=
  match rows with
  | [] => []
  | _ :: _ => [Post rows]
  end.

Definition update_requests (items : list rate_row) : list request :=
  map (fun item => Patch (row_date item) item) items.

(** The dates a failed write reports; the POST is sent on the table [t]. *)
Definition insert_failures (e : env) (t : list rate_row) (rows : list rate_row)
  : list date :=
  match rows with
  | [] => []
  | _ :: _ => if answered e (Post rows) t then [] else map row_date rows
  end.

Definition update_failures (e : env) (items : list rate_row) : list date :=
  map row_date (filter (fun item => negb (reachable e (Patch (row_date item) item))) items).

(** The table after the writes. *)
Definition apply_requests (e : env) (qs : list request) (t : list rate_row) : list rate_row :=
  fold_left (fun t q => effect e q t) qs t.

(** The events a run appended to the trace of [w]. *)
Definition events_since (w w' : world) : list event :=
  skipn (length (trace w)) (trace w').

Definition fetched_dates (evs : list event) : list date :=
  flat_map (fun ev => match ev with Fetch d => [d] | Storage _ => [] end) evs.

Definition is_write (q : request) : bool :=
  match q with
  | Post _ | Patch _ _ => true
  | _ => false
  end.

Definition write_requests (evs : list event) : list request :=
  flat_map (fun ev => match ev with
                      | Storage q => if is_write q then [q] else []
                      | Fetch _ => []
                      end) evs.

(** The dates a write request is about: the dates of the rows of a POST;
    the key of a PATCH and the date of its record. *)
Definition request_dates (q : request) : list date :=
  match q with
  | Post rows => map row_date rows
  | Patch d item => [d; row_date item]
  | _ => []
  end.

(** The rows the answered POST requests among [qs] created, when the
    requests are sent in order and the first one on the table [t]. *)
Fixpoint inserted_by (e : env) (qs : list request) (t : list rate_row) : list rate_row :=
  match qs with
  | [] => []
  | q :: rest =>
      match q with
      | Post rows => if answered e q t then rows else []
      | _ => []
      end ++ inserted_by e rest (effect e q t)
  end.

(** The dates the answered requests among [qs] wrote. *)
Fixpoint written_by (e : env) (qs : list request) (t : list rate_row) : list date :=
  match qs with
  | [] => []
  | q :: rest =>
      (if answered e q t then request_dates q else [])
      ++ written_by e rest (effect e q t)
  end.

(** The rows created and the dates written by the write requests among the
    events [evs] of a run that starts on the table [t]; the other events do
    not change the table. *)
Definition inserted_rows (e : env) (evs : list event) (t : list rate_row)
  : list rate_row :=
  inserted_by e (write_requests evs) t.

Definition written_dates (e : env) (evs : list event) (t : list rate_row) : list date :=
  written_by e (write_requests evs) t.

Definition failed_list (r : sync_result) : list date :=
  match failed_dates r with
  | Some l => l
  | None => []
  end.

(** The rows of a table for one date. *)
Definition rows_of (d : date) (t : list rate_row) : list rate_row :=
  filter (fun r => row_date r =? d) t.

(** The [n] consecutive dates from [start] on. *)
Fixpoint days_from (start : date) (n : nat) : list date :=
  match n with
  | O => []
  | S k => start :: days_from (start + 1) k
  end.

(** The source has a record for [d]; the call for [d] raises; the record. *)
Definition has_data (e : env) (d : date) : bool :=
  match fetch_rates e d with
  | FetchOk (_ :: _) => true
  | _ => false
  end.

Definition fetch_fails (e : env) (d : date) : bool :=
  match fetch_rates e d with
  | FetchError => true
  | FetchOk _ => false
  end.

Definition item_of (e : env) (d : date) : rate_row :=
  match fetch_rates e d with
  | FetchOk api_data => data_to_save d api_data
  | FetchError => data_to_save d []
  end.

(** The write requests and the reported failures of step 3, from the lists
    of the fetch loop. *)
Definition step3_requests (f : fetched) : list request :=
  insert_requests (to_insert f) ++ update_requests (to_update f).

Definition step3_failures (e : env) (t : list rate_row) (f : fetched) : list date :=
  fetch_failed f ++ insert_failures e t (to_insert f) ++ update_failures e (to_update f).

(** The write requests, the reported failures and the events of a run that
    starts on the table [t] and passes step 1. *)
Definition run_requests (e : env) (t : list rate_row) : list request :=
  step3_requests (run_fetched e t).

Definition run_failures (e : env) (t : list rate_row) : list date :=
  step3_failures e t (run_fetched e t).

Definition run_events (e : env) (t : list rate_row) : list event :=
  Storage GetHealth :: Storage GetLatest ::
  match run_plan e t with
  | [] => []
  | _ :: _ =>
      Storage (GetDates (run_plan e t) false)
      :: map Fetch (run_plan e t) ++ map Storage (run_requests e t)
  end.

(** A week for the examples: the table holds Friday 2025-01-03, today is
    Thursday 2025-01-09; the source has rates for Monday and Thursday, fails
    on Tuesday and has an empty payload for every other day (Wednesday is a
    holiday). *)
Definition demo_source (d : date) : fetch_result :=
  if d =? ymd 2025 1 6 then
    FetchOk [mk_item "USD" (Some 1300.5%float); mk_item "JPY(100)" (Some 900%float);
             mk_item "KRW" (Some 1%float)]
  else if d =? ymd 2025 1 7 then FetchError
  else if d =? ymd 2025 1 9 then FetchOk [mk_item "EUR" (Some 1500%float)]
  else FetchOk [].

Definition demo_env : env :=
  mk_env (Some "https://rates.example/api"%string) (Some "key"%string)
         (ymd 2025 1 9) demo_source (fun _ => true).

Definition demo_world : world :=
  mk_world [mk_row (ymd 2025 1 3) (Some 1290%float) None None None] [].

(** The same week when the latest-date query and every write fail, on a table
    that already holds Monday. *)
Definition demo_env_down : env :=
  mk_env (Some "https://rates.example/api"%string) (Some "key"%string)
         (ymd 2025 1 9) demo_source
         (fun q => match q with
                   | GetLatest | Post _ | Patch _ _ => false
                   | _ => true
                   end).

Definition demo_world_monday : world :=
  mk_world [mk_row (ymd 2025 1 3) (Some 1290%float) None None None;
            mk_row (ymd 2025 1 6) (Some 1299%float) None None None] [].

(** Two rows for the examples: the dollar is missing today, the euro was
    zero yesterday, the yen has both rates. *)
Definition demo_today : rate_row :=
  mk_row (ymd 2025 1 9) None (Some 1500%float) (Some 945%float) None.

Definition demo_yesterday : rate_row :=
  mk_row (ymd 2025 1 8) (Some 1300%float) (Some 0%float) (Some 900%float) None.

(** A Monday on which the storage answers and the source has nothing: the
    table is empty before and after the self-healing sync. *)
Definition demo_env_quiet : env :=
  mk_env (Some "https://rates.example/api"%string) (Some "key"%string)
         (ymd 2025 1 6) (fun _ => FetchOk []) (fun _ => true).

(** The dates to insert and to update of a run on the table [t]. *)
Definition insert_dates (e : env) (t : list rate_row) : list date :=
  filter (fun d => has_data e d && negb (date_in d (run_existing e t))) (run_plan e t).

Definition update_dates (e : env) (t : list rate_row) : list date :=
  filter (fun d => has_data e d && date_in d (run_existing e t)) (run_plan e t).

(** The batched insert of [rows] on the table [t] is answered. *)
Definition inserted (e : env) (t : list rate_row) (rows : list rate_row) : bool :=
  match rows with
  | [] => false
  | _ :: _ => answered e (Post rows) t
  end.

(** What the PATCH requests for the dates [ds] do to a row. *)
Definition patch_row (e : env) (ds : list date) (r : rate_row) : rate_row :=
  if date_in (row_date r) ds
     && reachable e (Patch (row_date r) (item_of e (row_date r)))
  then item_of e (row_date r)
  else r.

(** A second run has nothing left to write: the table does not change and
    the second run creates no row.  A date the first run wrote is, when the
    second run plans it again, found by the existence check and among the
    dates to update when that check is answered; when it is not, the date is
    among the dates to insert and the storage refuses the batched insert. *)
Definition converged (e : env) (t0 : list rate_row) : Prop :=
  let t1 := apply_requests e (run_requests e t0) t0 in
  apply_requests e (run_requests e t1) t1 = t1
  /\ inserted_by e (run_requests e t1) t1 = []
  /\ (forall d,
        In d (written_by e (run_requests e t0) t0) ->
        In d (run_plan e t1) ->
        if reachable e (GetDates (run_plan e t1) false)
        then In d (run_existing e t1) /\ In d (update_dates e t1)
        else In d (insert_dates e t1)
             /\ inserted e t1 (map (item_of e) (insert_dates e t1)) = false).

(** The plan of a run whose latest-date query fails: the last 100 days. *)
Definition default_plan (e : env) : list date :=
  missing_dates (today_kst e - 100) (today_kst e).

(** The same week when only the latest-date query fails: the second run
    plans the same 100 days, finds Monday and Thursday by the existence check
    and updates them. *)
Definition demo_env_blind : env :=
  mk_env (Some "https://rates.example/api"%string) (Some "key"%string)
         (ymd 2025 1 9) demo_source
         (fun q => match q with
                   | GetLatest => false
                   | _ => true
                   end).

(** The same week when neither the latest-date query nor the existence check
    is answered, and the writes are. *)
Definition demo_env_no_reads : env :=
  mk_env (Some "https://rates.example/api"%string) (Some "key"%string)
         (ymd 2025 1 9) demo_source
         (fun q => match q with
                   | GetLatest | GetDates _ false => false
                   | _ => true
                   end).

(** The week seen from Wednesday 2025-01-08, a holiday: the first run
    stores Monday; Tuesday fails and Wednesday is empty. *)
Definition demo_env_wednesday : env :=
  mk_env (Some "https://rates.example/api"%string) (Some "key"%string)
         (ymd 2025 1 8) demo_source (fun _ => true).

(** The rate of the last entry of a payload whose unit is one of [units] and
    whose rate converts. *)
Definition unit_in (u : string) (units : list string) : bool :=
  existsb (String.eqb u) units.

Fixpoint last_rate (units : list string) (api_data : list api_item) : option float :=
  match api_data with
  | [] => None
  | item :: rest =>
      match last_rate units rest with
      | Some v => Some v
      | None => if unit_in (cur_unit item) units then deal_bas_r item else None
      end
  end.

(** What one entry does to the rate stored for the units [units]. *)
Definition entry_update (units : list string) (item : api_item) (old : option float)
  : option float :=
  if unit_in (cur_unit item) units
  then match deal_bas_r item with
       | Some v => Some v
       | None => old
       end
  else old.

(** The source answers for [d] with an empty payload. *)
Definition skipped (e : env) (d : date) : bool :=
  match fetch_rates e d with
  | FetchOk [] => true
  | _ => false
  end.

(** [success_count] at the end of a run that starts on the table [t]: the
    rows of an answered POST and one for each answered PATCH. *)
Definition run_success_count (e : env) (t : list rate_row) : Z :=
  (if inserted e t (to_insert (run_fetched e t))
   then Z.of_nat (length (to_insert (run_fetched e t)))
   else 0)
  + Z.of_nat (length (filter (fun item => reachable e (Patch (row_date item) item))
                        (to_update (run_fetched e t)))).

(** The error of a run that fails step 1. *)
Definition step1_error (e : env) : sync_error :=
  match missing_vars e with
  | [] => StorageUnreachable
  | (_ :: _) as vars => MissingVars vars
  end.

(** The requests of a run that fails step 1: none when the configuration is
    missing, the health check otherwise. *)
Definition step1_events (e : env) : list event :=
  match missing_vars e with
  | [] => [Storage GetHealth]
  | _ :: _ => []
  end.

(** [order=date.desc] as a relation: [a] comes before [b]. *)
Definition date_desc (a b : rate_row) : Prop := row_date b <= row_date a.

(** The rows of the table whose date is one of [dates]. *)
Definition stored_in (dates : list date) (t : list rate_row) : list rate_row :=
  filter (fun r => date_in (row_date r) dates) t.

(** [latest_data_exists] of a request for [days] business days on the table
    [t]. *)
Definition latest_stored (e : env) (days : Z) (t : list rate_row) : bool :=
  let business_days := get_business_days (now_kst e) days in
  latest_data_exists (served e (GetDates business_days true) t) (hd 0 business_days).

(** The least number of rows a format needs. *)
Definition rows_needed (format_type : format_arg) : nat :=
  match format_type with
  | FormatChat => 2
  | _ => 1
  end.

(* ===================================================================== *)
(** ** health_check *)
(* ===================================================================== *)

(** [data_info.latest_data]: the date of the newest row, or 'no data'. *)
Inductive latest_info : Type :=
| LatestDate (d : date)
| NoDataInfo.

(** The JSON body of [/health], without its timestamp and the constants of
    the configuration. *)
Inductive health_body : Type :=
| Unhealthy
| Healthy (latest_data : latest_info) (total_records : nat).

(** [health_check] on the table [t].  Its three requests are reads: the
    health check and the latest-date query of the sync, and a query of the
    date of every row, which is answered or not ([count_answered]).  No
    statement of the function raises on rows of the type above, so its outer
    handler is not reached. *)
Definition health_check (e : env) (count_answered : bool) (t : list rate_row)
  : health_body * Z :=
  match served e GetHealth t with
  | PgFail => (Unhealthy, 500)
  | PgOk _ =>
      let latest_date :=
        match served e GetLatest t with
        | PgOk (r :: _) => LatestDate (row_date r)
        | _ => NoDataInfo
        end in
      let total_records := if count_answered then length (map select_date t) else 0%nat in
      (Healthy latest_date total_records, 200)
  end.

(** The last row of [rows] stored under the key [k], where [key_of] gives
    the key a row is stored under. *)
Definition last_row (key_of : config_row -> string) (k : string) (rows : list config_row)
  : option config_row :=
  find (fun item => String.eqb (key_of item) k) (rev rows).

(** The value of the last row of a reply with the key [k], read only when
    the status is 200, or [default]. *)
Definition reply_value (reply : http_reply) (k default : string) : string :=
  match reply with
  | HttpStatus status_code rows =>
      if status_code =? 200 then
        match last_row item_key k rows with
        | Some item => item_value item
        | None => default
        end
      else default
  | HttpRaises => default
  end.

(** A configuration for the examples: the service rows give the port twice,
    the scheduler section is not answered and the PostgREST rows replace the
    port alone. *)
Definition demo_get (section subsection : string) : http_reply :=
  if String.eqb section "services" && String.eqb subsection "exchange-api" then
    HttpStatus 200 [mk_config_row "host" "0.0.0.0"; mk_config_row "port" "5000";
                    mk_config_row "protocol" "http"; mk_config_row "port" "5001"]
  else if String.eqb section "exchange" && String.eqb subsection "api" then
    HttpStatus 200 [mk_config_row "base-url" "https://rates.example/api";
                    mk_config_row "auth_key" "key"]
  else if String.eqb section "exchange" && String.eqb subsection "database" then
    HttpStatus 200 [mk_config_row "table-name" "exchange_rates"]
  else if String.eqb section "services" && String.eqb subsection "postgrest-api" then
    HttpStatus 200 [mk_config_row "port" "3011"; mk_config_row "name" "postgrest"]
  else HttpStatus 503 [].

Definition demo_int (s : string) : option Z :=
  if String.eqb s "9" then Some 9 else None.

(* ===================================================================== *)
(** ** Lemmas: weekdays and the business-day calculator *)
(* ===================================================================== *)

Lemma weekday_range (d : date) : 0 <= weekday d < 7.
Proof. unfold weekday. apply Z.mod_pos_bound. lia. Qed.

Lemma weekday_pred (d : date) : 0 < weekday d -> weekday (d - 1) = weekday d - 1.
Proof.
  unfold weekday. intros H.
  pose proof (Z.div_mod (d + 6) 7 ltac:(lia)) as E.
  pose proof (Z.mod_pos_bound (d + 6) 7 ltac:(lia)) as B.
  symmetry. apply Z.mod_unique with (q := (d + 6) / 7); lia.
Qed.

Lemma weekday_pred_monday (d : date) : weekday d = 0 -> weekday (d - 1) = 6.
Proof.
  unfold weekday. intros H.
  pose proof (Z.div_mod (d + 6) 7 ltac:(lia)) as E.
  symmetry. apply Z.mod_unique with (q := (d + 6) / 7 - 1); lia.
Qed.

Lemma weekday_succ (d : date) : weekday d < 6 -> weekday (d + 1) = weekday d + 1.
Proof.
  intros H. pose proof (weekday_range (d + 1)) as B.
  destruct (Z.eq_dec (weekday (d + 1)) 0) as [E | E].
  - pose proof (weekday_pred_monday (d + 1) E) as P.
    replace (d + 1 - 1) with d in P by lia. lia.
  - pose proof (weekday_pred (d + 1) ltac:(lia)) as P.
    replace (d + 1 - 1) with d in P by lia. lia.
Qed.

Example get_business_days_saturday :
  get_business_days (ymd 2025 1 4) 3 = [ymd 2025 1 3; ymd 2025 1 2; ymd 2025 1 1].
Proof. reflexivity. Qed.

Example ymd_2025_01_01 : ymd 2025 1 1 = 739252 /\ weekday (ymd 2025 1 1) = 2.
Proof. split; reflexivity. Qed.

Lemma last_weekday_business (c : date) : weekday (last_weekday c) < 5.
Proof.
  unfold last_weekday. pose proof (weekday_range c) as B.
  destruct (Z_lt_dec (weekday c) 5) as [L | L].
  - replace (Z.max 0 (weekday c - 4)) with 0 by lia.
    replace (c - 0) with c by lia. exact L.
  - pose proof (weekday_pred c ltac:(lia)) as P1.
    destruct (Z.eq_dec (weekday c) 5) as [E | E].
    + replace (Z.max 0 (weekday c - 4)) with 1 by lia. lia.
    + replace (Z.max 0 (weekday c - 4)) with 2 by lia.
      pose proof (weekday_pred (c - 1) ltac:(lia)) as P2.
      replace (c - 2) with (c - 1 - 1) by lia. lia.
Qed.

Lemma last_weekday_bounds (c : date) : c - 2 <= last_weekday c <= c.
Proof. unfold last_weekday. pose proof (weekday_range c). lia. Qed.

Lemma last_weekday_id (c : date) : weekday c < 5 -> last_weekday c = c.
Proof. unfold last_weekday. lia. Qed.

Lemma last_weekday_weekend (c : date) :
  5 <= weekday c -> last_weekday (c - 1) = last_weekday c.
Proof.
  intros H. unfold last_weekday.
  pose proof (weekday_range c). pose proof (weekday_pred c ltac:(lia)). lia.
Qed.

Lemma gbd_loop_weekdays_back (days : Z) (current : date) (count : Z) (result : list date) :
  gbd_loop days current count result
  = result ++ weekdays_back (Z.to_nat (days - count)) current.
Proof.
  funelim (gbd_loop days current count result).
  - replace (Z.to_nat (days - count)) with O by lia.
    cbn [weekdays_back]. rewrite app_nil_r. reflexivity.
  - match goal with IH : gbd_loop _ _ _ _ = _ ++ _ |- _ => rewrite IH end.
    replace (Z.to_nat (days - count)) with (S (Z.to_nat (days - (count + 1)))) by lia.
    cbn [weekdays_back]. rewrite last_weekday_id by assumption.
    rewrite <- app_assoc. reflexivity.
  - match goal with IH : gbd_loop _ _ _ _ = _ ++ _ |- _ => rewrite IH end.
    destruct (Z.to_nat (days - count)) as [| k]; [reflexivity |].
    cbn [weekdays_back]. rewrite last_weekday_weekend by lia. reflexivity.
Qed.

Lemma get_business_days_weekdays_back (now : date) (days : Z) :
  get_business_days now days = weekdays_back (Z.to_nat days) now.
Proof.
  unfold get_business_days. rewrite gbd_loop_weekdays_back.
  rewrite Z.sub_0_r. reflexivity.
Qed.

Lemma weekdays_back_length (n : nat) (c : date) : length (weekdays_back n c) = n.
Proof. revert c. induction n as [| n IH]; intros c; cbn; [| rewrite IH]; reflexivity. Qed.

Lemma weekdays_back_all (n : nat) (c : date) :
  Forall (fun x => is_business_day x = true /\ x <= c) (weekdays_back n c).
Proof.
  revert c. induction n as [| n IH]; intros c; cbn [weekdays_back]; constructor.
  - split.
    + unfold is_business_day. apply Z.ltb_lt, last_weekday_business.
    + apply last_weekday_bounds.
  - eapply Forall_impl; [| apply IH].
    cbn. intros x [Hb Hx]. split; [exact Hb |].
    pose proof (last_weekday_bounds c). lia.
Qed.

Lemma weekdays_back_adjacent (n : nat) (c : date) :
  adjacent (fun a b => b < a /\ a - b <= 3) (weekdays_back n c).
Proof.
  revert c. induction n as [| n IH]; intros c; [exact I |].
  cbn [weekdays_back]. specialize (IH (last_weekday c - 1)).
  destruct n as [| n]; [exact I |].
  cbn [weekdays_back adjacent] in *. split; [| exact IH].
  pose proof (last_weekday_bounds (last_weekday c - 1)). lia.
Qed.

Lemma last_cons {A : Type} (l : list A) (x d : A) : last (x :: l) d = last l x.
Proof.
  revert x d. induction l as [| a l IH]; intros x d; [reflexivity |].
  change (last (x :: a :: l) d) with (last (a :: l) d). rewrite !IH. reflexivity.
Qed.

Lemma last_in {A : Type} (l : list A) (x : A) : In (last l x) (x :: l).
Proof.
  revert x. induction l as [| a l IH]; intros x; [left; reflexivity |].
  right. rewrite last_cons. apply IH.
Qed.

(** The last date of the walk is its oldest. *)
Lemma weekdays_back_last_min (k : nat) :
  forall (c : date) (x : date) (l : list date),
    weekdays_back (S k) c = x :: l ->
    forall y, In y (x :: l) -> last l x <= y.
Proof.
  induction k as [| k IH]; intros c x l E y Hy.
  - cbn in E. injection E as <- <-. destruct Hy as [<- | []]. cbn. lia.
  - change (weekdays_back (S (S k)) c)
      with (last_weekday c :: weekdays_back (S k) (last_weekday c - 1)) in E.
    pose proof (f_equal (hd 0) E) as Ex. pose proof (f_equal (@tl date) E) as El.
    cbn [hd tl] in Ex, El. clear E.
    destruct (weekdays_back (S k) (last_weekday c - 1)) as [| x' l'] eqn:E';
      [discriminate |].
    subst x l. rewrite last_cons.
    destruct Hy as [<- | Hy]; [| apply (IH _ _ _ E' y Hy)].
    pose proof (weekdays_back_all (S k) (last_weekday c - 1)) as A.
    rewrite E', Forall_forall in A. destruct (A _ (last_in l' x')) as [_ B]. lia.
Qed.

(** The walk needs at most three days for each business day. *)
Lemma weekdays_back_lower (k : nat) :
  forall (c : date) (y : date),
    In y (weekdays_back k c) -> c - 3 * Z.of_nat k < y.
Proof.
  induction k as [| k IH]; intros c y Hy; [destruct Hy |].
  cbn [weekdays_back] in Hy. pose proof (last_weekday_bounds c) as B.
  destruct Hy as [<- | Hy]; [lia |]. specialize (IH _ _ Hy). lia.
Qed.

(** The checked loop returns what the loop collects when the oldest date of
    the walk is after 0001-01-01, and raises otherwise. *)
Lemma gbd_loop_checked_spec (days : Z) (current : date) (count : Z) (result : list date) :
  gbd_loop_checked days current count result
  = match weekdays_back (Z.to_nat (days - count)) current with
    | [] => Some result
    | x :: l => if 2 <=? last l x then Some (result ++ x :: l) else None
    end.
Proof.
  funelim (gbd_loop_checked days current count result).
  - replace (Z.to_nat (days - count)) with O by lia. reflexivity.
  - destruct (Z.to_nat (days - count)) as [| k] eqn:K; [lia |].
    destruct (weekdays_back (S k) current) as [| x0 rest] eqn:E; [discriminate |].
    pose proof (weekdays_back_all (S k) current) as A.
    rewrite E, Forall_forall in A. destruct (A _ (last_in rest x0)) as [_ B].
    unfold MINORDINAL in *. destruct (Z.leb_spec 2 (last rest x0)); [lia | reflexivity].
  - match goal with IH : context [weekdays_back] |- _ => rewrite IH end.
    replace (Z.to_nat (days - count)) with (S (Z.to_nat (days - (count + 1)))) by lia.
    cbn [weekdays_back]. rewrite last_weekday_id by assumption.
    destruct (weekdays_back _ (current - 1)) as [| x0 rest].
    + cbn [last]. unfold MINORDINAL in *.
      destruct (Z.leb_spec 2 current); [reflexivity | lia].
    + rewrite last_cons, <- app_assoc. reflexivity.
  - destruct (Z.to_nat (days - count)) as [| k] eqn:K; [lia |].
    destruct (weekdays_back (S k) current) as [| x0 rest] eqn:E; [discriminate |].
    pose proof (weekdays_back_all (S k) current) as A.
    rewrite E, Forall_forall in A. destruct (A _ (last_in rest x0)) as [_ B].
    unfold MINORDINAL in *. destruct (Z.leb_spec 2 (last rest x0)); [lia | reflexivity].
  - match goal with IH : context [weekdays_back] |- _ => rewrite IH end.
    destruct (Z.to_nat (days - count)) as [| k] eqn:K; [lia |].
    cbn [weekdays_back]. rewrite last_weekday_weekend by lia. reflexivity.
Qed.

Lemma get_business_days_checked_cases (now : date) (days : Z) :
  (Forall (fun x => 2 <= x) (get_business_days now days)
   /\ get_business_days_checked now days = Some (get_business_days now days))
  \/ ((exists x, In x (get_business_days now days) /\ x < 2)
      /\ get_business_days_checked now days = None).
Proof.
  unfold get_business_days_checked. rewrite gbd_loop_checked_spec.
  rewrite get_business_days_weekdays_back, Z.sub_0_r.
  destruct (Z.to_nat days) as [| k]; [left; split; [constructor | reflexivity] |].
  destruct (weekdays_back (S k) now) as [| x l] eqn:E; [discriminate |].
  destruct (Z.leb_spec 2 (last l x)) as [L | L].
  - left. split; [| reflexivity]. apply Forall_forall. intros y Hy.
    pose proof (weekdays_back_last_min k now x l E y Hy). lia.
  - right. split; [| reflexivity]. exists (last l x). split; [apply last_in | exact L].
Qed.

(** Whenever the code returns, it returns the dates the loop collects. *)
Lemma get_business_days_checked_some (now : date) (days : Z) (l : list date) :
  get_business_days_checked now days = Some l ->
  l = get_business_days now days /\ Forall (fun x => 2 <= x) l.
Proof.
  intros H. destruct (get_business_days_checked_cases now days) as [[F E] | [_ E]];
    rewrite E in H; [| discriminate].
  injection H as <-. split; [reflexivity | exact F].
Qed.

(** The code returns when the clock leaves three days for each business
    day: for the at most 100 days of the read endpoint, from 0001-10-28 on. *)
Lemma get_business_days_checked_returns (now : date) (days : Z) :
  3 * days < now ->
  get_business_days_checked now days = Some (get_business_days now days).
Proof.
  intros H. destruct (get_business_days_checked_cases now days) as [[_ E] | [[x [Hx L]] _]];
    [exact E |].
  rewrite get_business_days_weekdays_back in Hx.
  pose proof (weekdays_back_lower _ _ _ Hx) as B.
  destruct (Z.to_nat days) as [| k] eqn:K; [destruct Hx |]. lia.
Qed.

(* ===================================================================== *)
(** ** Lemmas: the planner *)
(* ===================================================================== *)

Lemma in_days_from (n : nat) (start d : date) :
  In d (days_from start n) <-> start <= d < start + Z.of_nat n.
Proof.
  revert start. induction n as [| n IH]; intros start; cbn [days_from In].
  - lia.
  - rewrite IH. lia.
Qed.

Lemma days_from_NoDup (n : nat) (start : date) : NoDup (days_from start n).
Proof.
  revert start. induction n as [| n IH]; intros start; cbn [days_from]; constructor.
  - rewrite in_days_from. lia.
  - apply IH.
Qed.

Lemma bd_loop_filter (today current : date) (business_days : list date) :
  bd_loop today current business_days
  = business_days
    ++ filter is_business_day (days_from current (Z.to_nat (today + 1 - current))).
Proof.
  funelim (bd_loop today current business_days).
  - match goal with IH : bd_loop _ _ _ = _ ++ _ |- _ => rewrite IH end.
    replace (Z.to_nat (today + 1 - current))
      with (S (Z.to_nat (today + 1 - (current + 1)))) by lia.
    cbn [days_from filter].
    destruct (is_business_day current); [rewrite <- app_assoc |]; reflexivity.
  - replace (Z.to_nat (today + 1 - current)) with O by lia.
    cbn. rewrite app_nil_r. reflexivity.
Qed.

Lemma in_missing_dates (latest today d : date) :
  In d (missing_dates latest today)
  <-> latest < d <= today /\ is_business_day d = true.
Proof.
  unfold missing_dates, sync_business_days.
  destruct (Z.geb_spec latest today) as [G | G].
  - cbn. split; [intros [] | intros [H _]; lia].
  - rewrite bd_loop_filter. cbn [app]. rewrite filter_In, in_days_from.
    split; intros [H1 H2]; (split; [lia | exact H2]).
Qed.

Lemma missing_dates_NoDup (latest today : date) : NoDup (missing_dates latest today).
Proof.
  unfold missing_dates, sync_business_days.
  destruct (latest >=? today); [constructor |].
  rewrite bd_loop_filter. cbn [app]. apply NoDup_filter, days_from_NoDup.
Qed.

Lemma empty_iff_no_member {A : Type} (l : list A) : l = [] <-> forall x, ~ In x l.
Proof.
  split.
  - intros -> x [].
  - destruct l as [| a l]; [reflexivity |]. intros H. destruct (H a). left. reflexivity.
Qed.

(* ===================================================================== *)
(** ** Lemmas: what each part of a run computes *)
(* ===================================================================== *)

Lemma postgrest_request_run (e : env) (q : request) (w : world) :
  postgrest_request e q w
  = (served e q (table w), mk_world (effect e q (table w)) (trace w ++ [Storage q])).
Proof.
  unfold postgrest_request, bind, log, served, effect, answered. cbn.
  destruct (accepts q (table w) && reachable e q); [destruct (answer q (table w)) |];
    reflexivity.
Qed.

Lemma fetch_dates_run (e : env) (existing : list date) (business_days : list date) :
  forall (acc : fetched) (w : world),
    fetch_dates e existing acc business_days w
    = (fold_left (fetch_turn e existing) business_days acc,
       mk_world (table w) (trace w ++ map Fetch business_days)).
Proof.
  induction business_days as [| d rest IH]; intros acc w; cbn [fetch_dates fold_left map].
  - unfold ret. rewrite app_nil_r. destruct w; reflexivity.
  - unfold bind at 1. unfold fetch_date, bind, log, ret. cbn.
    rewrite IH. cbn. rewrite <- app_assoc. reflexivity.
Qed.

Lemma row_date_item_of (e : env) (d : date) : row_date (item_of e d) = d.
Proof. unfold item_of. destruct (fetch_rates e d); reflexivity. Qed.

Lemma fetch_turn_cases (e : env) (existing : list date) (acc : fetched) (d : date) :
  fetch_turn e existing acc d
  = mk_fetched
      (fetch_failed acc ++ (if fetch_fails e d then [d] else []))
      (to_insert acc
       ++ (if has_data e d && negb (date_in d existing) then [item_of e d] else []))
      (to_update acc
       ++ (if has_data e d && date_in d existing then [item_of e d] else [])).
Proof.
  unfold fetch_turn, has_data, fetch_fails, item_of. destruct acc as [ff ti tu].
  destruct (fetch_rates e d) as [| [| x api]];
    cbn [fetch_failed to_insert to_update andb data_to_save row_date];
    [| | destruct (date_in d existing); cbn [negb]]; rewrite ?app_nil_r; reflexivity.
Qed.

Lemma fetch_turns_closed (e : env) (existing : list date) (business_days : list date) :
  forall acc : fetched,
    fold_left (fetch_turn e existing) business_days acc
    = mk_fetched
        (fetch_failed acc ++ filter (fetch_fails e) business_days)
        (to_insert acc
         ++ map (item_of e)
              (filter (fun d => has_data e d && negb (date_in d existing)) business_days))
        (to_update acc
         ++ map (item_of e)
              (filter (fun d => has_data e d && date_in d existing) business_days)).
Proof.
  induction business_days as [| d rest IH]; intros acc; cbn [fold_left filter map].
  - rewrite !app_nil_r. destruct acc; reflexivity.
  - rewrite IH, fetch_turn_cases. cbn [fetch_failed to_insert to_update].
    destruct (fetch_fails e d), (has_data e d), (date_in d existing);
      cbn [andb negb map]; rewrite <- ?app_assoc, ?app_nil_r; reflexivity.
Qed.

Lemma write_inserts_run (e : env) (rows : list rate_row) (t : tally) (w : world) :
  exists n : Z,
    write_inserts e rows t w
    = ((fst t + n, snd t ++ insert_failures e (table w) rows),
       mk_world (apply_requests e (insert_requests rows) (table w))
                (trace w ++ map Storage (insert_requests rows))).
Proof.
  destruct rows as [| r rows].
  - exists 0. cbn. unfold ret. rewrite Z.add_0_r, !app_nil_r.
    destruct t, w; reflexivity.
  - cbn [write_inserts insert_requests insert_failures apply_requests fold_left map].
    unfold bind. rewrite postgrest_request_run. unfold served, effect.
    destruct (answered e (Post (r :: rows)) (table w)).
    + eexists. unfold ret. rewrite app_nil_r. reflexivity.
    + exists 0. unfold ret. rewrite Z.add_0_r. reflexivity.
Qed.

Lemma write_updates_run (e : env) (items : list rate_row) :
  forall (t : tally) (w : world),
  exists n : Z,
    write_updates e items t w
    = ((fst t + n, snd t ++ update_failures e items),
       mk_world (apply_requests e (update_requests items) (table w))
                (trace w ++ map Storage (update_requests items))).
Proof.
  induction items as [| item rest IH]; intros t w.
  - exists 0. cbn. unfold ret, update_failures. cbn. rewrite Z.add_0_r, !app_nil_r.
    destruct t, w; reflexivity.
  - cbn [write_updates]. unfold bind. rewrite postgrest_request_run.
    unfold served, answered, update_failures.
    cbn [update_requests map apply_requests fold_left filter accepts andb].
    destruct (reachable e (Patch (row_date item) item)) eqn:R; cbn [negb].
    + destruct (IH (fst t + 1, snd t)
                  (mk_world (effect e (Patch (row_date item) item) (table w))
                            (trace w ++ [Storage (Patch (row_date item) item)])))
        as [n Hn].
      exists (1 + n). rewrite Hn. cbn [fst snd table trace].
      rewrite <- app_assoc, Z.add_assoc. reflexivity.
    + destruct (IH (fst t, snd t ++ [row_date item])
                  (mk_world (effect e (Patch (row_date item) item) (table w))
                            (trace w ++ [Storage (Patch (row_date item) item)])))
        as [n Hn].
      exists n. rewrite Hn. cbn [fst snd table trace map].
      rewrite <- !app_assoc. reflexivity.
Qed.

Lemma apply_requests_app (e : env) (qs1 qs2 : list request) (t : list rate_row) :
  apply_requests e (qs1 ++ qs2) t = apply_requests e qs2 (apply_requests e qs1 t).
Proof. unfold apply_requests. apply fold_left_app. Qed.

Lemma effect_read (e : env) (q : request) (t : list rate_row) :
  is_write q = false -> effect e q t = t.
Proof. unfold effect. destruct q, (answered e _ _); cbn; congruence. Qed.

Lemma sync_step3_run (e : env) (business_days : list date) (w : world) :
  let existing :=
    existing_dates_of (served e (GetDates business_days false) (table w)) in
  let f := fold_left (fetch_turn e existing) business_days (mk_fetched [] [] []) in
  exists n : Z,
    sync_step3 e business_days w
    = ((n, step3_failures e (table w) f),
       mk_world (apply_requests e (step3_requests f) (table w))
                (trace w ++ Storage (GetDates business_days false)
                   :: map Fetch business_days ++ map Storage (step3_requests f))).
Proof.
  intros existing f. unfold sync_step3.
  unfold bind at 1. rewrite postgrest_request_run.
  rewrite effect_read by reflexivity.
  unfold bind at 1. rewrite fetch_dates_run. fold existing. fold f.
  unfold bind at 1. cbn [table trace].
  match goal with |- context [write_inserts e ?rows ?t ?w'] =>
    destruct (write_inserts_run e rows t w') as [n1 H1] end.
  rewrite H1.
  match goal with |- context [write_updates e ?items ?t ?w'] =>
    destruct (write_updates_run e items t w') as [n2 H2] end.
  rewrite H2. exists (0 + n1 + n2). cbn [fst snd table trace].
  unfold step3_failures, step3_requests.
  rewrite apply_requests_app, map_app, <- !app_assoc. reflexivity.
Qed.

Lemma run_fetched_no_plan (e : env) (t : list rate_row) :
  run_plan e t = [] -> run_fetched e t = mk_fetched [] [] [].
Proof. unfold run_fetched. intros ->. reflexivity. Qed.

Lemma sync_run (e : env) (w : world) :
  preconditions e = true ->
  exists st sm,
    sync_exchange_data_from_api e w
    = (mk_result true st sm
         (match run_failures e (table w) with [] => None | l => Some l end) None,
       mk_world (apply_requests e (run_requests e (table w)) (table w))
                (trace w ++ run_events e (table w))).
Proof.
  unfold preconditions, sync_exchange_data_from_api. intros P.
  destruct (missing_vars e); [| discriminate].
  unfold bind at 1. rewrite postgrest_request_run. unfold served at 1, answered at 1.
    cbn [accepts andb]. rewrite P.
  rewrite effect_read by reflexivity.
  unfold bind at 1. rewrite postgrest_request_run.
  rewrite effect_read by reflexivity. cbn [table trace].
  assert (E : run_plan e (table w)
              = match sync_business_days
                        (latest_date_of (served e GetLatest (table w)) (today_kst e))
                        (today_kst e) with
                | None => []
                | Some l => l
                end) by reflexivity.
  unfold run_events, run_requests, run_failures.
  destruct (sync_business_days _ _) as [[| d l] |].
  - rewrite (run_fetched_no_plan e (table w) E), E. do 2 eexists. unfold ret.
    cbn. rewrite <- app_assoc. reflexivity.
  - unfold bind at 1.
    destruct (sync_step3_run e (d :: l)
                (mk_world (table w) ((trace w ++ [Storage GetHealth]) ++ [Storage GetLatest])))
      as [n H].
    rewrite H. unfold run_fetched, run_existing. rewrite E.
    do 2 eexists. unfold ret. cbn [fst snd table trace].
    rewrite <- !app_assoc. reflexivity.
  - rewrite (run_fetched_no_plan e (table w) E), E. do 2 eexists. unfold ret.
    cbn. rewrite <- app_assoc. reflexivity.
Qed.

Lemma sync_blocked (e : env) (w : world) :
  preconditions e = false ->
  exists st err evs,
    sync_exchange_data_from_api e w
    = (mk_result false st None None (Some err), mk_world (table w) (trace w ++ evs))
    /\ write_requests evs = [] /\ fetched_dates evs = [].
Proof.
  unfold preconditions, sync_exchange_data_from_api. intros P.
  destruct (missing_vars e).
  - unfold bind at 1. rewrite postgrest_request_run. unfold served at 1, answered at 1.
    cbn [accepts andb]. rewrite P.
    rewrite effect_read by reflexivity.
    exists (update_last failed [mk_step 1 in_progress]), StorageUnreachable, [Storage GetHealth].
    repeat split.
  - do 2 eexists. exists []. unfold ret. rewrite app_nil_r.
    destruct w. repeat split.
Qed.

Lemma events_since_app (w : world) (t : list rate_row) (evs : list event) :
  events_since w (mk_world t (trace w ++ evs)) = evs.
Proof.
  unfold events_since. cbn [trace].
  rewrite skipn_app, skipn_all, Nat.sub_diag. reflexivity.
Qed.

(* ===================================================================== *)
(** ** Lemmas: events, requests and rows of a run *)
(* ===================================================================== *)

Lemma fetched_dates_app (l1 l2 : list event) :
  fetched_dates (l1 ++ l2) = fetched_dates l1 ++ fetched_dates l2.
Proof. apply flat_map_app. Qed.

Lemma fetched_dates_Fetch (l : list date) : fetched_dates (map Fetch l) = l.
Proof. unfold fetched_dates. induction l as [| d l IH]; cbn; [| rewrite IH]; reflexivity. Qed.

Lemma fetched_dates_Storage (qs : list request) : fetched_dates (map Storage qs) = [].
Proof. unfold fetched_dates. induction qs as [| q qs IH]; cbn; [| rewrite IH]; reflexivity. Qed.

Lemma write_requests_app (l1 l2 : list event) :
  write_requests (l1 ++ l2) = write_requests l1 ++ write_requests l2.
Proof. apply flat_map_app. Qed.

Lemma write_requests_Fetch (l : list date) : write_requests (map Fetch l) = [].
Proof. unfold write_requests. induction l as [| d l IH]; cbn; [| rewrite IH]; reflexivity. Qed.

Lemma write_requests_Storage (qs : list request) :
  Forall (fun q => is_write q = true) qs -> write_requests (map Storage qs) = qs.
Proof.
  induction 1 as [| q qs Hq _ IH]; [reflexivity |].
  cbn [map]. change (write_requests (Storage q :: map Storage qs))
    with ((if is_write q then [q] else []) ++ write_requests (map Storage qs)).
  rewrite Hq, IH. reflexivity.
Qed.

Lemma step3_requests_write (f : fetched) :
  Forall (fun q => is_write q = true) (step3_requests f).
Proof.
  unfold step3_requests. apply Forall_app. split.
  - unfold insert_requests. destruct (to_insert f); repeat constructor.
  - unfold update_requests. apply Forall_map, Forall_forall. reflexivity.
Qed.

Lemma fetched_dates_run_events (e : env) (t : list rate_row) :
  fetched_dates (run_events e t) = run_plan e t.
Proof.
  unfold run_events. destruct (run_plan e t) as [| d l] eqn:E; [reflexivity |].
  change (fetched_dates (map Fetch (d :: l) ++ map Storage (run_requests e t)) = d :: l).
  rewrite fetched_dates_app, fetched_dates_Fetch, fetched_dates_Storage.
  apply app_nil_r.
Qed.

Lemma write_requests_run_events (e : env) (t : list rate_row) :
  write_requests (run_events e t) = run_requests e t.
Proof.
  unfold run_events. destruct (run_plan e t) as [| d l] eqn:E.
  - unfold run_requests. rewrite (run_fetched_no_plan e t E). reflexivity.
  - change (write_requests (map Fetch (d :: l) ++ map Storage (run_requests e t))
            = run_requests e t).
    rewrite write_requests_app, write_requests_Fetch.
    apply write_requests_Storage, step3_requests_write.
Qed.

Lemma run_fetched_closed (e : env) (t : list rate_row) :
  run_fetched e t
  = mk_fetched
      (filter (fetch_fails e) (run_plan e t))
      (map (item_of e)
         (filter (fun d => has_data e d && negb (date_in d (run_existing e t))) (run_plan e t)))
      (map (item_of e)
         (filter (fun d => has_data e d && date_in d (run_existing e t)) (run_plan e t))).
Proof. unfold run_fetched. rewrite fetch_turns_closed. reflexivity. Qed.

Lemma map_row_date_item_of (e : env) (l : list date) : map row_date (map (item_of e) l) = l.
Proof.
  induction l as [| d l IH]; cbn [map]; [| rewrite row_date_item_of, IH]; reflexivity.
Qed.

Lemma has_data_not_fails (e : env) (d : date) : has_data e d = true -> fetch_fails e d = false.
Proof. unfold has_data, fetch_fails. destruct (fetch_rates e d); congruence. Qed.

(** Every date of a write request of a run is a date of the plan for which
    the source has a record. *)
Lemma run_requests_dates (e : env) (t : list rate_row) (q : request) (d : date) :
  In q (run_requests e t) -> In d (request_dates q) ->
  In d (run_plan e t) /\ has_data e d = true.
Proof.
  unfold run_requests, step3_requests. rewrite run_fetched_closed.
  cbn [to_insert to_update]. intros Hq Hd. apply in_app_or in Hq.
  destruct Hq as [Hq | Hq].
  - unfold insert_requests in Hq.
    destruct (map (item_of e) _) as [| r rows] eqn:E; [destruct Hq |].
    destruct Hq as [<- | []]. cbn [request_dates] in Hd.
    rewrite <- E, map_row_date_item_of in Hd.
    apply filter_In in Hd. destruct Hd as [Hp Hc].
    apply andb_true_iff in Hc. tauto.
  - unfold update_requests in Hq. apply in_map_iff in Hq.
    destruct Hq as [item [<- Hitem]]. apply in_map_iff in Hitem.
    destruct Hitem as [d' [<- Hd']]. cbn [request_dates] in Hd.
    rewrite row_date_item_of in Hd.
    assert (d = d') as -> by (destruct Hd as [<- | [<- | []]]; reflexivity).
    apply filter_In in Hd'. destruct Hd' as [Hp Hc].
    apply andb_true_iff in Hc. tauto.
Qed.

(** Every reported date is a date of the plan whose call failed or for which
    the source has a record. *)
Lemma run_failures_dates (e : env) (t : list rate_row) (d : date) :
  In d (run_failures e t) ->
  In d (run_plan e t) /\ (fetch_fails e d = true \/ has_data e d = true).
Proof.
  unfold run_failures, step3_failures. rewrite run_fetched_closed.
  cbn [fetch_failed to_insert to_update]. intros H.
  apply in_app_or in H. destruct H as [H | H].
  { apply filter_In in H. tauto. }
  apply in_app_or in H. destruct H as [H | H].
  - unfold insert_failures in H.
    destruct (map (item_of e) _) as [| r rows] eqn:E; [destruct H |].
    destruct (answered e _ _); [destruct H |].
    rewrite <- E, map_row_date_item_of in H.
    apply filter_In in H. destruct H as [Hp Hc]. apply andb_true_iff in Hc. tauto.
  - unfold update_failures in H. apply in_map_iff in H.
    destruct H as [item [<- Hitem]]. apply filter_In in Hitem.
    destruct Hitem as [Hitem _]. apply in_map_iff in Hitem.
    destruct Hitem as [d' [<- Hd']]. rewrite row_date_item_of.
    apply filter_In in Hd'. destruct Hd' as [Hp Hc].
    apply andb_true_iff in Hc. tauto.
Qed.

(** Every date of the plan for which the source has a record is carried by
    a write request of the run. *)
Lemma run_requests_cover (e : env) (t : list rate_row) (d : date) :
  In d (run_plan e t) -> has_data e d = true ->
  exists q, In q (run_requests e t) /\ In d (request_dates q).
Proof.
  intros Hp D. unfold run_requests, step3_requests. rewrite run_fetched_closed.
  cbn [to_insert to_update]. destruct (date_in d (run_existing e t)) eqn:X.
  - exists (Patch (row_date (item_of e d)) (item_of e d)). split.
    + apply in_or_app. right. unfold update_requests.
      apply (in_map (fun item => Patch (row_date item) item)), in_map, filter_In.
      split; [exact Hp |]. rewrite D, X. reflexivity.
    + cbn [request_dates]. rewrite row_date_item_of. left. reflexivity.
  - assert (I : In d (filter (fun d0 => has_data e d0 && negb (date_in d0 (run_existing e t)))
                        (run_plan e t))).
    { apply filter_In. split; [exact Hp |]. rewrite D, X. reflexivity. }
    destruct (filter _ (run_plan e t)) as [| d0 l] eqn:F; [destruct I |].
    exists (Post (map (item_of e) (d0 :: l))). split.
    + apply in_or_app. left. left. reflexivity.
    + cbn [request_dates]. rewrite map_row_date_item_of. exact I.
Qed.

Lemma failed_list_result (b : bool) (st : list step) (sm : option sync_summary)
  (l : list date) (err : option sync_error) :
  failed_list (mk_result b st sm (match l with [] => None | x :: l' => Some (x :: l') end) err)
  = l.
Proof. destruct l; reflexivity. Qed.

(** A write request that is not about [d] leaves the rows of [d] alone. *)
Lemma rows_of_effect (e : env) (q : request) (d : date) (t : list rate_row) :
  ~ In d (request_dates q) -> rows_of d (effect e q t) = rows_of d t.
Proof.
  unfold effect, rows_of. intros H.
  destruct (answered e q t); [| reflexivity].
  destruct q as [| | ds o | rows | d' item]; cbn [answer snd]; try reflexivity.
  - rewrite filter_app.
    replace (filter (fun r => row_date r =? d) rows) with (@nil rate_row).
    + apply app_nil_r.
    + symmetry. apply empty_iff_no_member. intros r Hr.
      apply filter_In in Hr. destruct Hr as [Hr E]. apply Z.eqb_eq in E.
      apply H. cbn [request_dates]. rewrite <- E. apply in_map. exact Hr.
  - cbn [request_dates In] in H.
    induction t as [| r t IH]; [reflexivity |]. cbn [map filter].
    destruct (Z.eqb_spec (row_date r) d') as [E1 | E1].
    + destruct (Z.eqb_spec (row_date item) d) as [E2 | E2]; [tauto |].
      destruct (Z.eqb_spec (row_date r) d) as [E3 | E3]; [subst; tauto |].
      exact IH.
    + destruct (row_date r =? d); [rewrite IH |]; auto.
Qed.

Lemma rows_of_apply_requests (e : env) (d : date) (qs : list request) :
  forall t : list rate_row,
    (forall q, In q qs -> ~ In d (request_dates q)) ->
    rows_of d (apply_requests e qs t) = rows_of d t.
Proof.
  induction qs as [| q qs IH]; intros t H; [reflexivity |].
  cbn [apply_requests fold_left]. fold (apply_requests e qs (effect e q t)).
  rewrite IH by (intros q' Hq'; apply H; right; exact Hq').
  apply rows_of_effect, H. left. reflexivity.
Qed.

(* ===================================================================== *)
(** ** Theorems: the business-day calculator *)
(* ===================================================================== *)

(** The dates the loop collects, for every reference date [d] and every
    count [n >= 1]: exactly [n] dates, each of them a weekday (Monday to
    Friday) not later than [d], in strictly descending order and with at
    most 3 calendar days between consecutive entries; when [d] is a Saturday
    or a Sunday it is not part of the result, which then starts at the
    Friday before [d]. *)
Lemma get_business_days_dates (d : date) (n : Z) :
  1 <= n ->
  let l := get_business_days d n in
  Z.of_nat (length l) = n
  /\ Forall (fun x => is_business_day x = true /\ x <= d) l
  /\ adjacent (fun a b => b < a /\ a - b <= 3) l
  /\ (is_business_day d = false ->
      ~ In d l /\ hd_error l = Some (d - (weekday d - 4))).
Proof.
  intros Hn l. subst l. rewrite get_business_days_weekdays_back.
  split; [rewrite weekdays_back_length; lia |].
  split; [apply weekdays_back_all |].
  split; [apply weekdays_back_adjacent |].
  intros Hw. split.
  - intros Hin.
    pose proof (weekdays_back_all (Z.to_nat n) d) as A.
    rewrite Forall_forall in A. destruct (A d Hin) as [B _]. congruence.
  - destruct (Z.to_nat n) as [| k] eqn:E; [lia |].
    cbn [weekdays_back hd_error]. unfold last_weekday.
    unfold is_business_day in Hw. apply Z.ltb_ge in Hw.
    do 2 f_equal. lia.
Qed.

(** The oldest of [k + 1] collected dates is at least [k] days before the
    reference date. *)
Lemma weekdays_back_last_upper (k : nat) :
  forall (c : date) (x : date) (l : list date),
    weekdays_back (S k) c = x :: l -> last l x <= c - Z.of_nat k.
Proof.
  induction k as [| k IH]; intros c x l E.
  - cbn in E. injection E as <- <-. cbn. pose proof (last_weekday_bounds c). lia.
  - change (weekdays_back (S (S k)) c)
      with (last_weekday c :: weekdays_back (S k) (last_weekday c - 1)) in E.
    pose proof (f_equal (hd 0) E) as Ex. pose proof (f_equal (@tl date) E) as El.
    cbn [hd tl] in Ex, El. clear E.
    destruct (weekdays_back (S k) (last_weekday c - 1)) as [| x' l'] eqn:E';
      [discriminate |].
    subst x l. rewrite last_cons. specialize (IH _ _ _ E').
    pose proof (last_weekday_bounds c). lia.
Qed.

(** A count that is not below the day number of the reference date is never
    served: the walk reaches 0001-01-01. *)
Lemma get_business_days_checked_raises (d : date) (n : Z) :
  1 <= n -> d <= n -> get_business_days_checked d n = None.
Proof.
  intros Hn Hd.
  destruct (get_business_days_checked_cases d n) as [[F _] | [_ E]]; [| exact E].
  exfalso. rewrite get_business_days_weekdays_back in F.
  destruct (Z.to_nat n) as [| k] eqn:K; [lia |].
  destruct (weekdays_back (S k) d) as [| x l] eqn:E; [discriminate |].
  pose proof (weekdays_back_last_upper k d x l E) as U.
  rewrite Forall_forall in F. specialize (F _ (last_in l x)). lia.
Qed.

(** C2, as the code has it.  From Wednesday 0001-01-03 the walk for five
    days passes Monday 0001-01-01: the loop would collect day numbers that
    are no dates, and the code raises instead of returning five dates; it
    raises for three days as well, in the turn after the third date, and
    returns for two.  With the clock of 2025-01-01 it raises for a count of
    739261. *)
Lemma get_business_days_overflow :
  get_business_days_checked (ymd 1 1 3) 5 = None
  /\ get_business_days (ymd 1 1 3) 5 = [3; 2; 1; -2; -3]
  /\ get_business_days_checked (ymd 1 1 3) 3 = None
  /\ get_business_days_checked (ymd 1 1 3) 2 = Some [3; 2]
  /\ get_business_days_checked (ymd 2025 1 1) 739261 = None.
Proof.
  split; [vm_compute; reflexivity |]. split; [vm_compute; reflexivity |].
  split; [vm_compute; reflexivity |]. split; [vm_compute; reflexivity |].
  apply get_business_days_checked_raises; [lia | vm_compute; discriminate].
Qed.

(** C2, amended.  For every reference date [d] and every count [n >= 1]:
    when the walk stays after 0001-01-01, and so whenever the day number of
    [d] (0001-01-01 is day 1) exceeds [3 * n], [get_business_days] returns
    exactly [n] dates, each of them a weekday (Monday to Friday) not
    later than [d], in strictly descending order and with at most 3 calendar
    days between consecutive entries; when [d] is a Saturday or a Sunday it
    is not part of the result, which then starts at the Friday before [d].
    When the walk reaches 0001-01-01, and so whenever [n] is not below the
    day number of [d], the function raises instead of returning. *)
Theorem get_business_days_spec (d : date) (n : Z) :
  1 <= n ->
  (3 * n < d -> exists l, get_business_days_checked d n = Some l)
  /\ (d <= n -> get_business_days_checked d n = None)
  /\ (get_business_days_checked d n = None
      <-> exists x, In x (get_business_days d n) /\ x < 2)
  /\ forall l,
       get_business_days_checked d n = Some l ->
       Z.of_nat (length l) = n
       /\ Forall (fun x => is_business_day x = true /\ 2 <= x <= d) l
       /\ adjacent (fun a b => b < a /\ a - b <= 3) l
       /\ (is_business_day d = false ->
           ~ In d l /\ hd_error l = Some (d - (weekday d - 4))).
Proof.
  intros Hn.
  split; [intros H; eexists; apply (get_business_days_checked_returns d n H) |].
  split; [apply (get_business_days_checked_raises d n Hn) |].
  split.
  - destruct (get_business_days_checked_cases d n) as [[F E] | [X E]]; rewrite E.
    + split; [discriminate |]. intros (x & Hx & L). exfalso.
      rewrite Forall_forall in F. specialize (F x Hx). lia.
    + split; [intros _; exact X | reflexivity].
  - intros l H. destruct (get_business_days_checked_some d n l H) as [-> F].
    destruct (get_business_days_dates d n Hn) as (H1 & H2 & H3 & H4).
    split; [exact H1 |]. split; [| split; [exact H3 | exact H4]].
    rewrite Forall_forall in *. intros x Hx.
    destruct (H2 x Hx) as [B U]. specialize (F x Hx). split; [exact B | lia].
Qed.

(** Saturday 2025-01-04 and three days: Friday, Thursday and Wednesday. *)
Lemma get_business_days_spec_witness :
  1 <= 3
  /\ 3 * 3 < ymd 2025 1 4
  /\ is_business_day (ymd 2025 1 4) = false
  /\ get_business_days_checked (ymd 2025 1 4) 3
     = Some [ymd 2025 1 3; ymd 2025 1 2; ymd 2025 1 1]
  /\ Z.of_nat (length [ymd 2025 1 3; ymd 2025 1 2; ymd 2025 1 1]) = 3
  /\ adjacent (fun a b => b < a /\ a - b <= 3) [ymd 2025 1 3; ymd 2025 1 2; ymd 2025 1 1]
  /\ hd_error [ymd 2025 1 3; ymd 2025 1 2; ymd 2025 1 1] = Some (ymd 2025 1 3).
Proof.
  assert (N : 1 <= 3) by lia.
  assert (R : 3 * 3 < ymd 2025 1 4) by (vm_compute; reflexivity).
  assert (S : is_business_day (ymd 2025 1 4) = false) by reflexivity.
  assert (E : get_business_days_checked (ymd 2025 1 4) 3
              = Some [ymd 2025 1 3; ymd 2025 1 2; ymd 2025 1 1])
    by (vm_compute; reflexivity).
  destruct (get_business_days_spec (ymd 2025 1 4) 3 N) as (_ & _ & _ & H).
  destruct (H _ E) as (H1 & _ & H3 & H4). destruct (H4 S) as [_ H6].
  exact (conj N (conj R (conj S (conj E (conj H1 (conj H3 H6)))))).
Defined.

(** C9, as the code has it.  A count below 1 is no error for
    [get_business_days]: the loop is not entered and the result is the empty
    list. *)
Lemma get_business_days_zero_count :
  get_business_days (ymd 2025 1 3) 0 = [] /\ get_business_days (ymd 2025 1 3) (-5) = [].
Proof. split; reflexivity. Qed.

(** C9, amended.  [get_business_days] returns the empty list for every
    count below 1; the requirement [count >= 1] is the endpoint's: [db2api]
    answers a [days] below 1 with the 400 validation error before it calls
    the calculator or the storage. *)
Theorem count_below_one (round2 : float -> float) (e : env) (n : Z) (w : world) :
  n < 1 ->
  get_business_days (now_kst e) n = []
  /\ db2api round2 e (DaysInt n) FormatWeb w = ((ErrorBody DaysOutOfRange, 400), w)
  /\ db2api round2 e (DaysInt n) FormatChat w = ((ErrorBody DaysOutOfRange, 400), w).
Proof.
  intros Hn. split.
  - rewrite get_business_days_weekdays_back.
    replace (Z.to_nat n) with O by lia. reflexivity.
  - unfold db2api. cbn [parse_days]. apply Z.ltb_lt in Hn. rewrite Hn.
    cbn [orb]. split; reflexivity.
Qed.

Lemma count_below_one_witness :
  0 < 1
  /\ get_business_days 739254 0 = []
  /\ db2api (fun x => x) (mk_env None None 739254 (fun _ => FetchError) (fun _ => true))
       (DaysInt 0) FormatWeb (mk_world [] [])
     = ((ErrorBody DaysOutOfRange, 400), mk_world [] [])
  /\ db2api (fun x => x) (mk_env None None 739254 (fun _ => FetchError) (fun _ => true))
       (DaysInt 0) FormatChat (mk_world [] [])
     = ((ErrorBody DaysOutOfRange, 400), mk_world [] []).
Proof.
  split; [lia |].
  apply (count_below_one (fun x => x)
           (mk_env None None 739254 (fun _ => FetchError) (fun _ => true))
           0 (mk_world [] [])).
  lia.
Defined.

(* ===================================================================== *)
(** ** Theorems: the planner *)
(* ===================================================================== *)

(** C1, as the code has it.  With the latest stored date on Friday
    2025-01-03 and today on the Saturday or the Sunday after it, the latest
    date is before today and the list of missing business days is empty all
    the same: the second early return of step 2 ([if not business_days]). *)
Lemma missing_dates_weekend :
  missing_dates (ymd 2025 1 3) (ymd 2025 1 4) = [] /\ ymd 2025 1 3 < ymd 2025 1 4
  /\ missing_dates (ymd 2025 1 3) (ymd 2025 1 5) = [] /\ ymd 2025 1 3 < ymd 2025 1 5.
Proof. repeat split. Qed.

(** C1, amended.  The list of missing business days holds exactly the
    weekdays after the latest stored date and up to today.  It is empty
    whenever the latest stored date is today or later, and in general exactly
    when no weekday lies in that interval; when today is a weekday, it is
    empty exactly when the latest stored date is today or later. *)
Theorem missing_dates_empty (latest today : date) :
  (forall d, In d (missing_dates latest today)
             <-> latest < d <= today /\ is_business_day d = true)
  /\ (latest >= today -> missing_dates latest today = [])
  /\ (missing_dates latest today = []
      <-> forall d, latest < d <= today -> is_business_day d = false)
  /\ (is_business_day today = true ->
      (missing_dates latest today = [] <-> latest >= today)).
Proof.
  assert (E : missing_dates latest today = []
              <-> forall d, latest < d <= today -> is_business_day d = false).
  { rewrite empty_iff_no_member. split.
    - intros H d Hd. destruct (is_business_day d) eqn:B; [| reflexivity].
      destruct (H d). apply in_missing_dates. split; assumption.
    - intros H d Hin. apply in_missing_dates in Hin. destruct Hin as [Hd B].
      rewrite (H d Hd) in B. discriminate. }
  split; [apply in_missing_dates |].
  split; [intros G; apply E; intros d Hd; lia |].
  split; [exact E |].
  intros B. split.
  - intros H. destruct (Z_lt_dec latest today) as [L | L]; [| lia].
    rewrite E in H. rewrite (H today) in B by lia. discriminate.
  - intros G. apply E. intros d Hd. lia.
Qed.

(* ===================================================================== *)
(** ** Theorems: the sync run *)
(* ===================================================================== *)

Example demo_run :
  let (r, w') := sync_exchange_data_from_api demo_env demo_world in
  success r = true
  /\ summary r = Some (Updated 4 2)
  /\ failed_dates r = Some [ymd 2025 1 7]
  /\ map row_date (table w') = [ymd 2025 1 3; ymd 2025 1 6; ymd 2025 1 9]
  /\ fetched_dates (trace w') = [ymd 2025 1 6; ymd 2025 1 7; ymd 2025 1 8; ymd 2025 1 9].
Proof. vm_compute. repeat split. Qed.

Example demo_run_down :
  let (r, w') := sync_exchange_data_from_api demo_env_down demo_world_monday in
  success r = true
  /\ failed_dates r = Some [ymd 2025 1 7; ymd 2025 1 9; ymd 2025 1 6]
  /\ table w' = table demo_world_monday.
Proof. vm_compute. repeat split. Qed.

Lemma preconditions_spec (e : env) :
  preconditions e = false <-> missing_vars e <> [] \/ reachable e GetHealth = false.
Proof.
  unfold preconditions. destruct (missing_vars e) as [| v vs].
  - split; [intros H; right; exact H | intros [H | H]; [congruence | exact H]].
  - split; [intros _; left; discriminate | reflexivity].
Qed.

(** C4.  The run returns [success = false] only when step 1 fails: the
    external-API configuration is missing or the storage does not answer
    the health check (the model has no other exception outside the fetch
    loop).  When step 1 passes, the run returns [success = true] and every
    date of the plan is fetched, in order, whatever happens to the others:
    a date whose fetch raises is recorded in [failed_dates] and no write
    request carries it, and every date for which the source has a record is
    carried by a write request. *)
Theorem sync_failures_isolated (e : env) (w : world) (d : date) :
  let r := fst (sync_exchange_data_from_api e w) in
  let w' := snd (sync_exchange_data_from_api e w) in
  let plan := run_plan e (table w) in
  (success r = false <-> missing_vars e <> [] \/ reachable e GetHealth = false)
  /\ (success r = true ->
      fetched_dates (events_since w w') = plan
      /\ (In d plan -> fetch_rates e d = FetchError ->
          In d (failed_list r)
          /\ forall q, In q (write_requests (events_since w w')) ->
                       ~ In d (request_dates q))
      /\ (In d plan -> has_data e d = true ->
          exists q, In q (write_requests (events_since w w')) /\ In d (request_dates q))).
Proof.
  cbv zeta. rewrite <- preconditions_spec.
  destruct (preconditions e) eqn:P.
  - destruct (sync_run e w P) as (st & sm & E). rewrite E. cbn [fst snd success].
    split; [split; discriminate |]. intros _.
    rewrite events_since_app, failed_list_result.
    rewrite fetched_dates_run_events, write_requests_run_events.
    split; [reflexivity |]. split.
    + intros Hin Hf.
      assert (F : fetch_fails e d = true) by (unfold fetch_fails; rewrite Hf; reflexivity).
      split.
      * unfold run_failures, step3_failures. rewrite run_fetched_closed.
        cbn [fetch_failed]. apply in_or_app. left. apply filter_In. split; assumption.
      * intros q Hq Hd. destruct (run_requests_dates e (table w) q d Hq Hd) as [_ D].
        apply has_data_not_fails in D. congruence.
    + apply run_requests_cover.
  - destruct (sync_blocked e w P) as (st & err & evs & E & _ & _). rewrite E.
    cbn [fst snd success]. split; [split; reflexivity | discriminate].
Qed.

Lemma sync_failures_isolated_witness :
  success (fst (sync_exchange_data_from_api demo_env demo_world)) = true
  /\ In (ymd 2025 1 7) (run_plan demo_env (table demo_world))
  /\ fetch_rates demo_env (ymd 2025 1 7) = FetchError
  /\ fetched_dates
       (events_since demo_world (snd (sync_exchange_data_from_api demo_env demo_world)))
     = run_plan demo_env (table demo_world)
  /\ In (ymd 2025 1 7) (failed_list (fst (sync_exchange_data_from_api demo_env demo_world))).
Proof.
  destruct (sync_failures_isolated demo_env demo_world (ymd 2025 1 7)) as [_ H].
  assert (S : success (fst (sync_exchange_data_from_api demo_env demo_world)) = true)
    by (vm_compute; reflexivity).
  assert (I : In (ymd 2025 1 7) (run_plan demo_env (table demo_world)))
    by (vm_compute; tauto).
  assert (F : fetch_rates demo_env (ymd 2025 1 7) = FetchError) by reflexivity.
  destruct (H S) as (H1 & H2 & _). destruct (H2 I F) as [H3 _].
  exact (conj S (conj I (conj F (conj H1 H3)))).
Defined.

(** C5.  When step 1 passes, the write requests of the run are one POST with
    all the records to insert (none when there is nothing to insert) followed
    by one PATCH per record to update, keyed by the record's date.  The
    reported failures are the dates whose fetch raised, then every date of
    the batch when the POST fails, then the date of each PATCH that fails;
    the table is the result of the requests the storage served. *)
Theorem sync_writes (e : env) (w : world) :
  preconditions e = true ->
  let f := run_fetched e (table w) in
  let r := fst (sync_exchange_data_from_api e w) in
  let w' := snd (sync_exchange_data_from_api e w) in
  write_requests (events_since w w')
  = insert_requests (to_insert f) ++ update_requests (to_update f)
  /\ failed_list r
     = fetch_failed f ++ insert_failures e (table w) (to_insert f)
       ++ update_failures e (to_update f)
  /\ table w'
     = apply_requests e (insert_requests (to_insert f) ++ update_requests (to_update f))
         (table w).
Proof.
  intros P. cbv zeta.
  destruct (sync_run e w P) as (st & sm & E). rewrite E. cbn [fst snd table].
  rewrite events_since_app, failed_list_result, write_requests_run_events.
  repeat split.
Qed.

Lemma sync_writes_witness :
  preconditions demo_env_down = true
  /\ write_requests
       (events_since demo_world_monday
          (snd (sync_exchange_data_from_api demo_env_down demo_world_monday)))
     = [Post [mk_row (ymd 2025 1 9) None (Some 1500%float) None None];
        Patch (ymd 2025 1 6)
          (mk_row (ymd 2025 1 6) (Some 1300.5%float) None (Some 900%float) None)]
  /\ failed_list (fst (sync_exchange_data_from_api demo_env_down demo_world_monday))
     = [ymd 2025 1 7] ++ [ymd 2025 1 9] ++ [ymd 2025 1 6].
Proof.
  assert (P : preconditions demo_env_down = true) by reflexivity.
  destruct (sync_writes demo_env_down demo_world_monday P) as (H1 & H2 & _).
  split; [exact P |]. split.
  - rewrite H1. vm_compute. reflexivity.
  - rewrite H2. vm_compute. reflexivity.
Defined.

(** C7.  When step 1 passes and the fetch of a date of the plan succeeds with
    an empty payload, the date is fetched, the run reports success, the date
    is not in [failed_dates], no write request carries it and the rows of
    that date in the table are what they were; a date of the plan whose fetch
    raises is in [failed_dates]. *)
Theorem holiday_skipped (e : env) (w : world) (d : date) :
  preconditions e = true ->
  In d (run_plan e (table w)) ->
  let r := fst (sync_exchange_data_from_api e w) in
  let w' := snd (sync_exchange_data_from_api e w) in
  (fetch_rates e d = FetchOk [] ->
   success r = true
   /\ In d (fetched_dates (events_since w w'))
   /\ ~ In d (failed_list r)
   /\ (forall q, In q (write_requests (events_since w w')) -> ~ In d (request_dates q))
   /\ rows_of d (table w') = rows_of d (table w))
  /\ (fetch_rates e d = FetchError -> success r = true /\ In d (failed_list r)).
Proof.
  intros P Hin. cbv zeta.
  destruct (sync_run e w P) as (st & sm & E). rewrite E. cbn [fst snd success table].
  rewrite events_since_app, failed_list_result.
  rewrite fetched_dates_run_events, write_requests_run_events.
  split.
  - intros Hf.
    assert (F : fetch_fails e d = false) by (unfold fetch_fails; rewrite Hf; reflexivity).
    assert (D : has_data e d = false) by (unfold has_data; rewrite Hf; reflexivity).
    assert (W : forall q, In q (run_requests e (table w)) -> ~ In d (request_dates q)).
    { intros q Hq Hd. destruct (run_requests_dates e (table w) q d Hq Hd) as [_ D'].
      congruence. }
    split; [reflexivity |]. split; [exact Hin |]. split; [| split; [exact W |]].
    + intros Hd. destruct (run_failures_dates e (table w) d Hd) as [_ [X | X]]; congruence.
    + apply rows_of_apply_requests. exact W.
  - intros Hf. split; [reflexivity |].
    unfold run_failures, step3_failures. rewrite run_fetched_closed.
    cbn [fetch_failed]. apply in_or_app. left. apply filter_In. split; [exact Hin |].
    unfold fetch_fails. rewrite Hf. reflexivity.
Qed.

Lemma holiday_skipped_witness :
  preconditions demo_env = true
  /\ In (ymd 2025 1 8) (run_plan demo_env (table demo_world))
  /\ fetch_rates demo_env (ymd 2025 1 8) = FetchOk []
  /\ success (fst (sync_exchange_data_from_api demo_env demo_world)) = true
  /\ ~ In (ymd 2025 1 8) (failed_list (fst (sync_exchange_data_from_api demo_env demo_world)))
  /\ rows_of (ymd 2025 1 8) (table (snd (sync_exchange_data_from_api demo_env demo_world)))
     = rows_of (ymd 2025 1 8) (table demo_world).
Proof.
  assert (P : preconditions demo_env = true) by reflexivity.
  assert (I : In (ymd 2025 1 8) (run_plan demo_env (table demo_world)))
    by (vm_compute; tauto).
  assert (F : fetch_rates demo_env (ymd 2025 1 8) = FetchOk []) by reflexivity.
  destruct (holiday_skipped demo_env demo_world (ymd 2025 1 8) P I) as [H _].
  destruct (H F) as (H1 & _ & H3 & _ & H5).
  exact (conj P (conj I (conj F (conj H1 (conj H3 H5))))).
Defined.

(* ===================================================================== *)
(** ** Theorems: the chat format *)
(* ===================================================================== *)

Section ChatFormat.

Variable round2 : float -> float.

(** The guard of the loop body keeps the division away from a zero divisor:
    the body always yields a rate and a trend. *)
Lemma chat_rate_cases (today_rate yest_rate : option float) :
  chat_rate round2 today_rate yest_rate
  = Some (match today_rate with
          | Some t => round2 t
          | None => 0%float
          end,
          match today_rate, yest_rate with
          | Some t, Some y =>
              if PrimFloat.eqb y 0 then 0%float else round2 ((t - y) / y * 100)%float
          | _, _ => 0%float
          end).
Proof.
  unfold chat_rate, truediv.
  destruct today_rate as [t |], yest_rate as [y |]; try reflexivity.
  destruct (PrimFloat.eqb y 0); reflexivity.
Qed.

Lemma chat_rates_entries (today_data yesterday_data : rate_row) (currencies : list string) :
  exists rates,
    chat_rates round2 currencies today_data yesterday_data = Some rates
    /\ forall currency, In currency currencies ->
         exists rate trend,
           In (currency, rate, trend) rates
           /\ chat_rate round2 (column currency today_data) (column currency yesterday_data)
              = Some (rate, trend).
Proof.
  induction currencies as [| c cs IH].
  - exists []. split; [reflexivity | intros currency []].
  - destruct IH as (rates & E & H). cbn [chat_rates].
    rewrite chat_rate_cases, E. eexists. split; [reflexivity |].
    intros currency [<- | Hin].
    + do 2 eexists. split; [left; reflexivity | apply chat_rate_cases].
    + destruct (H currency Hin) as (rate & trend & Hr & Hc).
      exists rate, trend. split; [right; exact Hr | exact Hc].
Qed.

(** C6, as the code has it.  Yesterday's rate is 1300, neither null nor
    zero, and today's rate is null: the reported trend is 0.0 and the
    reported rate is 0; the percent formula is not used. *)
Lemma chat_rate_today_null_only :
  chat_rate (fun x => x) None (Some 1300%float) = Some (0%float, 0%float)
  /\ PrimFloat.eqb 1300 0 = false.
Proof. split; reflexivity. Qed.

(** C6, amended.  The chat format never divides by zero: on two records it
    always answers with the comparison (status 200), and for every
    currency it reports today's rate rounded to 2 decimal places, or 0 when
    today's rate is null.  The trend is exactly 0.0 when yesterday's rate is
    null or equal to 0 and when today's rate is null; when both rates are
    present and yesterday's is not 0 it is
    [(today - yesterday) / yesterday * 100] rounded to 2 decimal places. *)
Theorem chat_trend_guard (today_data yesterday_data : rate_row) (rest : list rate_row)
  (days : Z) (currency : string) :
  In currency CURRENCIES ->
  let today_rate := column currency today_data in
  let yest_rate := column currency yesterday_data in
  exists rates rate trend,
    format_chat round2 (today_data :: yesterday_data :: rest) days
    = (ChatBody rates (row_date today_data) (row_date yesterday_data) days, 200)
    /\ In (currency, rate, trend) rates
    /\ rate = match today_rate with Some t => round2 t | None => 0%float end
    /\ (yest_rate = None \/ (exists y, yest_rate = Some y /\ PrimFloat.eqb y 0 = true) ->
        trend = 0%float)
    /\ (today_rate = None -> trend = 0%float)
    /\ (forall t y, today_rate = Some t -> yest_rate = Some y -> PrimFloat.eqb y 0 = false ->
        trend = round2 ((t - y) / y * 100)%float).
Proof.
  intros Hin today_rate yest_rate. unfold format_chat.
  destruct (chat_rates_entries today_data yesterday_data CURRENCIES) as (rates & E & H).
  destruct (H currency Hin) as (rate & trend & Hr & Hc).
  rewrite chat_rate_cases in Hc. injection Hc as <- <-.
  rewrite E. exists rates. do 2 eexists.
  split; [reflexivity |]. split; [exact Hr |]. split; [reflexivity |].
  fold today_rate yest_rate. split; [| split].
  - intros [-> | (y & -> & Hy)].
    + destruct today_rate; reflexivity.
    + rewrite Hy. destruct today_rate; reflexivity.
  - intros ->. reflexivity.
  - intros t y -> -> Hy. rewrite Hy. reflexivity.
Qed.

(** C10.  In the chat format, a currency whose rate of today is null is
    reported with rate 0 and trend 0.0, whatever yesterday's rate is: the
    guard asks for both rates, not only for a usable rate of yesterday. *)
Theorem chat_today_null (today_data yesterday_data : rate_row) (rest : list rate_row)
  (days : Z) (currency : string) :
  In currency CURRENCIES ->
  column currency today_data = None ->
  exists rates,
    format_chat round2 (today_data :: yesterday_data :: rest) days
    = (ChatBody rates (row_date today_data) (row_date yesterday_data) days, 200)
    /\ In (currency, 0%float, 0%float) rates.
Proof.
  intros Hin Hnull. unfold format_chat.
  destruct (chat_rates_entries today_data yesterday_data CURRENCIES) as (rates & E & H).
  destruct (H currency Hin) as (rate & trend & Hr & Hc).
  rewrite chat_rate_cases, Hnull in Hc. injection Hc as <- <-.
  rewrite E. exists rates. split; [reflexivity | exact Hr].
Qed.

End ChatFormat.

Example demo_chat :
  format_chat (fun x => x) [demo_today; demo_yesterday] 2
  = (ChatBody [("USD"%string, 0%float, 0%float); ("EUR"%string, 1500%float, 0%float);
               ("JPY100"%string, 945%float, 5%float); ("CNH"%string, 0%float, 0%float)]
       (ymd 2025 1 9) (ymd 2025 1 8) 2, 200).
Proof. vm_compute. reflexivity. Qed.

Lemma chat_trend_guard_witness :
  In "JPY100"%string CURRENCIES
  /\ exists rates rate trend,
       format_chat (fun x => x) [demo_today; demo_yesterday] 2
       = (ChatBody rates (row_date demo_today) (row_date demo_yesterday) 2, 200)
       /\ In ("JPY100"%string, rate, trend) rates
       /\ rate = 945%float
       /\ trend = ((945 - 900) / 900 * 100)%float.
Proof.
  assert (I : In "JPY100"%string CURRENCIES) by (cbn; tauto).
  split; [exact I |].
  destruct (chat_trend_guard (fun x => x) demo_today demo_yesterday [] 2 "JPY100" I)
    as (rates & rate & trend & H1 & H2 & H3 & _ & _ & H6).
  exists rates, rate, trend. repeat split; try assumption.
  apply (H6 945%float 900%float); reflexivity.
Defined.

Lemma chat_today_null_witness :
  In "USD"%string CURRENCIES
  /\ column "USD" demo_today = None
  /\ column "USD" demo_yesterday = Some 1300%float
  /\ exists rates,
       format_chat (fun x => x) [demo_today; demo_yesterday] 2
       = (ChatBody rates (row_date demo_today) (row_date demo_yesterday) 2, 200)
       /\ In ("USD"%string, 0%float, 0%float) rates.
Proof.
  assert (I : In "USD"%string CURRENCIES) by (cbn; tauto).
  repeat split; try exact I.
  exact (chat_today_null (fun x => x) demo_today demo_yesterday [] 2 "USD" I eq_refl).
Defined.

(* ===================================================================== *)
(** ** Theorems: the read endpoint *)
(* ===================================================================== *)

Lemma insert_desc_length (r : rate_row) (l : list rate_row) :
  length (insert_desc r l) = S (length l).
Proof.
  induction l as [| x l IH]; cbn [insert_desc]; [reflexivity |].
  destruct (row_date x <? row_date r); cbn [length]; [| rewrite IH]; reflexivity.
Qed.

Lemma order_date_desc_length (l : list rate_row) :
  length (order_date_desc l) = length l.
Proof.
  induction l as [| r l IH]; [reflexivity |].
  cbn [order_date_desc fold_right]. fold (order_date_desc l).
  rewrite insert_desc_length, IH. reflexivity.
Qed.

Lemma get_business_days_head (now : date) (days : Z) :
  1 <= days ->
  exists rest, get_business_days now days = last_weekday now :: rest.
Proof.
  intros H. rewrite get_business_days_weekdays_back.
  destruct (Z.to_nat days) as [| k] eqn:E; [lia |].
  eexists. reflexivity.
Qed.





(* ===================================================================== *)
(** ** Two runs in succession *)
(* ===================================================================== *)

Lemma date_in_iff (d : date) (l : list date) : date_in d l = true <-> In d l.
Proof.
  unfold date_in. rewrite existsb_exists. split.
  - intros (x & Hx & E). apply Z.eqb_eq in E. subst x. exact Hx.
  - intros H. exists d. split; [exact H | apply Z.eqb_refl].
Qed.

Lemma bool_eq_iff (a b : bool) : (a = true <-> b = true) -> a = b.
Proof. destruct a, b; intros [H1 H2]; auto; symmetry; auto. Qed.

Lemma filter_none {A : Type} (f : A -> bool) (l : list A) :
  (forall x, In x l -> f x = false) -> filter f l = [].
Proof.
  intros H. apply empty_iff_no_member. intros x Hx.
  apply filter_In in Hx. destruct Hx as [Hx Hf]. rewrite (H x Hx) in Hf. discriminate.
Qed.

(** The head of [order=date.desc] is a row of the table with the latest date. *)
Lemma insert_desc_head (a : rate_row) (s : list rate_row) :
  exists h rest,
    insert_desc a s = h :: rest
    /\ (h = a \/ hd_error s = Some h)
    /\ row_date a <= row_date h
    /\ forall x, hd_error s = Some x -> row_date x <= row_date h.
Proof.
  destruct s as [| x t]; cbn [insert_desc hd_error].
  - exists a, []. repeat split; [left; reflexivity | lia | discriminate].
  - destruct (Z.ltb_spec (row_date x) (row_date a)) as [L | L].
    + exists a, (x :: t). repeat split; [left; reflexivity | lia |].
      intros y [= <-]. lia.
    + exists x, (insert_desc a t). repeat split; [right; reflexivity | lia |].
      intros y [= <-]. lia.
Qed.

Lemma order_date_desc_head (l : list rate_row) :
  match order_date_desc l with
  | [] => l = []
  | h :: _ => In h l /\ forall r, In r l -> row_date r <= row_date h
  end.
Proof.
  induction l as [| a l IH]; [reflexivity |].
  cbn [order_date_desc fold_right]. fold (order_date_desc l).
  destruct (insert_desc_head a (order_date_desc l)) as (h & rest & E & Hh & Ha & Hx).
  rewrite E. destruct (order_date_desc l) as [| x s].
  - subst l. destruct Hh as [-> | Hh]; [| discriminate].
    split; [left; reflexivity |]. intros r [<- | []]. lia.
  - destruct IH as [Hin Hmax]. specialize (Hx x eq_refl). split.
    + destruct Hh as [-> | [= <-]]; [left; reflexivity | right; exact Hin].
    + intros r [<- | Hr]; [exact Ha |]. specialize (Hmax r Hr). lia.
Qed.

Section SecondRun.

Variable e : env.

Lemma run_requests_dates_form (t : list rate_row) :
  run_requests e t
  = insert_requests (map (item_of e) (insert_dates e t))
    ++ update_requests (map (item_of e) (update_dates e t)).
Proof. unfold run_requests, step3_requests. rewrite run_fetched_closed. reflexivity. Qed.

Lemma apply_insert_requests (rows t : list rate_row) :
  apply_requests e (insert_requests rows) t = if inserted e t rows then t ++ rows else t.
Proof.
  destruct rows as [| r rows]; [reflexivity |].
  cbn [insert_requests apply_requests fold_left inserted]. unfold effect.
  destruct (answered e (Post (r :: rows)) t); reflexivity.
Qed.

Lemma row_date_patch_row (ds : list date) (r : rate_row) :
  row_date (patch_row e ds r) = row_date r.
Proof.
  unfold patch_row. destruct (_ && _); [apply row_date_item_of | reflexivity].
Qed.

Lemma patch_row_idempotent (ds : list date) (r : rate_row) :
  patch_row e ds (patch_row e ds r) = patch_row e ds r.
Proof.
  unfold patch_row at 2. destruct (_ && _) eqn:C; [| reflexivity].
  unfold patch_row. rewrite row_date_item_of, C. reflexivity.
Qed.

Lemma apply_update_requests (ds : list date) :
  forall t : list rate_row,
    apply_requests e (update_requests (map (item_of e) ds)) t = map (patch_row e ds) t.
Proof.
  induction ds as [| d ds IH]; intros t.
  - cbn. transitivity (map (fun r : rate_row => r) t); [symmetry; apply map_id |].
    apply map_ext. intros r. reflexivity.
  - cbn [map update_requests apply_requests fold_left].
    change (fold_left (fun t q => effect e q t) ?qs ?t0) with (apply_requests e qs t0).
    fold (update_requests (map (item_of e) ds)). rewrite IH.
    rewrite row_date_item_of. unfold effect, answered. cbn [answer snd accepts andb].
    destruct (reachable e (Patch d (item_of e d))) eqn:R.
    + rewrite map_map. apply map_ext. intros r. unfold patch_row.
      cbn [date_in existsb]. fold (date_in (row_date r) ds).
      destruct (Z.eqb_spec (row_date r) d) as [E | E].
      * rewrite row_date_item_of. subst d. rewrite R. cbn [orb andb].
        destruct (date_in (row_date r) ds); reflexivity.
      * reflexivity.
    + apply map_ext. intros r. unfold patch_row.
      cbn [date_in existsb]. fold (date_in (row_date r) ds).
      destruct (Z.eqb_spec (row_date r) d) as [E | E]; [| reflexivity].
      subst d. rewrite R, !andb_false_r. reflexivity.
Qed.

Lemma map_row_date_patch (ds : list date) (t : list rate_row) :
  map row_date (map (patch_row e ds) t) = map row_date t.
Proof. rewrite map_map. apply map_ext. intros r. apply row_date_patch_row. Qed.

(** The table after a run. *)
Lemma table_after_run (t : list rate_row) :
  apply_requests e (run_requests e t) t
  = map (patch_row e (update_dates e t))
      (if inserted e t (map (item_of e) (insert_dates e t))
       then t ++ map (item_of e) (insert_dates e t)
       else t).
Proof.
  rewrite run_requests_dates_form, apply_requests_app.
  rewrite apply_insert_requests, apply_update_requests. reflexivity.
Qed.

Lemma inserted_by_app (qs1 qs2 : list request) :
  forall t : list rate_row,
    inserted_by e (qs1 ++ qs2) t
    = inserted_by e qs1 t ++ inserted_by e qs2 (apply_requests e qs1 t).
Proof.
  induction qs1 as [| q qs1 IH]; intros t; [reflexivity |].
  cbn [app inserted_by apply_requests fold_left].
  change (fold_left (fun t q => effect e q t) ?qs ?t0) with (apply_requests e qs t0).
  rewrite IH, app_assoc. reflexivity.
Qed.

Lemma written_by_app (qs1 qs2 : list request) :
  forall t : list rate_row,
    written_by e (qs1 ++ qs2) t
    = written_by e qs1 t ++ written_by e qs2 (apply_requests e qs1 t).
Proof.
  induction qs1 as [| q qs1 IH]; intros t; [reflexivity |].
  cbn [app written_by apply_requests fold_left].
  change (fold_left (fun t q => effect e q t) ?qs ?t0) with (apply_requests e qs t0).
  rewrite IH, app_assoc. reflexivity.
Qed.

Lemma inserted_by_updates (items : list rate_row) :
  forall t : list rate_row, inserted_by e (update_requests items) t = [].
Proof.
  induction items as [| item rest IH]; intros t; [reflexivity |].
  cbn [update_requests map inserted_by app]. apply IH.
Qed.

Lemma written_by_updates (items : list rate_row) (d : date) :
  forall t : list rate_row,
    In d (written_by e (update_requests items) t) -> In d (map row_date items).
Proof.
  induction items as [| item rest IH]; intros t H; [destruct H |].
  cbn [update_requests map written_by] in H. apply in_app_or in H.
  destruct H as [H | H]; [| right; apply (IH _ H)].
  destruct (answered e _ t); [| destruct H].
  cbn [request_dates] in H. left. destruct H as [<- | [<- | []]]; reflexivity.
Qed.

(** The rows a run creates. *)
Lemma inserted_by_run (t : list rate_row) :
  inserted_by e (run_requests e t) t
  = if inserted e t (map (item_of e) (insert_dates e t))
    then map (item_of e) (insert_dates e t)
    else [].
Proof.
  rewrite run_requests_dates_form, inserted_by_app, inserted_by_updates, app_nil_r.
  destruct (map (item_of e) (insert_dates e t)) as [| r rows]; [reflexivity |].
  cbn [insert_requests inserted_by inserted].
  destruct (answered e (Post (r :: rows)) t); [apply app_nil_r | reflexivity].
Qed.

(** A date a run writes is a date of the batch, when the storage answers
    the batched insert, or a date to update. *)
Lemma written_by_run (t : list rate_row) (d : date) :
  In d (written_by e (run_requests e t) t) ->
  (inserted e t (map (item_of e) (insert_dates e t)) = true /\ In d (insert_dates e t))
  \/ In d (update_dates e t).
Proof.
  rewrite run_requests_dates_form, written_by_app. intros H.
  apply in_app_or in H. destruct H as [H | H].
  - left. destruct (map (item_of e) (insert_dates e t)) as [| r rows] eqn:E; [destruct H |].
    cbn [insert_requests written_by inserted] in *. rewrite app_nil_r in H.
    destruct (answered e (Post (r :: rows)) t); [| destruct H].
    split; [reflexivity |]. cbn [request_dates] in H.
    rewrite <- E, map_row_date_item_of in H. exact H.
  - right. apply written_by_updates in H. rewrite map_row_date_item_of in H. exact H.
Qed.

End SecondRun.

Lemma patch_row_nil (e : env) (t : list rate_row) : map (patch_row e []) t = t.
Proof.
  transitivity (map (fun r : rate_row => r) t); [| apply map_id].
  apply map_ext. intros r. reflexivity.
Qed.

(** The storage decides on a POST by the dates it holds. *)
Lemma inserted_same_dates (e : env) (rows t t' : list rate_row) :
  map row_date t = map row_date t' -> inserted e t rows = inserted e t' rows.
Proof.
  intros E. destruct rows as [| r rows]; [reflexivity |].
  unfold inserted, answered, accepts. rewrite E. reflexivity.
Qed.

(** A batch the table holds is refused. *)
Lemma inserted_again (e : env) (rows t t' : list rate_row) :
  map row_date t' = map row_date (t ++ rows) -> inserted e t' rows = false.
Proof.
  intros E. destruct rows as [| r rows]; [reflexivity |].
  unfold inserted, answered, accepts. rewrite E.
  replace (existsb _ (r :: rows)) with true; [rewrite andb_false_r; reflexivity |].
  symmetry. apply existsb_exists. exists r. split; [left; reflexivity |].
  apply date_in_iff. rewrite map_app. apply in_or_app. right. left. reflexivity.
Qed.

Lemma run_plan_down (e : env) (t : list rate_row) :
  reachable e GetLatest = false -> run_plan e t = default_plan e.
Proof.
  intros L. unfold run_plan, run_latest, served, answered. cbn [accepts andb].
  rewrite L. reflexivity.
Qed.

Section LatestServed.

Variable e : env.
Hypothesis latest_served : reachable e GetLatest = true.

Lemma run_latest_max (t : list rate_row) (r : rate_row) :
  In r t -> row_date r <= run_latest e t.
Proof.
  intros Hr. unfold run_latest, served, answered. cbn [accepts andb].
  rewrite latest_served. cbn [answer fst].
  pose proof (order_date_desc_head t) as H.
  destruct (order_date_desc t) as [| h s]; [subst t; destruct Hr |].
  destruct H as [_ H]. cbn. apply H, Hr.
Qed.

Lemma plan_after_rows (t : list rate_row) (d : date) (r : rate_row) :
  In d (run_plan e t) -> In r t -> row_date r < d.
Proof.
  intros Hd Hr. apply in_missing_dates in Hd.
  pose proof (run_latest_max t r Hr). lia.
Qed.

Lemma existing_none (t : list rate_row) (d : date) :
  In d (run_plan e t) -> date_in d (run_existing e t) = false.
Proof.
  intros Hd. destruct (date_in d (run_existing e t)) eqn:X; [| reflexivity].
  apply date_in_iff in X. unfold run_existing, served, answered in X.
  cbn [accepts andb] in X.
  destruct (reachable e (GetDates (run_plan e t) false));
    cbn [answer fst existing_dates_of] in X; [| contradiction X].
  apply in_map_iff in X. destruct X as (r & E & Hr). apply filter_In in Hr.
  pose proof (plan_after_rows t d r Hd (proj1 Hr)). lia.
Qed.

Lemma insert_dates_latest (t : list rate_row) :
  insert_dates e t = filter (has_data e) (run_plan e t).
Proof.
  unfold insert_dates. apply filter_ext_in. intros d Hd.
  rewrite (existing_none t d Hd). apply andb_true_r.
Qed.

Lemma update_dates_latest (t : list rate_row) : update_dates e t = [].
Proof.
  unfold update_dates. apply filter_none. intros d Hd.
  rewrite (existing_none t d Hd). apply andb_false_r.
Qed.

Lemma table_after_run_latest (t : list rate_row) :
  apply_requests e (run_requests e t) t
  = if inserted e t (map (item_of e) (insert_dates e t))
    then t ++ map (item_of e) (insert_dates e t)
    else t.
Proof. rewrite table_after_run, update_dates_latest. apply patch_row_nil. Qed.

(** After an answered insert, no date the second run plans has a record at
    the source: such a date would have been inserted, and would then not be
    after the latest stored date. *)
Lemma nothing_left (t0 : list rate_row) (d : date) :
  inserted e t0 (map (item_of e) (insert_dates e t0)) = true ->
  In d (run_plan e (t0 ++ map (item_of e) (insert_dates e t0))) ->
  has_data e d = false.
Proof.
  intros I Hd. set (t1 := t0 ++ map (item_of e) (insert_dates e t0)) in *.
  destruct (has_data e d) eqn:D; [| reflexivity]. exfalso.
  assert (R : forall d', In d' (insert_dates e t0) -> d' < d).
  { intros d' Hd'.
    pose proof (plan_after_rows t1 d (item_of e d') Hd) as L.
    rewrite row_date_item_of in L. apply L. apply in_or_app. right.
    apply in_map, Hd'. }
  assert (N : exists d0, In d0 (insert_dates e t0)).
  { destruct (insert_dates e t0) as [| d0 l]; [discriminate |].
    exists d0. left. reflexivity. }
  destruct N as [d0 Hd0]. pose proof (R d0 Hd0) as L0.
  assert (Hd0' := Hd0). rewrite insert_dates_latest in Hd0'.
  apply filter_In in Hd0'. destruct Hd0' as [P0 _].
  apply in_missing_dates in P0. apply in_missing_dates in Hd.
  assert (Hin : In d (insert_dates e t0)).
  { rewrite insert_dates_latest. apply filter_In. split; [| exact D].
    apply in_missing_dates. split; [lia | tauto]. }
  pose proof (R d Hin). lia.
Qed.

Lemma converged_latest (t0 : list rate_row) : converged e t0.
Proof.
  unfold converged. cbv zeta. rewrite (table_after_run_latest t0).
  destruct (inserted e t0 (map (item_of e) (insert_dates e t0))) eqn:I.
  - set (t1 := t0 ++ map (item_of e) (insert_dates e t0)).
    assert (Q : run_requests e t1 = []).
    { rewrite run_requests_dates_form, update_dates_latest, insert_dates_latest.
      rewrite filter_none; [reflexivity |].
      intros d Hd. apply (nothing_left t0 d I Hd). }
    rewrite Q. split; [reflexivity |]. split; [reflexivity |].
    intros d Hw Hp. exfalso.
    assert (D : has_data e d = true).
    { destruct (written_by_run e t0 d Hw) as [[_ H] | H].
      - unfold insert_dates in H. apply filter_In in H. destruct H as [_ C].
        apply andb_true_iff in C. tauto.
      - rewrite update_dates_latest in H. destruct H. }
    rewrite (nothing_left t0 d I Hp) in D. discriminate.
  - split; [rewrite (table_after_run_latest t0), I; reflexivity |].
    split; [rewrite inserted_by_run, I; reflexivity |].
    intros d Hw _. exfalso.
    destruct (written_by_run e t0 d Hw) as [[H _] | H]; [congruence |].
    rewrite update_dates_latest in H. destruct H.
Qed.

End LatestServed.

Section LatestDown.

Variable e : env.

Hypothesis latest_down : reachable e GetLatest = false.
Hypothesis existing_served : reachable e (GetDates (default_plan e) false) = true.

Lemma existing_iff (t : list rate_row) (d : date) :
  date_in d (run_existing e t) = true <-> In d (default_plan e) /\ In d (map row_date t).
Proof.
  rewrite date_in_iff. unfold run_existing, served, answered. cbn [accepts andb].
  rewrite (run_plan_down e t latest_down), existing_served.
  cbn [answer fst existing_dates_of].
  rewrite !in_map_iff. split.
  - intros (r & E & Hr). apply filter_In in Hr. destruct Hr as [Hr Hp].
    subst d. split; [apply date_in_iff, Hp | exists r; tauto].
  - intros (Hp & r & E & Hr). exists r. split; [exact E |].
    apply filter_In. split; [exact Hr |]. subst d. apply date_in_iff, Hp.
Qed.

Lemma existing_same_dates (t t' : list rate_row) (d : date) :
  map row_date t = map row_date t' ->
  date_in d (run_existing e t) = date_in d (run_existing e t').
Proof. intros E. apply bool_eq_iff. rewrite !existing_iff, E. reflexivity. Qed.

Lemma dates_same_dates (t t' : list rate_row) :
  map row_date t = map row_date t' ->
  insert_dates e t = insert_dates e t' /\ update_dates e t = update_dates e t'.
Proof.
  intros E. unfold insert_dates, update_dates.
  rewrite !(run_plan_down e _ latest_down).
  split; apply filter_ext; intros d; rewrite (existing_same_dates t t' d E); reflexivity.
Qed.

Lemma patch_row_item (ds : list date) (d : date) : patch_row e ds (item_of e d) = item_of e d.
Proof.
  unfold patch_row. rewrite row_date_item_of. destruct (_ && _); reflexivity.
Qed.

Lemma converged_down (t0 : list rate_row) : converged e t0.
Proof.
  unfold converged. cbv zeta. rewrite (table_after_run e t0).
  set (rows0 := map (item_of e) (insert_dates e t0)).
  set (U0 := update_dates e t0).
  destruct (inserted e t0 rows0) eqn:I.
  - set (t1 := map (patch_row e U0) (t0 ++ rows0)).
    assert (Dt : map row_date t1 = map row_date t0 ++ insert_dates e t0).
    { subst t1 rows0. rewrite map_row_date_patch, map_app, map_row_date_item_of.
      reflexivity. }
    assert (K : forall d, In d (default_plan e) -> has_data e d = true ->
                          date_in d (run_existing e t1) = true).
    { intros d Hp D. apply existing_iff. split; [exact Hp |]. rewrite Dt.
      apply in_or_app. destruct (date_in d (run_existing e t0)) eqn:X.
      - left. apply existing_iff in X. tauto.
      - right. unfold insert_dates. rewrite (run_plan_down e t0 latest_down).
        apply filter_In. split; [exact Hp |]. rewrite D, X. reflexivity. }
    assert (I1 : insert_dates e t1 = []).
    { unfold insert_dates. rewrite (run_plan_down e t1 latest_down).
      apply filter_none. intros d Hp.
      destruct (has_data e d) eqn:D; [| reflexivity]. rewrite (K d Hp D). reflexivity. }
    assert (U1 : update_dates e t1 = filter (has_data e) (default_plan e)).
    { unfold update_dates. rewrite (run_plan_down e t1 latest_down).
      apply filter_ext_in. intros d Hp.
      destruct (has_data e d) eqn:D; [| reflexivity]. rewrite (K d Hp D). reflexivity. }
    split; [| split].
    + rewrite (table_after_run e t1), I1, U1. cbn [map inserted].
      transitivity (map (fun r : rate_row => r) t1); [| apply map_id].
      apply map_ext_in. intros r Hr. unfold t1 in Hr. apply in_map_iff in Hr.
      destruct Hr as (r0 & <- & Hr0).
      unfold patch_row at 1. rewrite row_date_patch_row.
      destruct (date_in (row_date r0) (filter (has_data e) (default_plan e))
                && reachable e (Patch (row_date r0) (item_of e (row_date r0)))) eqn:C;
        [| reflexivity].
      apply andb_true_iff in C. destruct C as [C R].
      apply in_app_or in Hr0. destruct Hr0 as [Hr0 | Hr0].
      * apply date_in_iff, filter_In in C. destruct C as [Hp D].
        assert (X : date_in (row_date r0) (run_existing e t0) = true).
        { apply existing_iff. split; [exact Hp | apply in_map, Hr0]. }
        assert (Hu : date_in (row_date r0) U0 = true).
        { apply date_in_iff. subst U0. unfold update_dates.
          rewrite (run_plan_down e t0 latest_down).
          apply filter_In. split; [exact Hp |]. rewrite D, X. reflexivity. }
        unfold patch_row. rewrite Hu, R. reflexivity.
      * subst rows0. apply in_map_iff in Hr0. destruct Hr0 as (d' & <- & _).
        rewrite row_date_item_of, patch_row_item. reflexivity.
    + rewrite inserted_by_run, I1. reflexivity.
    + intros d Hw Hp. rewrite (run_plan_down e t1 latest_down) in *.
      rewrite existing_served.
      assert (D : has_data e d = true).
      { destruct (written_by_run e t0 d Hw) as [[_ H] | H];
          [unfold insert_dates in H | unfold update_dates in H];
          apply filter_In in H; destruct H as [_ C]; apply andb_true_iff in C; tauto. }
      split.
      * apply date_in_iff, K; assumption.
      * rewrite U1. apply filter_In. split; assumption.
  - set (t1 := map (patch_row e U0) t0).
    assert (Dt : map row_date t1 = map row_date t0)
      by (subst t1; apply map_row_date_patch).
    destruct (dates_same_dates t1 t0 Dt) as [I1 U1]. fold rows0 in I1. fold U0 in U1.
    assert (I' : inserted e t1 rows0 = false)
      by (rewrite (inserted_same_dates e rows0 t1 t0 Dt); exact I).
    split; [| split].
    + rewrite (table_after_run e t1), I1, U1. fold rows0. rewrite I'.
      subst t1. rewrite map_map. apply map_ext. intros r. apply patch_row_idempotent.
    + rewrite inserted_by_run, I1. fold rows0. rewrite I'. reflexivity.
    + intros d Hw Hp. rewrite (run_plan_down e t1 latest_down) in *.
      rewrite existing_served.
      destruct (written_by_run e t0 d Hw) as [[H _] | H]; [fold rows0 in H; congruence |].
      fold U0 in H. rewrite U1. split; [| exact H].
      apply date_in_iff. rewrite (existing_same_dates t1 t0 d Dt).
      subst U0. unfold update_dates in H. apply filter_In in H.
      destruct H as [_ C]. apply andb_true_iff in C. tauto.
Qed.

End LatestDown.

Section ReadsDown.

Variable e : env.

Hypothesis latest_down : reachable e GetLatest = false.
Hypothesis existing_down : reachable e (GetDates (default_plan e) false) = false.

Lemma existing_blind (t : list rate_row) : run_existing e t = [].
Proof.
  unfold run_existing, served, answered. cbn [accepts andb].
  rewrite (run_plan_down e t latest_down), existing_down. reflexivity.
Qed.

Lemma insert_dates_blind (t : list rate_row) :
  insert_dates e t = filter (has_data e) (default_plan e).
Proof.
  unfold insert_dates. rewrite (run_plan_down e t latest_down), existing_blind.
  apply filter_ext. intros d. apply andb_true_r.
Qed.

Lemma update_dates_blind (t : list rate_row) : update_dates e t = [].
Proof.
  unfold update_dates. rewrite existing_blind.
  apply filter_none. intros d _. apply andb_false_r.
Qed.

(** Without either read the second run sends the batch of the first one
    again, and the storage, which holds it when it answered the first time,
    refuses it. *)
Lemma converged_blind (t0 : list rate_row) : converged e t0.
Proof.
  unfold converged. cbv zeta.
  rewrite (table_after_run e t0), update_dates_blind, patch_row_nil.
  set (rows0 := map (item_of e) (insert_dates e t0)).
  assert (R : forall t, map (item_of e) (insert_dates e t) = rows0).
  { intros t. subst rows0. rewrite !insert_dates_blind. reflexivity. }
  destruct (inserted e t0 rows0) eqn:I.
  - assert (I' : inserted e (t0 ++ rows0) rows0 = false)
      by (apply (inserted_again e rows0 t0); reflexivity).
    split; [| split].
    + rewrite (table_after_run e (t0 ++ rows0)), update_dates_blind, patch_row_nil.
      rewrite R, I'. reflexivity.
    + rewrite inserted_by_run, R, I'. reflexivity.
    + intros d Hw Hp. rewrite (run_plan_down e _ latest_down), existing_down.
      destruct (written_by_run e t0 d Hw) as [[_ H] | H];
        [| rewrite update_dates_blind in H; destruct H].
      rewrite R. split; [| exact I'].
      rewrite insert_dates_blind in *. exact H.
  - split; [| split].
    + rewrite (table_after_run e t0), update_dates_blind, patch_row_nil.
      fold rows0. rewrite I. reflexivity.
    + rewrite inserted_by_run. fold rows0. rewrite I. reflexivity.
    + intros d Hw _. exfalso.
      destruct (written_by_run e t0 d Hw) as [[H _] | H]; [fold rows0 in H; congruence |].
      rewrite update_dates_blind in H. destruct H.
Qed.

End ReadsDown.

Lemma converged_always (e : env) (t0 : list rate_row) : converged e t0.
Proof.
  destruct (reachable e GetLatest) eqn:L; [apply converged_latest, L |].
  destruct (reachable e (GetDates (default_plan e) false)) eqn:X.
  - apply converged_down; assumption.
  - apply converged_blind; assumption.
Qed.

(** Two runs with only the latest-date query down. *)
Example demo_second_run :
  let w1 := snd (sync_exchange_data_from_api demo_env_blind demo_world) in
  let w2 := snd (sync_exchange_data_from_api demo_env_blind w1) in
  map row_date (inserted_rows demo_env_blind (events_since demo_world w1) (table demo_world))
  = [ymd 2025 1 6; ymd 2025 1 9]
  /\ map row_date (to_update (run_fetched demo_env_blind (table w1)))
     = [ymd 2025 1 6; ymd 2025 1 9]
  /\ inserted_rows demo_env_blind (events_since w1 w2) (table w1) = []
  /\ table w2 = table w1.
Proof. vm_compute. repeat split. Qed.

(** Without either read the second run cannot see what the first one stored:
    it sends the same batch again, the storage refuses it, the table is
    what it was and the run reports the dates of the batch as failed. *)
Example demo_no_reads :
  let w1 := snd (sync_exchange_data_from_api demo_env_no_reads demo_world) in
  let r2 := fst (sync_exchange_data_from_api demo_env_no_reads w1) in
  let w2 := snd (sync_exchange_data_from_api demo_env_no_reads w1) in
  map row_date (table w1) = [ymd 2025 1 3; ymd 2025 1 6; ymd 2025 1 9]
  /\ write_requests (events_since w1 w2)
     = [Post [mk_row (ymd 2025 1 6) (Some 1300.5%float) None (Some 900%float) None;
              mk_row (ymd 2025 1 9) None (Some 1500%float) None None]]
  /\ failed_dates r2 = Some [ymd 2025 1 7; ymd 2025 1 6; ymd 2025 1 9]
  /\ table w2 = table w1.
Proof. vm_compute. repeat split. Qed.

(** A batch with a date the table holds: with neither read answered and
    Monday stored, the run sends Monday and Thursday in one POST; the
    storage refuses it, Thursday is not stored either and both dates are
    reported. *)
Example demo_refused_batch :
  let (r, w') := sync_exchange_data_from_api demo_env_no_reads demo_world_monday in
  map request_dates (write_requests (events_since demo_world_monday w'))
  = [[ymd 2025 1 6; ymd 2025 1 9]]
  /\ failed_dates r = Some [ymd 2025 1 7; ymd 2025 1 6; ymd 2025 1 9]
  /\ table w' = table demo_world_monday.
Proof. vm_compute. repeat split. Qed.

(** C3, as the code has it.  The first run writes Monday 2025-01-06.  The
    plan of the second run starts after the latest stored date: it is not
    empty (Tuesday and Wednesday), Monday is not part of it, the existence
    check finds no date and no record is classified as an update. *)
Lemma second_run_plans_later_dates :
  In (ymd 2025 1 6)
     (written_dates demo_env_wednesday
        (events_since demo_world
           (snd (sync_exchange_data_from_api demo_env_wednesday demo_world)))
        (table demo_world))
  /\ run_plan demo_env_wednesday
       (table (snd (sync_exchange_data_from_api demo_env_wednesday demo_world)))
     = [ymd 2025 1 7; ymd 2025 1 8]
  /\ run_existing demo_env_wednesday
       (table (snd (sync_exchange_data_from_api demo_env_wednesday demo_world)))
     = []
  /\ to_update
       (run_fetched demo_env_wednesday
          (table (snd (sync_exchange_data_from_api demo_env_wednesday demo_world))))
     = [].
Proof. vm_compute. repeat split. left. reflexivity. Qed.

(** C3, amended.  Two runs in succession in the same environment (clock,
    configuration, rate source and reachability of the storage): the table
    after the second run is the table after the first and the second run
    creates no row.  A date the first run wrote is either not planned again
    (the plan starts after the latest stored date) or, when the second run
    plans it again: found by the existence check and classified as an
    update, when that check is answered; classified as an insert, in a
    batch the storage refuses because it holds the date, when it is not. *)
Theorem sync_twice (e : env) (w : world) :
  let w1 := snd (sync_exchange_data_from_api e w) in
  let w2 := snd (sync_exchange_data_from_api e w1) in
  let f2 := run_fetched e (table w1) in
  table w2 = table w1
  /\ inserted_rows e (events_since w1 w2) (table w1) = []
  /\ forall d,
       In d (written_dates e (events_since w w1) (table w)) ->
       In d (run_plan e (table w1)) ->
       if reachable e (GetDates (run_plan e (table w1)) false)
       then In d (run_existing e (table w1)) /\ In d (map row_date (to_update f2))
       else In d (map row_date (to_insert f2))
            /\ answered e (Post (to_insert f2)) (table w1) = false.
Proof.
  cbv zeta. destruct (preconditions e) eqn:P.
  - destruct (sync_run e w P) as (st1 & sm1 & E1). rewrite E1. cbn [snd].
    match goal with |- context [sync_exchange_data_from_api e ?w1] =>
      destruct (sync_run e w1 P) as (st2 & sm2 & E2); rewrite E2 end.
    cbn [snd table]. rewrite !events_since_app.
    unfold inserted_rows, written_dates. rewrite !write_requests_run_events.
    destruct (converged_always e (table w)) as (C1 & C2 & C3).
    split; [exact C1 |]. split; [exact C2 |].
    intros d Hw Hp. specialize (C3 d Hw Hp).
    rewrite run_fetched_closed. cbn [to_update to_insert].
    rewrite !map_row_date_item_of.
    destruct (reachable e (GetDates _ false)); [exact C3 |].
    destruct C3 as [C3 C4]. split; [exact C3 |].
    fold (insert_dates e (apply_requests e (run_requests e (table w)) (table w))).
    destruct (map (item_of e) (insert_dates e _)) as [| r rows] eqn:E.
    + unfold insert_dates in C3. apply (f_equal (map row_date)) in E.
      rewrite map_row_date_item_of in E. fold (insert_dates e
        (apply_requests e (run_requests e (table w)) (table w))) in C3.
      rewrite E in C3. destruct C3.
    + exact C4.
  - destruct (sync_blocked e w P) as (st1 & err1 & evs1 & E1 & W1 & _). rewrite E1.
    cbn [snd].
    match goal with |- context [sync_exchange_data_from_api e ?w1] =>
      destruct (sync_blocked e w1 P) as (st2 & err2 & evs2 & E2 & W2 & _); rewrite E2 end.
    cbn [snd table trace]. rewrite !events_since_app.
    unfold inserted_rows, written_dates. rewrite W1, W2.
    split; [reflexivity |]. split; [reflexivity |]. intros d [].
Qed.

(** With only the latest-date query down, Monday is written by the first
    run and planned again by the second, which finds it and updates it. *)
Lemma sync_twice_witness :
  table (snd (sync_exchange_data_from_api demo_env_blind
                (snd (sync_exchange_data_from_api demo_env_blind demo_world))))
  = table (snd (sync_exchange_data_from_api demo_env_blind demo_world))
  /\ inserted_rows demo_env_blind
       (events_since (snd (sync_exchange_data_from_api demo_env_blind demo_world))
          (snd (sync_exchange_data_from_api demo_env_blind
                  (snd (sync_exchange_data_from_api demo_env_blind demo_world)))))
       (table (snd (sync_exchange_data_from_api demo_env_blind demo_world)))
     = []
  /\ In (ymd 2025 1 6)
       (written_dates demo_env_blind
          (events_since demo_world
             (snd (sync_exchange_data_from_api demo_env_blind demo_world)))
          (table demo_world))
  /\ In (ymd 2025 1 6)
       (run_plan demo_env_blind
          (table (snd (sync_exchange_data_from_api demo_env_blind demo_world))))
  /\ In (ymd 2025 1 6)
       (run_existing demo_env_blind
          (table (snd (sync_exchange_data_from_api demo_env_blind demo_world))))
  /\ In (ymd 2025 1 6)
       (map row_date
          (to_update
             (run_fetched demo_env_blind
                (table (snd (sync_exchange_data_from_api demo_env_blind demo_world)))))).
Proof.
  assert (W : In (ymd 2025 1 6)
                (written_dates demo_env_blind
                   (events_since demo_world
                      (snd (sync_exchange_data_from_api demo_env_blind demo_world)))
                   (table demo_world)))
    by (refine (proj1 (date_in_iff _ _) _); vm_compute; reflexivity).
  assert (P : In (ymd 2025 1 6)
                (run_plan demo_env_blind
                   (table (snd (sync_exchange_data_from_api demo_env_blind demo_world)))))
    by (refine (proj1 (date_in_iff _ _) _); vm_compute; reflexivity).
  destruct (sync_twice demo_env_blind demo_world) as (H1 & H2 & H3).
  pose proof (H3 (ymd 2025 1 6) W P) as H4.
  change (reachable demo_env_blind
            (GetDates
               (run_plan demo_env_blind
                  (table (snd (sync_exchange_data_from_api demo_env_blind demo_world))))
               false)) with true in H4.
  destruct H4 as [H4 H5].
  exact (conj H1 (conj H2 (conj W (conj P (conj H4 H5))))).
Defined.

(* ===================================================================== *)
(** ** Further properties: business days and the plan *)
(* ===================================================================== *)

Lemma last_weekday_greatest (c x : date) :
  is_business_day x = true -> x <= c -> x <= last_weekday c.
Proof.
  unfold is_business_day. intros Hx Hc. apply Z.ltb_lt in Hx.
  pose proof (weekday_range c) as B. unfold last_weekday.
  destruct (Z_lt_dec (weekday c) 5) as [L | L]; [lia |].
  pose proof (weekday_pred c ltac:(lia)) as P1.
  destruct (Z.eq_dec x c) as [-> | N]; [lia |].
  destruct (Z.eq_dec (weekday c) 5) as [E | E]; [lia |].
  destruct (Z.eq_dec x (c - 1)) as [-> | N1]; lia.
Qed.

Lemma weekdays_back_complete (n : nat) :
  forall c x : date,
    is_business_day x = true -> x <= c ->
    (exists y, In y (weekdays_back n c) /\ y <= x) ->
    In x (weekdays_back n c).
Proof.
  induction n as [| n IH]; intros c x Hx Hc (y & Hy & Hyx); [destruct Hy |].
  cbn [weekdays_back] in *. pose proof (last_weekday_greatest c x Hx Hc) as G.
  destruct (Z.eq_dec x (last_weekday c)) as [-> | N]; [left; reflexivity |].
  right. apply IH; [exact Hx | lia |].
  destruct Hy as [<- | Hy]; [lia |]. exists y. split; assumption.
Qed.

(** X1.  [get_business_days] skips no weekday: every weekday that is not
    after the reference date and not before some date of the result is a
    date of the result. *)
Theorem get_business_days_complete (d : date) (n : Z) (x : date) :
  is_business_day x = true ->
  x <= d ->
  (exists y, In y (get_business_days d n) /\ y <= x) ->
  In x (get_business_days d n).
Proof.
  rewrite get_business_days_weekdays_back. apply weekdays_back_complete.
Qed.

Lemma get_business_days_complete_witness :
  is_business_day (ymd 2025 1 3) = true
  /\ ymd 2025 1 3 <= ymd 2025 1 6
  /\ In (ymd 2025 1 2) (get_business_days (ymd 2025 1 6) 3)
  /\ In (ymd 2025 1 3) (get_business_days (ymd 2025 1 6) 3).
Proof.
  assert (B : is_business_day (ymd 2025 1 3) = true) by reflexivity.
  assert (L : ymd 2025 1 3 <= ymd 2025 1 6) by (vm_compute; discriminate).
  assert (Y : In (ymd 2025 1 2) (get_business_days (ymd 2025 1 6) 3))
    by (vm_compute; tauto).
  assert (E : exists y, In y (get_business_days (ymd 2025 1 6) 3) /\ y <= ymd 2025 1 3).
  { exists (ymd 2025 1 2). split; [exact Y | vm_compute; discriminate]. }
  exact (conj B (conj L (conj Y
           (get_business_days_complete (ymd 2025 1 6) 3 (ymd 2025 1 3) B L E)))).
Defined.

Lemma weekdays_back_snoc (k : nat) :
  forall c : date,
    exists x,
      weekdays_back (S k) c = weekdays_back k c ++ [x]
      /\ is_business_day x = true /\ x <= c
      /\ forall y, In y (weekdays_back k c) -> x < y.
Proof.
  induction k as [| k IH]; intros c.
  - exists (last_weekday c). split; [reflexivity |].
    split; [apply Z.ltb_lt, last_weekday_business |].
    split; [apply last_weekday_bounds | intros y []].
  - destruct (IH (last_weekday c - 1)) as (x & E & B & U & L). exists x.
    change (weekdays_back (S (S k)) c)
      with (last_weekday c :: weekdays_back (S k) (last_weekday c - 1)).
    rewrite E. pose proof (last_weekday_bounds c).
    split; [reflexivity |]. split; [exact B |]. split; [lia |].
    intros y [<- | Hy]; [lia | apply L, Hy].
Qed.

(** X2.  When [get_business_days] returns for one more day, it returns for
    the count itself, and the longer result is the shorter one followed by
    one more date, a weekday older than every date of the shorter result;
    and on a Saturday or a Sunday the outcome, a result or the overflow, is
    the one of the day before. *)
Theorem get_business_days_grows (d : date) (n : Z) :
  0 <= n ->
  (forall l',
     get_business_days_checked d (n + 1) = Some l' ->
     exists l x,
       get_business_days_checked d n = Some l
       /\ l' = l ++ [x]
       /\ is_business_day x = true /\ x <= d
       /\ forall y, In y l -> x < y)
  /\ (is_business_day d = false ->
      get_business_days_checked d n = get_business_days_checked (d - 1) n).
Proof.
  intros Hn. split.
  - intros l' H. destruct (get_business_days_checked_some d (n + 1) l' H) as [-> F].
    rewrite get_business_days_weekdays_back in *.
    replace (Z.to_nat (n + 1)) with (S (Z.to_nat n)) in * by lia.
    destruct (weekdays_back_snoc (Z.to_nat n) d) as (x & E & B & U & L).
    exists (weekdays_back (Z.to_nat n) d), x.
    split; [| repeat split; assumption].
    destruct (get_business_days_checked_cases d n) as [[_ C] | [(y & Hy & Ly) _]].
    + rewrite C, get_business_days_weekdays_back. reflexivity.
    + exfalso. rewrite get_business_days_weekdays_back in Hy.
      rewrite Forall_forall in F. rewrite E in F.
      specialize (F y (in_or_app _ _ _ (or_introl Hy))). lia.
  - intros Hw. unfold is_business_day in Hw. apply Z.ltb_ge in Hw.
    unfold get_business_days_checked. rewrite !gbd_loop_checked_spec, Z.sub_0_r.
    destruct (Z.to_nat n) as [| k]; [reflexivity |].
    cbn [weekdays_back]. rewrite (last_weekday_weekend d Hw). reflexivity.
Qed.

(** Sunday 2025-01-05: three days are the two days and Wednesday. *)
Lemma get_business_days_grows_witness :
  0 <= 2
  /\ get_business_days_checked (ymd 2025 1 5) (2 + 1)
     = Some ([ymd 2025 1 3; ymd 2025 1 2] ++ [ymd 2025 1 1])
  /\ get_business_days_checked (ymd 2025 1 5) 2 = Some [ymd 2025 1 3; ymd 2025 1 2]
  /\ get_business_days_checked (ymd 2025 1 5) 2
     = get_business_days_checked (ymd 2025 1 5 - 1) 2.
Proof.
  assert (N : 0 <= 2) by lia.
  assert (E : get_business_days_checked (ymd 2025 1 5) (2 + 1)
              = Some ([ymd 2025 1 3; ymd 2025 1 2] ++ [ymd 2025 1 1]))
    by (vm_compute; reflexivity).
  destruct (get_business_days_grows (ymd 2025 1 5) 2 N) as [H1 H2].
  destruct (H1 _ E) as (l & x & El & Ex & _).
  apply app_inj_tail in Ex. destruct Ex as [<- _].
  exact (conj N (conj E (conj El (H2 eq_refl)))).
Defined.

Lemma days_from_sorted (n : nat) (start : date) : StronglySorted Z.lt (days_from start n).
Proof.
  revert start. induction n as [| n IH]; intros start; cbn [days_from]; constructor.
  - apply IH.
  - apply Forall_forall. intros x Hx. apply in_days_from in Hx. lia.
Qed.

Lemma filter_sorted (f : date -> bool) (l : list date) :
  StronglySorted Z.lt l -> StronglySorted Z.lt (filter f l).
Proof.
  induction 1 as [| a l S IH F]; cbn [filter]; [constructor |].
  destruct (f a); [| exact IH]. constructor; [exact IH |].
  rewrite Forall_forall in *. intros x Hx. apply filter_In in Hx. apply F, Hx.
Qed.

Lemma days_from_length (n : nat) (start : date) : length (days_from start n) = n.
Proof. revert start. induction n as [| n IH]; intros start; cbn; [| rewrite IH]; reflexivity. Qed.

(** X3.  The business days a run plans are in strictly ascending order, so
    no date is planned twice, and there are at most as many as there are
    days between the latest stored date and today. *)
Theorem missing_dates_ascending (latest today : date) :
  StronglySorted Z.lt (missing_dates latest today)
  /\ NoDup (missing_dates latest today)
  /\ Z.of_nat (length (missing_dates latest today)) <= Z.max 0 (today - latest).
Proof.
  split; [| split; [apply missing_dates_NoDup |]];
    unfold missing_dates, sync_business_days;
    destruct (Z.geb_spec latest today) as [G | G]; try constructor.
  - rewrite bd_loop_filter. cbn [app]. apply filter_sorted, days_from_sorted.
  - cbn [length]. lia.
  - rewrite bd_loop_filter. cbn [app].
    pose proof (filter_length_le is_business_day
                  (days_from (latest + 1) (Z.to_nat (today + 1 - (latest + 1))))) as L.
    rewrite days_from_length in L. lia.
Qed.

(* ===================================================================== *)
(** ** Further properties: the record built from a payload *)
(* ===================================================================== *)

Lemma normalize_item_rates (a b c x : option float) (item : api_item) :
  normalize_item [("USD", a); ("EUR", b); ("JPY100", c); ("CNH", x)]%string item
  = [("USD", entry_update ["USD"] item a);
     ("EUR", entry_update ["EUR"] item b);
     ("JPY100", entry_update ["JPY(100)"; "JPY100"] item c);
     ("CNH", entry_update ["CNH"] item x)]%string.
Proof.
  unfold normalize_item, entry_update, unit_in, dict_mem, dict_set.
  destruct item as [u r]. cbn [cur_unit deal_bas_r existsb map fst].
  rewrite (String.eqb_sym "USD" u), (String.eqb_sym "EUR" u),
    (String.eqb_sym "JPY100" u), (String.eqb_sym "CNH" u).
  destruct r as [v |].
  - destruct (String.eqb_spec u "JPY(100)") as [-> | N0]; [reflexivity |].
    destruct (String.eqb_spec u "USD") as [-> | N1]; [reflexivity |].
    destruct (String.eqb_spec u "EUR") as [-> | N2]; [reflexivity |].
    destruct (String.eqb_spec u "JPY100") as [-> | N3]; [reflexivity |].
    destruct (String.eqb_spec u "CNH") as [-> | N4]; [reflexivity |].
    reflexivity.
  - destruct (u =? "USD")%string, (u =? "EUR")%string, (u =? "JPY(100)")%string,
      (u =? "JPY100")%string, (u =? "CNH")%string; reflexivity.
Qed.

Lemma last_rate_update (units : list string) (item : api_item) (rest : list api_item)
  (old : option float) :
  match last_rate units rest with
  | Some v => Some v
  | None => entry_update units item old
  end
  = match last_rate units (item :: rest) with
    | Some v => Some v
    | None => old
    end.
Proof.
  cbn [last_rate]. unfold entry_update.
  destruct (last_rate units rest); [reflexivity |].
  destruct (unit_in (cur_unit item) units); [| reflexivity].
  destruct (deal_bas_r item); reflexivity.
Qed.

Lemma normalize_fold (api_data : list api_item) :
  forall a b c x : option float,
    fold_left normalize_item api_data
      [("USD", a); ("EUR", b); ("JPY100", c); ("CNH", x)]%string
    = [("USD", match last_rate ["USD"] api_data with Some v => Some v | None => a end);
       ("EUR", match last_rate ["EUR"] api_data with Some v => Some v | None => b end);
       ("JPY100", match last_rate ["JPY(100)"; "JPY100"] api_data with
                  | Some v => Some v
                  | None => c
                  end);
       ("CNH", match last_rate ["CNH"] api_data with Some v => Some v | None => x end)]%string.
Proof.
  induction api_data as [| item rest IH]; intros a b c x; [reflexivity |].
  cbn [fold_left]. rewrite normalize_item_rates, IH, !last_rate_update. reflexivity.
Qed.

(** X4.  The record built for a date from a payload has that date, and each
    of its rates is the rate of the last entry of the payload with that
    currency's unit whose rate converts; it is null when there is no such
    entry.  The yen is read from the units 'JPY(100)' and 'JPY100'; entries
    with other units, and entries whose rate does not convert, change
    nothing. *)
Theorem data_to_save_last_rate (d : date) (api_data : list api_item) :
  data_to_save d api_data
  = mk_row d (last_rate ["USD"%string] api_data)
             (last_rate ["EUR"%string] api_data)
             (last_rate ["JPY(100)"%string; "JPY100"%string] api_data)
             (last_rate ["CNH"%string] api_data).
Proof.
  unfold data_to_save. cbn [map CURRENCIES]. rewrite normalize_fold.
  unfold dict_get. cbn.
  destruct (last_rate ["USD"%string] api_data), (last_rate ["EUR"%string] api_data),
    (last_rate ["JPY(100)"%string; "JPY100"%string] api_data),
    (last_rate ["CNH"%string] api_data); reflexivity.
Qed.

Example data_to_save_demo :
  data_to_save (ymd 2025 1 6)
    [mk_item "USD" (Some 1300%float); mk_item "JPY(100)" (Some 900%float);
     mk_item "USD" None; mk_item "KRW" (Some 1%float); mk_item "JPY100" (Some 901%float)]
  = mk_row (ymd 2025 1 6) (Some 1300%float) None (Some 901%float) None.
Proof. vm_compute. reflexivity. Qed.

(* ===================================================================== *)
(** ** Further properties: the report and the table of a run *)
(* ===================================================================== *)

Lemma write_inserts_count (e : env) (rows : list rate_row) (t : tally) (w : world) :
  fst (fst (write_inserts e rows t w))
  = fst t + (if inserted e (table w) rows then Z.of_nat (length rows) else 0).
Proof.
  destruct rows as [| r rows]; [cbn; lia |].
  cbn [write_inserts inserted]. unfold bind. rewrite postgrest_request_run.
  unfold served. destruct (answered e (Post (r :: rows)) (table w)); cbn [answer fst ret].
  - reflexivity.
  - unfold ret. cbn [fst]. lia.
Qed.

Lemma write_updates_count (e : env) (items : list rate_row) :
  forall (t : tally) (w : world),
    fst (fst (write_updates e items t w))
    = fst t + Z.of_nat (length (filter (fun item => reachable e (Patch (row_date item) item))
                                  items)).
Proof.
  induction items as [| item rest IH]; intros t w; [cbn; lia |].
  cbn [write_updates filter]. unfold bind. rewrite postgrest_request_run.
  unfold served, answered. cbn [accepts andb].
  destruct (reachable e (Patch (row_date item) item)).
  - rewrite IH. cbn [fst length]. lia.
  - rewrite IH. reflexivity.
Qed.

Lemma sync_step3_count (e : env) (business_days : list date) (w : world) :
  let existing :=
    existing_dates_of (served e (GetDates business_days false) (table w)) in
  let f := fold_left (fetch_turn e existing) business_days (mk_fetched [] [] []) in
  fst (fst (sync_step3 e business_days w))
  = (if inserted e (table w) (to_insert f) then Z.of_nat (length (to_insert f)) else 0)
    + Z.of_nat (length (filter (fun item => reachable e (Patch (row_date item) item))
                          (to_update f))).
Proof.
  intros existing f. unfold sync_step3.
  unfold bind at 1. rewrite postgrest_request_run.
  rewrite effect_read by reflexivity.
  unfold bind at 1. rewrite fetch_dates_run. fold existing. fold f.
  unfold bind at 1.
  match goal with |- context [write_inserts e ?rows ?t ?w'] =>
    pose proof (write_inserts_count e rows t w') as C;
    destruct (write_inserts e rows t w') as [t1 w1] end.
  rewrite write_updates_count. cbn [fst table] in C. rewrite C. reflexivity.
Qed.

(** The report of a run that passes step 1. *)
Lemma sync_report (e : env) (w : world) :
  preconditions e = true ->
  exists fd w',
    sync_exchange_data_from_api e w
    = (mk_result true
         (mk_step 1 done :: mk_step 2 done
          :: match run_plan e (table w) with
             | [] => []
             | _ :: _ => [mk_step 3 done]
             end)
         (Some match run_plan e (table w) with
               | [] => NoNewData
               | _ :: _ => Updated (length (run_plan e (table w)))
                             (run_success_count e (table w))
               end)
         fd None,
       w').
Proof.
  unfold preconditions, sync_exchange_data_from_api. intros P.
  destruct (missing_vars e); [| discriminate].
  unfold bind at 1. rewrite postgrest_request_run. unfold served at 1, answered at 1.
    cbn [accepts andb]. rewrite P.
  rewrite effect_read by reflexivity.
  unfold bind at 1. rewrite postgrest_request_run.
  rewrite effect_read by reflexivity. cbn [table trace].
  assert (E : run_plan e (table w)
              = match sync_business_days
                        (latest_date_of (served e GetLatest (table w)) (today_kst e))
                        (today_kst e) with
                | None => []
                | Some l => l
                end) by reflexivity.
  unfold run_success_count, run_fetched, run_existing.
  destruct (sync_business_days _ _) as [[| d l] |].
  - rewrite E. do 2 eexists. reflexivity.
  - unfold bind at 1.
    match goal with |- context [sync_step3 e ?bds ?w'] =>
      pose proof (sync_step3_count e bds w') as C;
      destruct (sync_step3 e bds w') as [t w3] end.
    rewrite E. cbn [fst table] in C. rewrite <- C. do 2 eexists. reflexivity.
  - rewrite E. do 2 eexists. reflexivity.
Qed.

Lemma sync_blocked_report (e : env) (w : world) :
  preconditions e = false ->
  sync_exchange_data_from_api e w
  = (mk_result false [mk_step 1 failed] None None (Some (step1_error e)),
     mk_world (table w) (trace w ++ step1_events e)).
Proof.
  unfold preconditions, sync_exchange_data_from_api, step1_error, step1_events.
  intros P. destruct (missing_vars e).
  - unfold bind at 1. rewrite postgrest_request_run. unfold served at 1, answered at 1.
    cbn [accepts andb]. rewrite P.
    rewrite effect_read by reflexivity. reflexivity.
  - unfold ret. rewrite app_nil_r. destruct w; reflexivity.
Qed.

Lemma filter_split_length {A : Type} (f g : A -> bool) (l : list A) :
  (length (filter (fun x => f x && negb (g x)) l)
   + length (filter (fun x => f x && g x) l))%nat
  = length (filter f l).
Proof.
  induction l as [| a l IH]; [reflexivity |]. cbn [filter].
  destruct (f a), (g a); cbn [andb negb length]; lia.
Qed.

Lemma fetch_outcomes_length (e : env) (l : list date) :
  (length (filter (fetch_fails e) l) + length (filter (has_data e) l)
   + length (filter (skipped e) l))%nat
  = length l.
Proof.
  induction l as [| d l IH]; [reflexivity |]. cbn [filter].
  unfold fetch_fails at 1, has_data at 1, skipped at 1.
  destruct (fetch_rates e d) as [| [| x api]]; cbn [length]; lia.
Qed.

Lemma insert_failures_length (e : env) (t rows : list rate_row) :
  (if inserted e t rows then Z.of_nat (length rows) else 0)
  + Z.of_nat (length (insert_failures e t rows))
  = Z.of_nat (length rows).
Proof.
  destruct rows as [| r rows]; [reflexivity |]. cbn [inserted insert_failures].
  destruct (answered e (Post (r :: rows)) t); [cbn [length]; lia |].
  rewrite length_map. lia.
Qed.

Lemma update_failures_length (e : env) (items : list rate_row) :
  (length (filter (fun item => reachable e (Patch (row_date item) item)) items)
   + length (update_failures e items))%nat
  = length items.
Proof.
  unfold update_failures. rewrite length_map.
  apply (filter_length (fun item => reachable e (Patch (row_date item) item))).
Qed.

Lemma run_accounting (e : env) (t : list rate_row) :
  Z.of_nat (length (run_plan e t))
  = run_success_count e t + Z.of_nat (length (run_failures e t))
    + Z.of_nat (length (filter (skipped e) (run_plan e t))).
Proof.
  unfold run_success_count, run_failures, step3_failures.
  pose proof (insert_failures_length e t (to_insert (run_fetched e t))) as I.
  pose proof (update_failures_length e (to_update (run_fetched e t))) as U.
  rewrite !length_app.
  pose proof (fetch_outcomes_length e (run_plan e t)) as O.
  pose proof (filter_split_length (has_data e)
                (fun d => date_in d (run_existing e t)) (run_plan e t)) as S.
  rewrite run_fetched_closed in *. cbn [fetch_failed to_insert to_update] in *.
  rewrite !length_map in *. lia.
Qed.

(** X5.  A run that passes step 1 and has dates to fetch reports the number
    of planned dates and a success count, and every planned date is counted
    once: as a success, as a failure in [failed_dates], or as a date whose
    payload was empty. *)
Theorem sync_accounts_for_every_date (e : env) (w : world) :
  preconditions e = true ->
  run_plan e (table w) <> [] ->
  let r := fst (sync_exchange_data_from_api e w) in
  let plan := run_plan e (table w) in
  exists success_count,
    summary r = Some (Updated (length plan) success_count)
    /\ 0 <= success_count
    /\ Z.of_nat (length plan)
       = success_count + Z.of_nat (length (failed_list r))
         + Z.of_nat (length (filter (skipped e) plan)).
Proof.
  intros P N. cbv zeta. destruct (sync_report e w P) as (fd & w' & R).
  destruct (sync_run e w P) as (st & sm & E).
  assert (F : failed_list (fst (sync_exchange_data_from_api e w)) = run_failures e (table w))
    by (rewrite E; apply failed_list_result).
  destruct (run_plan e (table w)) as [| d l] eqn:Hp; [congruence |].
  exists (run_success_count e (table w)). split; [rewrite R; reflexivity |]. split.
  - unfold run_success_count. destruct (inserted e _); lia.
  - rewrite F, <- Hp. apply run_accounting.
Qed.

Lemma sync_accounts_for_every_date_witness :
  preconditions demo_env = true
  /\ summary (fst (sync_exchange_data_from_api demo_env demo_world)) = Some (Updated 4 2)
  /\ length (failed_list (fst (sync_exchange_data_from_api demo_env demo_world))) = 1%nat
  /\ length (filter (skipped demo_env) (run_plan demo_env (table demo_world))) = 1%nat.
Proof.
  assert (P : preconditions demo_env = true) by (vm_compute; reflexivity).
  assert (N : run_plan demo_env (table demo_world) <> [])
    by (vm_compute; discriminate).
  assert (S : summary (fst (sync_exchange_data_from_api demo_env demo_world))
              = Some (Updated 4 2)) by (vm_compute; reflexivity).
  assert (F : length (failed_list (fst (sync_exchange_data_from_api demo_env demo_world)))
              = 1%nat) by (vm_compute; reflexivity).
  assert (K : length (filter (skipped demo_env) (run_plan demo_env (table demo_world)))
              = 1%nat) by (vm_compute; reflexivity).
  destruct (sync_accounts_for_every_date demo_env demo_world P N) as (sc & _ & _ & _).
  exact (conj P (conj S (conj F K))).
Defined.

(** X6.  The step log of a run is complete when the run returns.  A run that
    fails step 1 reports that step alone, failed, with the error (the unset
    variables, or the storage) and neither summary nor failed dates.  A run
    that passes step 1 reports no error, steps 1 and 2 done, and step 3 done
    exactly when it had dates to fetch; without such dates its summary is
    that there is no new data. *)
Theorem sync_step_log (e : env) (w : world) :
  let r := fst (sync_exchange_data_from_api e w) in
  (preconditions e = false ->
   steps r = [mk_step 1 failed] /\ summary r = None /\ failed_dates r = None
   /\ error r = Some (step1_error e))
  /\ (preconditions e = true ->
      error r = None
      /\ steps r = mk_step 1 done :: mk_step 2 done
                   :: match run_plan e (table w) with
                      | [] => []
                      | _ :: _ => [mk_step 3 done]
                      end
      /\ (run_plan e (table w) = [] ->
          summary r = Some NoNewData /\ failed_dates r = None)).
Proof.
  cbv zeta. split; intros P.
  - rewrite (sync_blocked_report e w P). repeat split.
  - destruct (sync_report e w P) as (fd & w' & R).
    destruct (sync_run e w P) as (st & sm & S).
    split; [rewrite R; reflexivity |]. split; [rewrite R; reflexivity |].
    intros Hp. split; [rewrite R, Hp; reflexivity |].
    rewrite S. cbn [fst failed_dates]. unfold run_failures.
    rewrite (run_fetched_no_plan e (table w) Hp). reflexivity.
Qed.

Lemma sync_step_log_witness :
  preconditions demo_env_quiet = true
  /\ preconditions (mk_env None (Some "key"%string) 739254 (fun _ => FetchError)
                      (fun _ => true)) = false
  /\ steps (fst (sync_exchange_data_from_api demo_env_quiet demo_world))
     = [mk_step 1 done; mk_step 2 done; mk_step 3 done]
  /\ error (fst (sync_exchange_data_from_api
                   (mk_env None (Some "key"%string) 739254 (fun _ => FetchError)
                      (fun _ => true)) demo_world))
     = Some (MissingVars ["EXCHANGE_API_BASE_URL"%string]).
Proof.
  assert (P : preconditions demo_env_quiet = true) by (vm_compute; reflexivity).
  assert (Q : preconditions (mk_env None (Some "key"%string) 739254 (fun _ => FetchError)
                               (fun _ => true)) = false) by (vm_compute; reflexivity).
  destruct (sync_step_log demo_env_quiet demo_world) as [_ H].
  destruct (H P) as (_ & H1 & _).
  destruct (sync_step_log (mk_env None (Some "key"%string) 739254 (fun _ => FetchError)
                             (fun _ => true)) demo_world) as [G _].
  destruct (G Q) as (_ & _ & _ & G1).
  refine (conj P (conj Q (conj _ _))).
  - rewrite H1. vm_compute. reflexivity.
  - rewrite G1. vm_compute. reflexivity.
Defined.

(** X7.  The route [api2db] answers 200 or 500, and 500 exactly when step 1
    fails.  A 500 means that nothing happened: the table is unchanged, no
    date was fetched, and the only request is the health check, which is not
    even sent when the configuration is missing. *)
Theorem api2db_status (e : env) (w : world) :
  let status := snd (fst (api2db e w)) in
  let w' := snd (api2db e w) in
  (status = 200 \/ status = 500)
  /\ (status = 500 <-> missing_vars e <> [] \/ reachable e GetHealth = false)
  /\ (status = 500 ->
      table w' = table w
      /\ events_since w w'
         = match missing_vars e with
           | [] => [Storage GetHealth]
           | _ :: _ => []
           end).
Proof.
  cbv zeta. rewrite <- preconditions_spec. unfold api2db, bind.
  destruct (preconditions e) eqn:P.
  - destruct (sync_run e w P) as (st & sm & E). rewrite E. cbn.
    split; [left; reflexivity |]. split; [split; discriminate | discriminate].
  - rewrite (sync_blocked_report e w P). cbn [success ret fst snd table].
    split; [right; reflexivity |]. split; [split; reflexivity |]. intros _.
    split; [reflexivity |]. rewrite events_since_app. reflexivity.
Qed.

Lemma inserted_rows_run_events (e : env) (t : list rate_row) :
  inserted_rows e (run_events e t) t
  = if inserted e t (map (item_of e) (insert_dates e t))
    then map (item_of e) (insert_dates e t)
    else [].
Proof. unfold inserted_rows. rewrite write_requests_run_events. apply inserted_by_run. Qed.

(** X8.  A run deletes no row and changes the date of none: the dates of the
    table after the run are the dates before it, in place, followed by the
    dates of the rows it created; and the rows of a date that is not planned
    are what they were. *)
Theorem sync_keeps_rows (e : env) (w : world) (d : date) :
  let w' := snd (sync_exchange_data_from_api e w) in
  map row_date (table w')
  = map row_date (table w)
    ++ map row_date (inserted_rows e (events_since w w') (table w))
  /\ (~ In d (run_plan e (table w)) -> rows_of d (table w') = rows_of d (table w)).
Proof.
  cbv zeta. destruct (preconditions e) eqn:P.
  - destruct (sync_run e w P) as (st & sm & E). rewrite E. cbn [snd table].
    rewrite events_since_app, inserted_rows_run_events, table_after_run. split.
    + rewrite map_row_date_patch.
      destruct (inserted e _); [apply map_app | symmetry; apply app_nil_r].
    + intros N. rewrite <- table_after_run. apply rows_of_apply_requests.
      intros q Hq Hd. apply N.
      apply (run_requests_dates e (table w) q d Hq Hd).
  - rewrite (sync_blocked_report e w P). cbn [snd table].
    rewrite events_since_app. split; [| reflexivity].
    unfold step1_events, inserted_rows.
    destruct (missing_vars e); cbn; rewrite app_nil_r; reflexivity.
Qed.

Lemma sync_keeps_rows_witness :
  ~ In (ymd 2025 1 3) (run_plan demo_env (table demo_world))
  /\ rows_of (ymd 2025 1 3) (table (snd (sync_exchange_data_from_api demo_env demo_world)))
     = rows_of (ymd 2025 1 3) (table demo_world).
Proof.
  assert (N : ~ In (ymd 2025 1 3) (run_plan demo_env (table demo_world))).
  { intros H. apply date_in_iff in H. vm_compute in H. discriminate. }
  destruct (sync_keeps_rows demo_env demo_world (ymd 2025 1 3)) as [_ H].
  exact (conj N (H N)).
Defined.

(** X9.  When the latest-date query of a run is answered, every planned date
    is later than every stored row, the existence check finds nothing, and
    the run writes with at most one POST and no PATCH: every fetched record
    is inserted. *)
Theorem sync_latest_answered_inserts_only (e : env) (w : world) :
  preconditions e = true ->
  reachable e GetLatest = true ->
  let w' := snd (sync_exchange_data_from_api e w) in
  let plan := run_plan e (table w) in
  (forall r d, In r (table w) -> In d plan -> row_date r < d)
  /\ (forall d, In d plan -> ~ In d (run_existing e (table w)))
  /\ write_requests (events_since w w')
     = insert_requests (map (item_of e) (filter (has_data e) plan)).
Proof.
  intros P L. cbv zeta. split; [| split].
  - intros r d Hr Hd. apply (plan_after_rows e L (table w) d r Hd Hr).
  - intros d Hd Hx. apply date_in_iff in Hx.
    rewrite (existing_none e L (table w) d Hd) in Hx. discriminate.
  - destruct (sync_run e w P) as (st & sm & E). rewrite E. cbn [snd].
    rewrite events_since_app, write_requests_run_events, run_requests_dates_form.
    rewrite (update_dates_latest e L), (insert_dates_latest e L). apply app_nil_r.
Qed.

Lemma sync_latest_answered_inserts_only_witness :
  preconditions demo_env = true
  /\ reachable demo_env GetLatest = true
  /\ write_requests
       (events_since demo_world (snd (sync_exchange_data_from_api demo_env demo_world)))
     = [Post [mk_row (ymd 2025 1 6) (Some 1300.5%float) None (Some 900%float) None;
              mk_row (ymd 2025 1 9) None (Some 1500%float) None None]].
Proof.
  assert (P : preconditions demo_env = true) by (vm_compute; reflexivity).
  assert (L : reachable demo_env GetLatest = true) by reflexivity.
  destruct (sync_latest_answered_inserts_only demo_env demo_world P L) as (_ & _ & H).
  refine (conj P (conj L _)). rewrite H. vm_compute. reflexivity.
Defined.





(* ===================================================================== *)
(** ** Further properties: the read endpoint *)
(* ===================================================================== *)

Lemma insert_desc_perm (r : rate_row) (l : list rate_row) :
  Permutation (insert_desc r l) (r :: l).
Proof.
  induction l as [| x t IH]; cbn [insert_desc]; [apply Permutation_refl |].
  destruct (row_date x <? row_date r); [apply Permutation_refl |].
  apply (perm_trans (perm_skip x IH)), perm_swap.
Qed.

Lemma order_date_desc_perm (l : list rate_row) : Permutation (order_date_desc l) l.
Proof.
  induction l as [| a l IH]; [apply Permutation_refl |].
  cbn [order_date_desc fold_right]. fold (order_date_desc l).
  apply (perm_trans (insert_desc_perm a (order_date_desc l))), perm_skip, IH.
Qed.

Lemma insert_desc_sorted (r : rate_row) (l : list rate_row) :
  StronglySorted date_desc l -> StronglySorted date_desc (insert_desc r l).
Proof.
  induction l as [| x t IH]; intros S; cbn [insert_desc].
  - constructor; constructor.
  - inversion S as [| ? ? St Ft]; subst.
    destruct (Z.ltb_spec (row_date x) (row_date r)) as [L | L].
    + constructor; [exact S |]. constructor; [unfold date_desc; lia |].
      rewrite Forall_forall in *. intros y Hy. specialize (Ft y Hy).
      unfold date_desc in *. lia.
    + constructor; [apply IH, St |].
      rewrite Forall_forall in *. intros y Hy.
      apply (Permutation_in _ (insert_desc_perm r t)) in Hy.
      destruct Hy as [<- | Hy]; [exact L | apply Ft, Hy].
Qed.

Lemma order_date_desc_sorted (l : list rate_row) :
  StronglySorted date_desc (order_date_desc l).
Proof.
  induction l as [| a l IH]; [constructor |].
  cbn [order_date_desc fold_right]. fold (order_date_desc l).
  apply insert_desc_sorted, IH.
Qed.

Lemma served_dates (e : env) (dates : list date) (t : list rate_row) :
  served e (GetDates dates true) t
  = if reachable e (GetDates dates true)
    then PgOk (order_date_desc (stored_in dates t))
    else PgFail.
Proof. reflexivity. Qed.

Lemma latest_stored_iff (e : env) (days : Z) (t : list rate_row) :
  1 <= days ->
  latest_stored e days t = true
  <-> reachable e (GetDates (get_business_days (now_kst e) days) true) = true
      /\ In (last_weekday (now_kst e)) (map row_date t).
Proof.
  intros Hd. unfold latest_stored. cbv zeta.
  destruct (get_business_days_head (now_kst e) days Hd) as [rest W].
  rewrite served_dates, W. cbn [hd]. set (latest := last_weekday (now_kst e)).
  destruct (reachable e _); [| split; [discriminate | intros [H _]; discriminate]].
  assert (E : latest_data_exists (PgOk (order_date_desc (stored_in (latest :: rest) t)))
                latest
              = date_in latest (map row_date (order_date_desc (stored_in (latest :: rest) t)))).
  { unfold latest_data_exists. destruct (order_date_desc _); reflexivity. }
  rewrite E, date_in_iff, !in_map_iff. split.
  - intros (r & Hr & Hin). split; [reflexivity |]. exists r. split; [exact Hr |].
    apply (Permutation_in _ (order_date_desc_perm _)) in Hin.
    apply filter_In in Hin. apply Hin.
  - intros (_ & r & Hr & Hin). exists r. split; [exact Hr |].
    apply (Permutation_in _ (Permutation_sym (order_date_desc_perm _))).
    apply filter_In. split; [exact Hin |]. rewrite Hr.
    apply date_in_iff. left. reflexivity.
Qed.

(** The response and the world after a web or chat request with a valid
    [days], by the three ways through step 3-1. *)
Lemma db2api_eq (round2 : float -> float) (e : env) (days_param : days_arg)
  (format_type : format_arg) (w : world) (days : Z) :
  format_type = FormatWeb \/ format_type = FormatChat ->
  parse_days days_param (default_days format_type) = Some days ->
  1 <= days <= 100 ->
  let q := GetDates (get_business_days (now_kst e) days) true in
  let t1 := table (snd (sync_exchange_data_from_api e w)) in
  db2api round2 e days_param format_type w
  = if latest_stored e days (table w) then
      (render round2 format_type days (served e q (table w)),
       mk_world (table w) (trace w ++ [Storage q]))
    else if preconditions e then
      (render round2 format_type days (served e q t1),
       mk_world t1 (trace w ++ Storage q :: run_events e (table w) ++ [Storage q]))
    else
      ((ErrorBody (SyncFailed (Some (step1_error e))), 500),
       mk_world (table w) (trace w ++ Storage q :: step1_events e)).
Proof.
  intros Hf Hp Hd q t1. unfold latest_stored. cbv zeta. fold q.
  set (window := get_business_days (now_kst e) days) in *.
  assert (R : (days <? 1) || (days >? 100) = false).
  { apply orb_false_iff. split; [apply Z.ltb_ge | rewrite Z.gtb_ltb; apply Z.ltb_ge]; lia. }
  destruct (get_business_days_head (now_kst e) days ltac:(lia)) as [rest W].
  assert (B : db2api round2 e days_param format_type w
              = (all_data_result <- postgrest_request e q ;;
                 healed <- self_heal e window all_data_result (hd 0 window) ;;
                 match healed with
                 | inl resp => ret resp
                 | inr final_result => ret (render round2 format_type days final_result)
                 end) w).
  { unfold db2api. destruct Hf as [-> | ->]; rewrite Hp, R; subst q window;
      rewrite W; reflexivity. }
  set (w0 := mk_world (table w) (trace w ++ [Storage q])).
  assert (B0 : db2api round2 e days_param format_type w
               = (healed <- self_heal e window (served e q (table w)) (hd 0 window) ;;
                  match healed with
                  | inl resp => ret resp
                  | inr final_result => ret (render round2 format_type days final_result)
                  end) w0).
  { rewrite B. unfold bind at 1. rewrite postgrest_request_run.
    rewrite effect_read by reflexivity. reflexivity. }
  clear B. unfold self_heal in B0.
  destruct (latest_data_exists (served e q (table w)) (hd 0 window)).
  { rewrite B0. reflexivity. }
  destruct (preconditions e) eqn:P.
  - destruct (sync_run e w0 P) as (st & sm & E).
    destruct (sync_run e w P) as (st' & sm' & E').
    subst t1. rewrite E'. cbn [snd table].
    rewrite B0. unfold bind at 1. unfold bind at 1. rewrite E.
    cbn [success]. unfold bind at 1. rewrite postgrest_request_run.
    rewrite effect_read by reflexivity. unfold ret. subst w0. cbn [table trace fst snd].
    rewrite <- !app_assoc. reflexivity.
  - rewrite B0. unfold bind at 1. unfold bind at 1.
    rewrite (sync_blocked_report e w0 P).
    cbn [success error]. unfold ret. subst w0. cbn [table trace].
    rewrite <- app_assoc. reflexivity.
Qed.

(** Every way through a web or chat request with a valid [days] ends in the
    rendering of a read of the window on the final table, or in the failure
    of the sync. *)
Lemma db2api_response (round2 : float -> float) (e : env) (days_param : days_arg)
  (format_type : format_arg) (w : world) (days : Z) :
  format_type = FormatWeb \/ format_type = FormatChat ->
  parse_days days_param (default_days format_type) = Some days ->
  1 <= days <= 100 ->
  let q := GetDates (get_business_days (now_kst e) days) true in
  let resp := fst (db2api round2 e days_param format_type w) in
  let w' := snd (db2api round2 e days_param format_type w) in
  if latest_stored e days (table w) || preconditions e
  then resp = render round2 format_type days (served e q (table w'))
  else resp = (ErrorBody (SyncFailed (Some (step1_error e))), 500).
Proof.
  intros Hf Hp Hd. cbv zeta. rewrite (db2api_eq round2 e days_param format_type w days Hf Hp Hd).
  destruct (latest_stored e days (table w)); [reflexivity |].
  destruct (preconditions e); reflexivity.
Qed.

Lemma render_cases (round2 : float -> float) (format_type : format_arg) (days : Z)
  (e : env) (dates : list date) (t : list rate_row) :
  format_type = FormatWeb \/ format_type = FormatChat ->
  let rows := order_date_desc (stored_in dates t) in
  render round2 format_type days (served e (GetDates dates true) t)
  = if reachable e (GetDates dates true) then
      match rows with
      | [] => (ErrorBody NoData, 404)
      | _ :: _ =>
          match format_type with
          | FormatChat => format_chat round2 rows days
          | _ => format_web rows days
          end
      end
    else (ErrorBody NoData, 404).
Proof.
  intros Hf rows. rewrite served_dates. fold rows.
  destruct (reachable e _); [| reflexivity].
  unfold render. destruct rows; reflexivity.
Qed.

Lemma chat_rates_names (round2 : float -> float) (today_data yesterday_data : rate_row)
  (currencies : list string) :
  forall rates,
    chat_rates round2 currencies today_data yesterday_data = Some rates ->
    map (fun x => fst (fst x)) rates = currencies.
Proof.
  induction currencies as [| c cs IH]; intros rates; cbn [chat_rates].
  - intros [= <-]. reflexivity.
  - rewrite chat_rate_cases.
    destruct (chat_rates round2 cs today_data yesterday_data) as [l |]; [| discriminate].
    intros [= <-]. cbn [map fst]. rewrite (IH l eq_refl). reflexivity.
Qed.

Lemma render_not_400 (round2 : float -> float) (format_type : format_arg) (days : Z)
  (all_data_result : pg_result) :
  snd (render round2 format_type days all_data_result) <> 400.
Proof.
  unfold render, format_chat, format_web.
  destruct all_data_result as [[| x [| y l]] |]; destruct format_type; cbn [snd map];
    try discriminate;
    destruct (chat_rates round2 CURRENCIES x y); discriminate.
Qed.

(** The ways through a request whose [format] is web or chat. *)
Lemma db2api_days (round2 : float -> float) (e : env) (days_param : days_arg)
  (format_type : format_arg) (w : world) :
  format_type = FormatWeb \/ format_type = FormatChat ->
  match parse_days days_param (default_days format_type) with
  | None => db2api round2 e days_param format_type w = ((ErrorBody Unhandled, 500), w)
  | Some days =>
      (days < 1 \/ 100 < days ->
       db2api round2 e days_param format_type w = ((ErrorBody DaysOutOfRange, 400), w))
      /\ (1 <= days <= 100 ->
          snd (fst (db2api round2 e days_param format_type w)) <> 400)
  end.
Proof.
  intros Hf. destruct (parse_days days_param (default_days format_type)) as [days |] eqn:Hp.
  - split.
    + intros Hd.
      assert (R : (days <? 1) || (days >? 100) = true).
      { apply orb_true_iff. rewrite Z.gtb_ltb, !Z.ltb_lt. exact Hd. }
      unfold db2api. destruct Hf as [-> | ->]; rewrite Hp, R; reflexivity.
    + intros Hd. rewrite (db2api_eq round2 e days_param format_type w days Hf Hp Hd).
      destruct (latest_stored e days (table w)); [apply render_not_400 |].
      destruct (preconditions e); [apply render_not_400 | discriminate].
  - unfold db2api. destruct Hf as [-> | ->]; rewrite Hp; reflexivity.
Qed.

(** X10.  The read endpoint answers 400 exactly when [format] is absent or
    neither web nor chat, or when [days] converts to a number outside 1..100;
    [format] is checked first, whatever [days] holds.  A request answered 400
    sends nothing to the storage or the rate source and leaves the world as
    it was. *)
Theorem db2api_validation (round2 : float -> float) (e : env) (days_param : days_arg)
  (format_type : format_arg) (w : world) :
  let resp := fst (db2api round2 e days_param format_type w) in
  let w' := snd (db2api round2 e days_param format_type w) in
  (snd resp = 400
   <-> format_type = FormatAbsent \/ format_type = FormatOther
       \/ exists days, parse_days days_param (default_days format_type) = Some days
                       /\ (days < 1 \/ 100 < days))
  /\ (snd resp = 400 -> w' = w)
  /\ (format_type = FormatAbsent -> resp = (ErrorBody FormatRequired, 400))
  /\ (format_type = FormatOther -> resp = (ErrorBody FormatInvalid, 400)).
Proof.
  cbv zeta.
  assert (A : format_type = FormatAbsent ->
              db2api round2 e days_param format_type w = ((ErrorBody FormatRequired, 400), w))
    by (intros ->; reflexivity).
  assert (O : format_type = FormatOther ->
              db2api round2 e days_param format_type w = ((ErrorBody FormatInvalid, 400), w))
    by (intros ->; reflexivity).
  assert (V : format_type = FormatWeb \/ format_type = FormatChat ->
              (snd (fst (db2api round2 e days_param format_type w)) = 400
               <-> exists days,
                     parse_days days_param (default_days format_type) = Some days
                     /\ (days < 1 \/ 100 < days))
              /\ (snd (fst (db2api round2 e days_param format_type w)) = 400 ->
                  snd (db2api round2 e days_param format_type w) = w)).
  { intros Hf. pose proof (db2api_days round2 e days_param format_type w Hf) as D.
    destruct (parse_days days_param (default_days format_type)) as [days |].
    - destruct D as [D1 D2].
      destruct (Z_le_dec 1 days) as [L1 | L1]; [destruct (Z_le_dec days 100) as [L2 | L2] |].
      + specialize (D2 (conj L1 L2)). split; [split |]; [| | intros H; contradiction].
        * intros H. contradiction.
        * intros (n & [= <-] & Hn). lia.
      + rewrite D1 by lia. split; [split |]; [| reflexivity | reflexivity].
        intros _. exists days. split; [reflexivity | lia].
      + rewrite D1 by lia. split; [split |]; [| reflexivity | reflexivity].
        intros _. exists days. split; [reflexivity | lia].
    - rewrite D. split; [split |]; [discriminate | | discriminate].
      intros (n & Hn & _). discriminate. }
  split; [| split; [| split; [intros H; rewrite (A H); reflexivity
                             | intros H; rewrite (O H); reflexivity]]].
  - destruct format_type.
    + rewrite (A eq_refl). split; [intros _; left; reflexivity | reflexivity].
    + destruct (V (or_introl eq_refl)) as [[V1 V2] _]. split.
      * intros H. right. right. apply V1, H.
      * intros [H | [H | H]]; [discriminate | discriminate | apply V2, H].
    + destruct (V (or_intror eq_refl)) as [[V1 V2] _]. split.
      * intros H. right. right. apply V1, H.
      * intros [H | [H | H]]; [discriminate | discriminate | apply V2, H].
    + rewrite (O eq_refl). split; [intros _; right; left; reflexivity | reflexivity].
  - destruct format_type.
    + rewrite (A eq_refl). reflexivity.
    + apply (V (or_introl eq_refl)).
    + apply (V (or_intror eq_refl)).
    + rewrite (O eq_refl). reflexivity.
Qed.

(** X11.  A web or chat request with a valid [days] whose first read is
    answered and finds the latest business day in the table is a pure read:
    the one storage request is the read of the window, no sync runs, the
    rate source is not called, the table is what it was, and the response is
    rendered from the stored rows of the window, the latest first. *)
Theorem db2api_latest_stored (round2 : float -> float) (e : env) (days_param : days_arg)
  (format_type : format_arg) (w : world) (days : Z) :
  format_type = FormatWeb \/ format_type = FormatChat ->
  parse_days days_param (default_days format_type) = Some days ->
  1 <= days <= 100 ->
  let window := get_business_days (now_kst e) days in
  reachable e (GetDates window true) = true ->
  In (last_weekday (now_kst e)) (map row_date (table w)) ->
  let resp := fst (db2api round2 e days_param format_type w) in
  let w' := snd (db2api round2 e days_param format_type w) in
  table w' = table w
  /\ events_since w w' = [Storage (GetDates window true)]
  /\ resp = render round2 format_type days
              (PgOk (order_date_desc (stored_in window (table w))))
  /\ (snd resp = 200 \/ resp = (ErrorBody NeedTwoDays, 404)).
Proof.
  intros Hf Hp Hd window Hr Hin. cbv zeta.
  assert (L : latest_stored e days (table w) = true).
  { apply latest_stored_iff; [lia |]. split; [exact Hr | exact Hin]. }
  rewrite (db2api_eq round2 e days_param format_type w days Hf Hp Hd), L.
  fold window. cbn [fst snd table]. rewrite events_since_app, served_dates, Hr.
  split; [reflexivity |]. split; [reflexivity |]. split; [reflexivity |].
  assert (N : order_date_desc (stored_in window (table w)) <> []).
  { intros N. apply in_map_iff in Hin. destruct Hin as (r & Er & Hin).
    assert (X : In r (order_date_desc (stored_in window (table w)))).
    { apply (Permutation_in _ (Permutation_sym (order_date_desc_perm _))).
      apply filter_In. split; [exact Hin |]. rewrite Er. apply date_in_iff.
      subst window. destruct (get_business_days_head (now_kst e) days ltac:(lia)) as [rest W].
      rewrite W. left. reflexivity. }
    rewrite N in X. contradiction X. }
  unfold render. destruct (order_date_desc (stored_in window (table w))) as [| x l];
    [congruence |].
  destruct Hf as [-> | ->].
  - left. reflexivity.
  - unfold format_chat. destruct l as [| y l]; [right; reflexivity |].
    destruct (chat_rates_entries round2 x y CURRENCIES) as (rates & E & _).
    rewrite E. left. reflexivity.
Qed.

Lemma db2api_latest_stored_witness :
  fst (db2api (fun x => x) demo_env_quiet DaysAbsent FormatWeb demo_world_monday)
  = render (fun x => x) FormatWeb 14
      (PgOk (order_date_desc
               (stored_in (get_business_days (now_kst demo_env_quiet) 14)
                  (table demo_world_monday))))
  /\ table (snd (db2api (fun x => x) demo_env_quiet DaysAbsent FormatWeb demo_world_monday))
     = table demo_world_monday.
Proof.
  assert (R : reachable demo_env_quiet
                (GetDates (get_business_days (now_kst demo_env_quiet) 14) true) = true)
    by reflexivity.
  assert (I : In (last_weekday (now_kst demo_env_quiet))
                (map row_date (table demo_world_monday))).
  { refine (proj1 (date_in_iff _ _) _). vm_compute. reflexivity. }
  destruct (db2api_latest_stored (fun x => x) demo_env_quiet DaysAbsent FormatWeb
              demo_world_monday 14 (or_introl eq_refl) eq_refl ltac:(lia) R I)
    as (T & _ & H & _).
  exact (conj H T).
Defined.

(** X12.  Self-healing.  A web or chat request with a valid [days] on a
    table that does not hold the latest business day runs the sync exactly
    once, after its first read of the window.  When the sync passes step 1
    the request reads the window a second time and renders that read,
    whatever it holds; when the sync fails step 1 the response is the
    failure of the sync with status 500 and there is no second read.  In
    both cases the table after the request is the table after that one sync
    run. *)
Theorem db2api_self_heal (round2 : float -> float) (e : env) (days_param : days_arg)
  (format_type : format_arg) (w : world) (days : Z) :
  format_type = FormatWeb \/ format_type = FormatChat ->
  parse_days days_param (default_days format_type) = Some days ->
  1 <= days <= 100 ->
  let q := GetDates (get_business_days (now_kst e) days) true in
  ~ In (last_weekday (now_kst e)) (map row_date (table w)) ->
  let resp := fst (db2api round2 e days_param format_type w) in
  let w' := snd (db2api round2 e days_param format_type w) in
  let synced := snd (sync_exchange_data_from_api e w) in
  table w' = table synced
  /\ events_since w w'
     = Storage q :: events_since w synced ++ (if preconditions e then [Storage q] else [])
  /\ resp = if preconditions e
            then render round2 format_type days (served e q (table synced))
            else (ErrorBody (SyncFailed (Some (step1_error e))), 500).
Proof.
  intros Hf Hp Hd q Hn. cbv zeta.
  assert (L : latest_stored e days (table w) = false).
  { destruct (latest_stored e days (table w)) eqn:L; [| reflexivity].
    apply latest_stored_iff in L; [| lia]. destruct L as [_ L2]. contradiction. }
  rewrite (db2api_eq round2 e days_param format_type w days Hf Hp Hd), L. fold q.
  destruct (preconditions e) eqn:P.
  - destruct (sync_run e w P) as (st & sm & E). rewrite E.
    cbn [fst snd table]. rewrite !events_since_app. repeat split.
  - rewrite (sync_blocked_report e w P).
    cbn [fst snd table]. rewrite !events_since_app, app_nil_r. repeat split.
Qed.

Lemma db2api_self_heal_witness :
  ~ In (last_weekday (now_kst demo_env)) (map row_date (table demo_world))
  /\ fst (db2api (fun x => x) demo_env DaysAbsent FormatWeb demo_world)
     = render (fun x => x) FormatWeb 14
         (served demo_env (GetDates (get_business_days (now_kst demo_env) 14) true)
            (table (snd (sync_exchange_data_from_api demo_env demo_world)))).
Proof.
  assert (N : ~ In (last_weekday (now_kst demo_env)) (map row_date (table demo_world))).
  { intros H. apply date_in_iff in H. vm_compute in H. discriminate. }
  destruct (db2api_self_heal (fun x => x) demo_env DaysAbsent FormatWeb demo_world 14
              (or_introl eq_refl) eq_refl ltac:(lia) N) as (_ & _ & H).
  exact (conj N H).
Defined.

Lemma sorted_head_max (rows : list rate_row) :
  StronglySorted date_desc rows ->
  forall r, In r rows -> row_date r <= hd 0 (map row_date rows).
Proof.
  intros S r Hr. destruct S as [| x l S F]; [contradiction |].
  cbn [map hd]. destruct Hr as [<- | Hr]; [lia |].
  rewrite Forall_forall in F. apply (F r Hr).
Qed.

(** X13.  A web request with a valid [days] is answered 200 exactly when the
    sync (if one ran) did not fail step 1, the final read is answered and
    the table then holds a row of the window.  The data is then these rows,
    each one once, the latest date first, with null rates as 0.0;
    [total_days] is their number, [requested_days] is [days] and
    [latest_date] is the greatest of their dates. *)
Theorem db2api_web (round2 : float -> float) (e : env) (days_param : days_arg)
  (w : world) (days : Z) :
  parse_days days_param 14 = Some days ->
  1 <= days <= 100 ->
  let window := get_business_days (now_kst e) days in
  let resp := fst (db2api round2 e days_param FormatWeb w) in
  let w' := snd (db2api round2 e days_param FormatWeb w) in
  let stored := stored_in window (table w') in
  (snd resp = 200
   <-> latest_stored e days (table w) || preconditions e = true
       /\ reachable e (GetDates window true) = true
       /\ stored <> [])
  /\ (snd resp = 200 ->
      exists rows,
        Permutation rows stored
        /\ StronglySorted date_desc rows
        /\ fst resp = WebBody (map web_of_row rows) (length stored) days
                        (hd 0 (map row_date rows))
        /\ forall r, In r stored -> row_date r <= hd 0 (map row_date rows)).
Proof.
  intros Hp Hd window resp w' stored.
  pose proof (db2api_response round2 e days_param FormatWeb w days
                (or_introl eq_refl) Hp Hd) as R.
  cbv zeta in R. fold window resp w' in R.
  pose proof (order_date_desc_perm stored) as Pm.
  pose proof (order_date_desc_sorted stored) as St.
  assert (G : latest_stored e days (table w) || preconditions e = true ->
              reachable e (GetDates window true) = true ->
              stored <> [] ->
              resp = (WebBody (map web_of_row (order_date_desc stored)) (length stored) days
                        (hd 0 (map row_date (order_date_desc stored))), 200)).
  { intros H1 H2 H3. rewrite H1 in R. rewrite R.
    rewrite (render_cases round2 FormatWeb days e window (table w') (or_introl eq_refl)), H2.
    fold stored. unfold format_web. rewrite length_map, order_date_desc_length.
    destruct (order_date_desc stored) as [| x l] eqn:E; [| reflexivity].
    apply Permutation_nil in Pm. contradiction. }
  assert (C : snd resp = 200 ->
              latest_stored e days (table w) || preconditions e = true
              /\ reachable e (GetDates window true) = true
              /\ stored <> []).
  { intros H. destruct (latest_stored e days (table w) || preconditions e);
      [| rewrite R in H; discriminate].
    rewrite R in H.
    rewrite (render_cases round2 FormatWeb days e window (table w') (or_introl eq_refl)) in H.
    fold stored in H.
    destruct (reachable e (GetDates window true)); [| discriminate].
    split; [reflexivity |]. split; [reflexivity |].
    intros N. rewrite N in H. discriminate. }
  split; [split; [exact C |] |].
  - intros (H1 & H2 & H3). rewrite (G H1 H2 H3). reflexivity.
  - intros H. destruct (C H) as (H1 & H2 & H3).
    exists (order_date_desc stored). split; [exact Pm |]. split; [exact St |].
    split; [rewrite (G H1 H2 H3); reflexivity |].
    intros r Hr. apply (sorted_head_max _ St).
    apply (Permutation_in _ (Permutation_sym Pm)), Hr.
Qed.

Lemma db2api_web_witness :
  parse_days (DaysInt 4) 14 = Some 4
  /\ 1 <= 4 <= 100
  /\ fst (db2api (fun x => x) demo_env (DaysInt 4) FormatWeb demo_world)
     = (WebBody [mk_web (ymd 2025 1 9) 0%float 1500%float 0%float 0%float;
                 mk_web (ymd 2025 1 6) 1300.5%float 0%float 900%float 0%float] 2 4
                 (ymd 2025 1 9), 200).
Proof.
  assert (P : parse_days (DaysInt 4) 14 = Some 4) by reflexivity.
  assert (D : 1 <= 4 <= 100) by lia.
  assert (V : fst (db2api (fun x => x) demo_env (DaysInt 4) FormatWeb demo_world)
              = (WebBody [mk_web (ymd 2025 1 9) 0%float 1500%float 0%float 0%float;
                          mk_web (ymd 2025 1 6) 1300.5%float 0%float 900%float 0%float] 2 4
                 (ymd 2025 1 9), 200))
    by (vm_compute; reflexivity).
  destruct (db2api_web (fun x => x) demo_env (DaysInt 4) demo_world 4 P D) as [_ H].
  assert (S : snd (fst (db2api (fun x => x) demo_env (DaysInt 4) FormatWeb demo_world)) = 200)
    by (rewrite V; reflexivity).
  destruct (H S) as (rows & _).
  exact (conj P (conj D V)).
Defined.

(** X14.  A chat request with a valid [days] is answered 200 exactly when
    the sync (if one ran) did not fail step 1, the final read is answered
    and the table then holds at least two rows of the window.  The response
    then compares the two rows of the window with the latest dates, [today]
    not before [yesterday] and no other row of the window after
    [yesterday], and lists one entry for each currency of [CURRENCIES], in
    that order. *)
Theorem db2api_chat (round2 : float -> float) (e : env) (days_param : days_arg)
  (w : world) (days : Z) :
  parse_days days_param 2 = Some days ->
  1 <= days <= 100 ->
  let window := get_business_days (now_kst e) days in
  let resp := fst (db2api round2 e days_param FormatChat w) in
  let w' := snd (db2api round2 e days_param FormatChat w) in
  let stored := stored_in window (table w') in
  (snd resp = 200
   <-> latest_stored e days (table w) || preconditions e = true
       /\ reachable e (GetDates window true) = true
       /\ (2 <= length stored)%nat)
  /\ (snd resp = 200 ->
      exists today_data yesterday_data rest formatted_rates,
        Permutation (today_data :: yesterday_data :: rest) stored
        /\ row_date yesterday_data <= row_date today_data
        /\ (forall r, In r rest -> row_date r <= row_date yesterday_data)
        /\ chat_rates round2 CURRENCIES today_data yesterday_data = Some formatted_rates
        /\ map (fun x => fst (fst x)) formatted_rates = CURRENCIES
        /\ fst resp = ChatBody formatted_rates (row_date today_data)
                        (row_date yesterday_data) days).
Proof.
  intros Hp Hd window resp w' stored.
  pose proof (db2api_response round2 e days_param FormatChat w days
                (or_intror eq_refl) Hp Hd) as R.
  cbv zeta in R. fold window resp w' in R.
  pose proof (order_date_desc_perm stored) as Pm.
  pose proof (order_date_desc_sorted stored) as St.
  pose proof (order_date_desc_length stored) as Ln.
  assert (C : snd resp = 200 ->
              latest_stored e days (table w) || preconditions e = true
              /\ reachable e (GetDates window true) = true
              /\ (2 <= length stored)%nat).
  { intros H. destruct (latest_stored e days (table w) || preconditions e);
      [| rewrite R in H; discriminate].
    rewrite R in H.
    rewrite (render_cases round2 FormatChat days e window (table w') (or_intror eq_refl)) in H.
    fold stored in H.
    destruct (reachable e (GetDates window true)); [| discriminate].
    split; [reflexivity |]. split; [reflexivity |].
    destruct (order_date_desc stored) as [| x [| y l]]; try discriminate.
    rewrite <- Ln. cbn [length]. lia. }
  assert (G : latest_stored e days (table w) || preconditions e = true ->
              reachable e (GetDates window true) = true ->
              (2 <= length stored)%nat ->
              exists x y l rates,
                order_date_desc stored = x :: y :: l
                /\ chat_rates round2 CURRENCIES x y = Some rates
                /\ resp = (ChatBody rates (row_date x) (row_date y) days, 200)).
  { intros H1 H2 H3. rewrite H1 in R. rewrite R.
    rewrite (render_cases round2 FormatChat days e window (table w') (or_intror eq_refl)), H2.
    fold stored. rewrite <- Ln in H3.
    destruct (order_date_desc stored) as [| x [| y l]]; cbn [length] in H3; try lia.
    destruct (chat_rates_entries round2 x y CURRENCIES) as (rates & E & _).
    exists x, y, l, rates. split; [reflexivity |]. split; [exact E |].
    unfold format_chat. rewrite E. reflexivity. }
  split; [split; [exact C |] |].
  - intros (H1 & H2 & H3). destruct (G H1 H2 H3) as (x & y & l & rates & _ & _ & E).
    rewrite E. reflexivity.
  - intros H. destruct (C H) as (H1 & H2 & H3).
    destruct (G H1 H2 H3) as (x & y & l & rates & Eo & Er & E).
    rewrite Eo in Pm, St.
    inversion St as [| ? ? St' Fx]; subst. inversion St' as [| ? ? _ Fy]; subst.
    rewrite Forall_forall in Fx, Fy.
    exists x, y, l, rates. split; [exact Pm |].
    split; [apply (Fx y); left; reflexivity |].
    split; [intros r Hr; apply (Fy r Hr) |].
    split; [exact Er |].
    split; [apply (chat_rates_names round2 x y CURRENCIES rates Er) |].
    rewrite E. reflexivity.
Qed.

Lemma db2api_chat_witness :
  parse_days DaysAbsent 2 = Some 2
  /\ 1 <= 2 <= 100
  /\ snd (fst (db2api (fun x => x) demo_env_quiet DaysAbsent FormatChat demo_world_monday))
     = 200.
Proof.
  assert (P : parse_days DaysAbsent 2 = Some 2) by reflexivity.
  assert (D : 1 <= 2 <= 100) by lia.
  assert (L : latest_stored demo_env_quiet 2 (table demo_world_monday)
              || preconditions demo_env_quiet = true) by (vm_compute; reflexivity).
  assert (R : reachable demo_env_quiet
                (GetDates (get_business_days (now_kst demo_env_quiet) 2) true) = true)
    by reflexivity.
  assert (S : (2 <= length (stored_in (get_business_days (now_kst demo_env_quiet) 2)
                              (table (snd (db2api (fun x => x) demo_env_quiet DaysAbsent
                                             FormatChat demo_world_monday)))))%nat).
  { apply Nat.leb_le. vm_compute. reflexivity. }
  destruct (db2api_chat (fun x => x) demo_env_quiet DaysAbsent demo_world_monday 2 P D)
    as [[_ H] _].
  exact (conj P (conj D (H (conj L (conj R S))))).
Defined.

(* ===================================================================== *)
(** ** Further properties: the health endpoint *)
(* ===================================================================== *)

Lemma health_check_eq (e : env) (count_answered : bool) (t : list rate_row) :
  health_check e count_answered t
  = if reachable e GetHealth then
      (Healthy match served e GetLatest t with
               | PgOk (r :: _) => LatestDate (row_date r)
               | _ => NoDataInfo
               end
               (if count_answered then length t else 0%nat), 200)
    else (Unhealthy, 500).
Proof.
  unfold health_check, served at 1, answered at 1. cbn [accepts andb].
  rewrite length_map.
  destruct (reachable e GetHealth); reflexivity.
Qed.

(** X15.  [/health] answers 500 exactly when its first request is not
    answered, and 200 otherwise.  A healthy answer reports the number of
    rows of the table (0 when the count query is not answered) and the
    greatest date of the table; it reports 'no data' exactly when the table
    is empty or the latest-date query is not answered. *)
Theorem health_check_report (e : env) (count_answered : bool) (t : list rate_row) :
  let body := fst (health_check e count_answered t) in
  let status := snd (health_check e count_answered t) in
  (status = 500 <-> reachable e GetHealth = false)
  /\ (status = 200 <-> reachable e GetHealth = true)
  /\ (status = 500 -> body = Unhealthy)
  /\ (status = 200 ->
      exists latest_data,
        body = Healthy latest_data (if count_answered then length t else 0%nat)
        /\ (latest_data = NoDataInfo <-> t = [] \/ reachable e GetLatest = false)
        /\ forall d, latest_data = LatestDate d ->
             In d (map row_date t) /\ forall r, In r t -> row_date r <= d).
Proof.
  cbv zeta. rewrite health_check_eq.
  destruct (reachable e GetHealth).
  2: { cbn [fst snd]. repeat split; try discriminate; reflexivity. }
  cbn [fst snd]. split; [split; discriminate |]. split; [split; reflexivity |].
  split; [discriminate |]. intros _. eexists. split; [reflexivity |].
  unfold served, answered. cbn [accepts andb]. destruct (reachable e GetLatest).
  2: { split; [split; [right |]; reflexivity | discriminate]. }
  cbn [answer fst]. pose proof (order_date_desc_head t) as H.
  destruct (order_date_desc t) as [| h l].
  - subst t. split; [split; [left |]; reflexivity | discriminate].
  - destruct H as [Hin Hmax]. cbn [firstn map select_date row_date]. split.
    + split; [discriminate |]. intros [-> | H]; [contradiction Hin | discriminate].
    + intros d [= <-]. split; [apply in_map, Hin | exact Hmax].
Qed.

(** X16.  [/health] and the sync test the storage with the same request: in
    one environment with the exchange configuration set, [/health] answers
    200 exactly when a sync run reports success, and 500 exactly when the
    run fails at step 1 with the storage error. *)
Theorem health_check_sync (e : env) (count_answered : bool) (w : world) :
  missing_vars e = [] ->
  let status := snd (health_check e count_answered (table w)) in
  let r := fst (sync_exchange_data_from_api e w) in
  (status = 200 <-> success r = true)
  /\ (status = 500 <-> error r = Some StorageUnreachable).
Proof.
  intros Hm. cbv zeta.
  assert (P : preconditions e = reachable e GetHealth)
    by (unfold preconditions; rewrite Hm; reflexivity).
  rewrite health_check_eq. destruct (reachable e GetHealth).
  - destruct (sync_run e w P) as (st & sm & E). rewrite E. cbn [fst snd success error].
    split; split; try reflexivity; discriminate.
  - rewrite (sync_blocked_report e w P). unfold step1_error. rewrite Hm.
    cbn [fst snd success error]. split; split; try reflexivity; discriminate.
Qed.

Lemma health_check_sync_witness :
  missing_vars demo_env = []
  /\ snd (health_check demo_env true (table demo_world)) = 200
  /\ success (fst (sync_exchange_data_from_api demo_env demo_world)) = true.
Proof.
  assert (M : missing_vars demo_env = []) by reflexivity.
  assert (S : snd (health_check demo_env true (table demo_world)) = 200)
    by (vm_compute; reflexivity).
  destruct (health_check_sync demo_env true demo_world M) as [[H _] _].
  exact (conj M (conj S (H S))).
Defined.

(* ===================================================================== *)
(** ** Further properties: the configuration *)
(* ===================================================================== *)

Lemma dict_lookup_store {V : Type} (k k' : string) (v : V) (d : dict V) :
  dict_lookup k (dict_store k' v d)
  = if String.eqb k' k then Some v else dict_lookup k d.
Proof.
  induction d as [| [k0 v0] rest IH]; cbn [dict_store dict_lookup]; [reflexivity |].
  destruct (String.eqb k0 k') eqn:E0; cbn [dict_lookup].
  - apply String.eqb_eq in E0. subst k0. destruct (String.eqb k' k); reflexivity.
  - rewrite IH. destruct (String.eqb k0 k) eqn:E1; [| reflexivity].
    apply String.eqb_eq in E1. subst k0. rewrite String.eqb_sym, E0. reflexivity.
Qed.

Lemma dict_keys_store {V : Type} (k : string) (v : V) (d : dict V) :
  map fst (dict_store k v d)
  = match dict_lookup k d with
    | Some _ => map fst d
    | None => map fst d ++ [k]
    end.
Proof.
  induction d as [| [k0 v0] rest IH]; cbn [dict_store dict_lookup]; [reflexivity |].
  destruct (String.eqb k0 k) eqn:E0; cbn [map fst].
  - apply String.eqb_eq in E0. subst k0. reflexivity.
  - rewrite IH. destruct (dict_lookup k rest); reflexivity.
Qed.

Lemma find_app_last {A : Type} (f : A -> bool) (l : list A) (x : A) :
  find f (l ++ [x])
  = match find f l with
    | Some y => Some y
    | None => if f x then Some x else None
    end.
Proof.
  induction l as [| a l IH]; cbn [app find]; [reflexivity |].
  destruct (f a); [reflexivity | exact IH].
Qed.

Lemma find_same {A : Type} (f g : A -> bool) (l : list A) :
  (forall x, f x = g x) -> find f l = find g l.
Proof.
  intros H. induction l as [| a l IH]; [reflexivity |].
  cbn [find]. rewrite H, IH. reflexivity.
Qed.

(** A dict filled by a loop holds, under each key, the value of the last
    row stored under it. *)
Lemma lookup_fold_store {V : Type} (cond : config_row -> bool)
  (key_of : config_row -> string) (value_of : config_row -> V) (k : string)
  (rows : list config_row) :
  forall d0,
    dict_lookup k (fold_left (fun d item =>
                                if cond item then dict_store (key_of item) (value_of item) d
                                else d) rows d0)
    = match find (fun item => cond item && String.eqb (key_of item) k) (rev rows) with
      | Some item => Some (value_of item)
      | None => dict_lookup k d0
      end.
Proof.
  induction rows as [| a rows IH]; intros d0; cbn [fold_left rev find]; [reflexivity |].
  rewrite IH, find_app_last.
  destruct (find _ (rev rows)); [reflexivity |].
  destruct (cond a); cbn [andb]; [| reflexivity].
  rewrite dict_lookup_store. destruct (String.eqb (key_of a) k); reflexivity.
Qed.

Lemma keys_fold_postgrest (rows : list config_row) :
  forall d, map fst d = ["host"; "port"]%string ->
            map fst (fold_left store_postgrest rows d) = ["host"; "port"]%string.
Proof.
  induction rows as [| a rows IH]; intros d Hd; [exact Hd |].
  cbn [fold_left]. apply IH. unfold store_postgrest.
  destruct (String.eqb (item_key a) "host") eqn:E1; cbn [orb].
  - apply String.eqb_eq in E1. rewrite E1, dict_keys_store.
    destruct d as [| [k1 v1] [| [k2 v2] [| x l]]]; try discriminate.
    cbn in Hd. injection Hd as -> ->. reflexivity.
  - destruct (String.eqb (item_key a) "port") eqn:E2; [| exact Hd].
    apply String.eqb_eq in E2. rewrite E2, dict_keys_store.
    destruct d as [| [k1 v1] [| [k2 v2] [| x l]]]; try discriminate.
    cbn in Hd. injection Hd as -> ->. reflexivity.
Qed.

Section StartupProperties.

Variable lower : string -> string.
Variable int : string -> option Z.
Variable get : string -> string -> http_reply.

Lemma convert_key (item : config_row) (key : string) (v : setting) :
  convert lower int item = Some (key, v) -> key = replace_dash (item_key item).
Proof.
  unfold convert.
  destruct (String.eqb _ "enabled"); [intros [= <- _]; reflexivity |].
  destruct (_ || _); [| intros [= <- _]; reflexivity].
  destruct (int (item_value item)); [intros [= <- _]; reflexivity | discriminate].
Qed.

Lemma load_section_lookup (rows : list config_row) :
  forall d d',
    load_section lower int rows d = Some d' ->
    (forall item, In item rows -> convert lower int item <> None)
    /\ forall k,
         dict_lookup k d'
         = match last_row (fun item => replace_dash (item_key item)) k rows with
           | Some item => option_map snd (convert lower int item)
           | None => dict_lookup k d
           end.
Proof.
  unfold last_row.
  induction rows as [| a rows IH]; intros d d'; cbn [load_section].
  - intros [= <-]. split; [intros item [] | reflexivity].
  - destruct (convert lower int a) as [[key v] |] eqn:C; [| discriminate].
    intros H. destruct (IH _ _ H) as [I1 I2]. split.
    + intros item [<- | Hin]; [congruence | apply I1, Hin].
    + intros k. rewrite I2. cbn [rev]. rewrite find_app_last.
      destruct (find _ (rev rows)); [reflexivity |].
      rewrite dict_lookup_store, (convert_key a key v C).
      destruct (String.eqb (replace_dash (item_key a)) k); [| reflexivity].
      rewrite C. reflexivity.
Qed.

Lemma load_sections_lookup (sections : list string) :
  NoDup sections ->
  forall exchange_config exchange_config',
    load_sections lower int get sections exchange_config = Some exchange_config' ->
    (forall s, ~ In s sections ->
               dict_lookup s exchange_config' = dict_lookup s exchange_config)
    /\ forall s, In s sections ->
         exists status_code rows,
           get "exchange"%string s = HttpStatus status_code rows
           /\ if status_code =? 200
              then exists d, load_section lower int rows [] = Some d
                             /\ dict_lookup s exchange_config' = Some d
              else dict_lookup s exchange_config' = dict_lookup s exchange_config.
Proof.
  induction 1 as [| section rest Hn Hd IH]; intros ec ec'; cbn [load_sections].
  - intros [= <-]. split; [reflexivity | intros s []].
  - destruct (get "exchange"%string section) as [| code rows] eqn:G; [discriminate |].
    destruct (code =? 200) eqn:Ec.
    + destruct (load_section lower int rows []) as [d |] eqn:L; [| discriminate].
      intros H. destruct (IH _ _ H) as [I1 I2]. split.
      * intros s Hs. rewrite I1 by (intros X; apply Hs; right; exact X).
        rewrite dict_lookup_store.
        destruct (String.eqb section s) eqn:E; [| reflexivity].
        apply String.eqb_eq in E. subst s. exfalso. apply Hs. left. reflexivity.
      * intros s [<- | Hs].
        -- exists code, rows. split; [exact G |]. rewrite Ec. exists d.
           split; [exact L |]. rewrite (I1 section Hn), dict_lookup_store, String.eqb_refl.
           reflexivity.
        -- destruct (I2 s Hs) as (code' & rows' & G' & X). exists code', rows'.
           split; [exact G' |]. destruct (code' =? 200); [exact X |].
           rewrite X, dict_lookup_store.
           destruct (String.eqb section s) eqn:E; [| reflexivity].
           apply String.eqb_eq in E. subst s. contradiction.
    + intros H. destruct (IH _ _ H) as [I1 I2]. split.
      * intros s Hs. apply I1. intros X. apply Hs. right. exact X.
      * intros s [<- | Hs].
        -- exists code, rows. split; [exact G |]. rewrite Ec. apply (I1 section Hn).
        -- apply (I2 s Hs).
Qed.

(** The parts of a configuration that loads. *)
Lemma load_config_parts (c : config) :
  load_config_from_db lower int get = Some c ->
  exists rows exchange_config status_code postgrest_data,
    get "services"%string "exchange-api"%string = HttpStatus 200 rows
    /\ rows <> []
    /\ forallb (fun key => match dict_lookup key (fold_left store_item rows []) with
                           | Some _ => true
                           | None => false
                           end) required_service_keys = true
    /\ load_sections lower int get exchange_sections [] = Some exchange_config
    /\ get "services"%string "postgrest-api"%string = HttpStatus status_code postgrest_data
    /\ c = mk_config (fold_left store_item rows [])
             (if status_code =? 200
              then fold_left store_postgrest postgrest_data postgrest_defaults
              else postgrest_defaults)
             exchange_config.
Proof.
  unfold load_config_from_db.
  destruct (get "services"%string "exchange-api"%string) as [| code rows]; [discriminate |].
  destruct (Z.eqb_spec code 200) as [-> |]; [| discriminate].
  destruct rows as [| r rows]; [discriminate |].
  destruct (forallb _ required_service_keys) eqn:F; [| discriminate].
  destruct (load_sections lower int get exchange_sections []) as [ec |]; [| discriminate].
  destruct (get "services"%string "postgrest-api"%string) as [| code' pdata]; [discriminate |].
  intros [= <-]. exists (r :: rows), ec, code', pdata.
  repeat split; [discriminate | exact F].
Qed.

(** X17.  Fail fast on the service settings.  A configuration loads only
    when the query of the service settings is answered with status 200 and
    at least one row, and the rows hold the keys 'host', 'port' and
    'protocol'; the loaded service settings hold, under each key, the value
    of the last row with that key. *)
Theorem load_config_service (c : config) :
  load_config_from_db lower int get = Some c ->
  exists rows,
    get "services"%string "exchange-api"%string = HttpStatus 200 rows
    /\ rows <> []
    /\ (forall key, dict_lookup key (service_config c)
                    = option_map item_value (last_row item_key key rows))
    /\ forall key, In key required_service_keys ->
         exists item, In item rows /\ item_key item = key
                      /\ dict_lookup key (service_config c) = Some (item_value item).
Proof.
  intros H. destruct (load_config_parts c H) as (rows & ec & code & pdata & G & N & F & _ & _ & ->).
  cbn [service_config].
  assert (L : forall key, dict_lookup key (fold_left store_item rows [])
                          = option_map item_value (last_row item_key key rows)).
  { intros key.
    pose proof (lookup_fold_store (fun _ => true) item_key item_value key rows []) as X.
    cbn beta iota in X. change (fold_left _ rows []) with (fold_left store_item rows []) in X.
    rewrite X. unfold last_row. cbn [andb dict_lookup].
    destruct (find _ (rev rows)); reflexivity. }
  exists rows. split; [exact G |]. split; [exact N |]. split; [exact L |].
  intros key Hk. rewrite forallb_forall in F. specialize (F key Hk).
  rewrite L in *. unfold last_row in *.
  destruct (find _ (rev rows)) as [item |] eqn:E; [| discriminate].
  apply find_some in E. destruct E as [Hin Hkey].
  exists item. split; [apply in_rev, Hin |]. split; [apply String.eqb_eq, Hkey | reflexivity].
Qed.

(** X18.  The address of PostgREST never fails to load.  In a configuration
    that loads, the PostgREST settings hold the keys 'host' and 'port' and no
    other; each is the value of the last row with that key when the query is
    answered with status 200 and has such a row, and the default
    ('127.0.0.1', '3010') otherwise; so [POSTGREST_BASE_URL] is defined. *)
Theorem load_config_postgrest (c : config) :
  load_config_from_db lower int get = Some c ->
  let reply := get "services"%string "postgrest-api"%string in
  reply <> HttpRaises
  /\ map fst (postgrest_config c) = ["host"; "port"]%string
  /\ dict_lookup "host" (postgrest_config c) = Some (reply_value reply "host" "127.0.0.1")
  /\ dict_lookup "port" (postgrest_config c) = Some (reply_value reply "port" "3010")
  /\ POSTGREST_BASE_URL c
     = Some ("http://" ++ reply_value reply "host" "127.0.0.1" ++ ":"
             ++ reply_value reply "port" "3010")%string.
Proof.
  intros H. destruct (load_config_parts c H) as (rows & ec & code & pdata & _ & _ & _ & _ & G & ->).
  cbv zeta. rewrite G. unfold POSTGREST_BASE_URL. cbn [postgrest_config reply_value].
  assert (L : forall k default,
              k = "host"%string \/ k = "port"%string ->
              dict_lookup k postgrest_defaults = Some default ->
              dict_lookup k (if code =? 200
                             then fold_left store_postgrest pdata postgrest_defaults
                             else postgrest_defaults)
              = Some (if code =? 200
                      then match last_row item_key k pdata with
                           | Some item => item_value item
                           | None => default
                           end
                      else default)).
  { intros k default Hk Hdef. destruct (code =? 200); [| exact Hdef].
    pose proof (lookup_fold_store
                  (fun item => String.eqb (item_key item) "host"
                               || String.eqb (item_key item) "port")
                  item_key item_value k pdata postgrest_defaults) as X.
    change (fold_left _ pdata postgrest_defaults)
      with (fold_left store_postgrest pdata postgrest_defaults) in X.
    rewrite X. clear X. unfold last_row.
    rewrite (find_same (fun item => (String.eqb (item_key item) "host"
                                     || String.eqb (item_key item) "port")
                                    && String.eqb (item_key item) k)
               (fun item => String.eqb (item_key item) k)).
    - destruct (find _ (rev pdata)); [reflexivity | exact Hdef].
    - intros x. destruct (String.eqb (item_key x) k) eqn:E; [| apply andb_false_r].
      apply String.eqb_eq in E. rewrite E. destruct Hk as [-> | ->]; reflexivity. }
  split; [discriminate |]. split.
  { destruct (code =? 200); [| reflexivity]. apply keys_fold_postgrest. reflexivity. }
  rewrite (L "host" "127.0.0.1" (or_introl eq_refl) eq_refl)%string.
  rewrite (L "port" "3010" (or_intror eq_refl) eq_refl)%string.
  repeat split.
Qed.

(** X19.  The exchange settings are not checked when they load.  In a
    configuration that loads, the query of each of the sections 'api',
    'database' and 'scheduler' was answered.  A section answered with
    another status than 200 is absent, so reading any of its settings
    raises.  In a section answered with status 200 every row converts, and
    the setting under a key is the one of the last row whose key, with '-'
    replaced by '_', is that key: a flag for 'enabled', a number for the
    hour and the minute of the daily update, the text of the row
    otherwise. *)
Theorem load_config_exchange (c : config) (section : string) :
  load_config_from_db lower int get = Some c ->
  In section exchange_sections ->
  exists status_code rows,
    get "exchange"%string section = HttpStatus status_code rows
    /\ (status_code <> 200 -> forall key, exchange_setting c section key = None)
    /\ (status_code = 200 ->
        (forall item, In item rows -> convert lower int item <> None)
        /\ forall key,
             exchange_setting c section key
             = match last_row (fun item => replace_dash (item_key item)) key rows with
               | Some item => option_map snd (convert lower int item)
               | None => None
               end).
Proof.
  intros H Hs. destruct (load_config_parts c H) as (rows0 & ec & code0 & pdata & _ & _ & _ & S & _ & ->).
  assert (N : NoDup exchange_sections).
  { unfold exchange_sections. repeat constructor; cbn; intuition discriminate. }
  destruct (load_sections_lookup exchange_sections N [] ec S) as [_ I].
  destruct (I section Hs) as (code & rows & G & X).
  exists code, rows. split; [exact G |]. unfold exchange_setting. cbn [exchange_config].
  destruct (Z.eqb_spec code 200) as [-> | Hc].
  - split; [intros F; contradiction |]. intros _.
    destruct X as (d & L & ->).
    destruct (load_section_lookup rows [] d L) as [L1 L2].
    split; [exact L1 |]. intros key. rewrite L2. reflexivity.
  - split; [| intros F; contradiction]. intros _ key. rewrite X. reflexivity.
Qed.

End StartupProperties.

Lemma load_config_service_witness :
  exists c,
    load_config_from_db (fun s => s) demo_int demo_get = Some c
    /\ dict_lookup "port" (service_config c) = Some "5001"%string.
Proof.
  destruct (load_config_from_db (fun s => s) demo_int demo_get) as [c |] eqn:E;
    [| vm_compute in E; discriminate].
  exists c. split; [reflexivity |].
  destruct (load_config_service (fun s => s) demo_int demo_get c E) as (rows & G & _ & L & _).
  rewrite L. vm_compute in G. injection G as <-. reflexivity.
Defined.

Lemma load_config_postgrest_witness :
  exists c,
    load_config_from_db (fun s => s) demo_int demo_get = Some c
    /\ POSTGREST_BASE_URL c = Some "http://127.0.0.1:3011"%string.
Proof.
  destruct (load_config_from_db (fun s => s) demo_int demo_get) as [c |] eqn:E;
    [| vm_compute in E; discriminate].
  exists c. split; [reflexivity |].
  destruct (load_config_postgrest (fun s => s) demo_int demo_get c E) as (_ & _ & _ & _ & U).
  rewrite U. vm_compute. reflexivity.
Defined.

Lemma load_config_exchange_witness :
  exists c,
    load_config_from_db (fun s => s) demo_int demo_get = Some c
    /\ EXCHANGE_RATES_TABLE c = Some (SettingStr "exchange_rates")
    /\ exchange_setting c "scheduler" "enabled" = None.
Proof.
  destruct (load_config_from_db (fun s => s) demo_int demo_get) as [c |] eqn:E;
    [| vm_compute in E; discriminate].
  exists c. split; [reflexivity |].
  assert (D : In "database"%string exchange_sections) by (right; left; reflexivity).
  assert (S : In "scheduler"%string exchange_sections) by (right; right; left; reflexivity).
  destruct (load_config_exchange (fun s => s) demo_int demo_get c "database" E D)
    as (code & rows & G & _ & H).
  destruct (load_config_exchange (fun s => s) demo_int demo_get c "scheduler" E S)
    as (code' & rows' & G' & H' & _).
  vm_compute in G. injection G as <- <-.
  vm_compute in G'. injection G' as <- <-.
  split.
  - unfold EXCHANGE_RATES_TABLE. destruct (H eq_refl) as [_ H2]. rewrite H2. reflexivity.
  - apply H'. discriminate.
Defined.
